(** * dcos_test_utils.dcos_api: a shallow embedding of [DcosApiSession]

    The Python module [dcos_test_utils/dcos_api.py] is a REST client for a
    DC/OS cluster.  This development embeds the parts of the class
    [DcosApiSession] that decide the readiness sequence [wait_for_dcos]:
    the node-list accessors, [get_args_from_env], topology discovery,
    the default-user login and the retried readiness probes.

    Python values are modelled as follows.
    - [str] is [string]; [sorted] on a list of [str] is a stable insertion
      sort on the code-point order ([String.leb]).
    - [None]-able attributes are [option]s.
    - Exceptions are the inductive [exn]; a computation that can raise
      returns a [result].
    - The HTTP layer ([helpers.ApiClientSession.get]/[post]) is an oracle:
      the [n]-th request of a run is answered by [network w n request].
    - The decorator [retrying.retry] is the loop [retry_call]; since some
      loops have no stop condition they are run on fuel, and [None] as an
      outcome means that the loop was still retrying when the fuel ran
      out.
    - Sessions are values.  Where two sessions hold the same [DcosUser]
      object ([get_user_session]), what one of them writes into it is
      written back to the other.
    - The headers of a request are a list of pairs looked up by the lower
      case of the key, as in the [CaseInsensitiveDict] of [requests]. *)

From Stdlib Require Import List String Ascii Bool Arith NArith ZArith Lia.
From Stdlib Require Import Sorting.Sorted Sorting.Permutation.
Import ListNotations.

Local Open Scope string_scope.
Local Open Scope list_scope.

(* ================================================================= *)
(** ** Python values used by the module *)

(** The exceptions the modelled code can raise. *)
Inductive exn : Type :=
| TypeError            (* an operation applied to [None] *)
| KeyError             (* a missing dictionary key *)
| ValueError           (* [r.json()] on a body that is not JSON *)
| AssertionError       (* a failed [assert] *)
| HTTPError (status_code : Z)   (* [r.raise_for_status()] *)
| ConnectionError      (* [requests.ConnectionError] *)
| RequestException     (* any other exception of the HTTP layer *)
| RetryError           (* [retrying.RetryError] *)
| HostListsException.  (* the [Exception] raised by [wait_for_dcos] *)

Inductive result (A : Type) : Type :=
| Ok (a : A)
| Raise (e : exn).
Arguments Ok {A} a.
Arguments Raise {A} e.

(** Scalar Python values, as found in the attribute dictionary of a Mesos
    agent and as the return values of the readiness probes. *)
Inductive pyval : Type :=
| PNone
| PBool (b : bool)
| PInt (z : Z)
| PStr (s : string).

Definition pyval_eqb (a b : pyval) : bool :=
  match a, b with
  | PNone, PNone => true
  | PBool x, PBool y => Bool.eqb x y
  | PInt x, PInt y => Z.eqb x y
  | PBool x, PInt y => Z.eqb (if x then 1 else 0)%Z y
  | PInt x, PBool y => Z.eqb x (if y then 1 else 0)%Z
  | PStr x, PStr y => String.eqb x y
  | _, _ => false
  end.

(** [d.get(k)] on a dictionary with string keys: [None] when absent. *)
Fixpoint dict_get (d : list (string * pyval)) (k : string) : pyval :=
  match d with
  | [] => PNone
  | (k', v) :: d' => if String.eqb k' k then v else dict_get d' k
  end.

(** [sorted(l)] for a list of [str]. *)
Fixpoint insert (x : string) (l : list string) : list string :=
  match l with
  | [] => [x]
  | y :: l' => if String.leb x y then x :: l else y :: insert x l'
  end.

Fixpoint sorted (l : list string) : list string :=
  match l with
  | [] => []
  | x :: l' => insert x (sorted l')
  end.

(** [s.split(sep)] for a one-character separator. *)
Fixpoint split (sep : ascii) (s : string) : list string :=
  match s with
  | EmptyString => [EmptyString]
  | String c s' =>
      if Ascii.eqb c sep then EmptyString :: split sep s'
      else match split sep s' with
           | [] => [String c EmptyString]
           | h :: t => String c h :: t
           end
  end.

(** [",".join((a, b))]: a [TypeError] when an item is [None]. *)
Definition join2 (a b : option string) : result string :=
  match a, b with
  | Some x, Some y => Ok (String.append x (String.append "," y))
  | _, _ => Raise TypeError
  end.

(** Truthiness of an optional string: [None] and [''] are false. *)
Definition truthy (s : option string) : bool :=
  match s with
  | None => false
  | Some EmptyString => false
  | Some _ => true
  end.

(* ================================================================= *)
(** ** [DcosUser] and the attributes of [DcosApiSession] *)

(** A login payload: a dictionary from strings to strings. *)
Definition credentials_t : Type := list (string * string).

Record DcosUser : Type := mkUser {
  credentials : credentials_t;
  auth_token : option string
}.

(** [self.session.auth] is either unset or a [DcosAuth] with a token. *)
Record DcosApiSession : Type := mkSession {
  master_list : option (list string);
  slave_list : option (list string);
  public_slave_list : option (list string);
  auth_user : option DcosUser;
  session_auth : option string
}.

(** The process environment, read through [os.getenv]. *)
Definition environ : Type := string -> option string.

Definition getenv_default (env : environ) (k d : string) : string :=
  match env k with Some v => v | None => d end.

(* ================================================================= *)
(** ** [get_args_from_env] *)

Record session_args : Type := mkArgs {
  arg_auth_user : DcosUser;
  arg_dcos_url : string;
  arg_masters : option (list string);
  arg_slaves : list string;
  arg_public_slaves : list string
}.

Section GetArgsFromEnv.

(** [helpers.CI_CREDENTIALS], a constant of a sibling module. *)
Variable CI_CREDENTIALS : credentials_t.

Definition get_args_from_env (env : environ) : result session_args :=
  let dcos_acs_token := env "DCOS_ACS_TOKEN" in
  let auth_user :=
    match dcos_acs_token with
    | None => mkUser CI_CREDENTIALS None
    | Some tok => mkUser [("token", "")] (Some tok)
    end in
  let masters := env "MASTER_HOSTS" in
  let slaves := env "SLAVE_HOSTS" in
  let windows_slaves := env "WINDOWS_HOSTS" in
  let public_slaves := env "PUBLIC_SLAVE_HOSTS" in
  let windows_public_slaves := env "WINDOWS_PUBLIC_HOSTS" in
  match (if truthy windows_slaves
         then match join2 slaves windows_slaves with
              | Ok s => Ok (Some s)
              | Raise e => Raise e
              end
         else Ok slaves) with
  | Raise e => Raise e
  | Ok slaves =>
    match (if truthy windows_public_slaves
           then match join2 public_slaves windows_public_slaves with
                | Ok s => Ok (Some s)
                | Raise e => Raise e
                end
           else Ok public_slaves) with
    | Raise e => Raise e
    | Ok public_slaves =>
        Ok {| arg_auth_user := auth_user;
              arg_dcos_url := getenv_default env "DCOS_DNS_ADDRESS" "http://leader.mesos";
              arg_masters := option_map (split ",") masters;
              arg_slaves := match slaves with
                            | Some s => split "," s
                            | None => []
                            end;
              arg_public_slaves := match public_slaves with
                                   | Some s => split "," s
                                   | None => []
                                   end |}
    end
  end.

End GetArgsFromEnv.

(** The constructor [DcosApiSession.__init__]. *)
Definition init (masters slaves public_slaves : option (list string))
    (user : option DcosUser) : DcosApiSession :=
  {| master_list := masters;
     slave_list := slaves;
     public_slave_list := public_slaves;
     auth_user := user;
     session_auth := None |}.

(* ================================================================= *)
(** ** The sorted accessors *)

(** [sorted(None)] raises a [TypeError]. *)
Definition sorted_opt (l : option (list string)) : result (list string) :=
  match l with
  | Some l => Ok (sorted l)
  | None => Raise TypeError
  end.

Definition masters (s : DcosApiSession) : result (list string) :=
  sorted_opt (master_list s).

Definition slaves (s : DcosApiSession) : result (list string) :=
  sorted_opt (slave_list s).

Definition public_slaves (s : DcosApiSession) : result (list string) :=
  sorted_opt (public_slave_list s).

Definition all_slaves (s : DcosApiSession) : result (list string) :=
  match slaves s with
  | Raise e => Raise e
  | Ok a =>
      match public_slaves s with
      | Raise e => Raise e
      | Ok b => Ok (sorted (a ++ b))
      end
  end.

(* ================================================================= *)
(** ** The HTTP layer *)

(** One entry of the ['slaves'] array served by Mesos. *)
Record agent : Type := mkAgent {
  agent_id : string;
  agent_hostname : string;
  agent_attributes : list (string * pyval)
}.

(** The decoded body of a response, [r.json()].  The constructors are the
    JSON documents the modelled endpoints serve; [NotJson] is a body on
    which [r.json()] raises. *)
Inductive body : Type :=
| NotJson
| Servers (servers : list string)            (* {"servers": [...]} *)
| Slaves (slaves : list agent)               (* {"slaves": [...]} *)
| ClusterStatus (hostnames : list string)    (* [{"hostname": ...}, ...] *)
| Token (token : string)                     (* {"token": ...} *)
| AgentState (id : option string)            (* {"version": ..., ["id": ...]} *)
| Units (units : list (string * Z)).         (* {"units": [{"id", "health"}]} *)

Record response : Type := mkResponse {
  status_code : Z;
  json : body
}.

Inductive http_method : Type := GET | POST.

Record request : Type := mkRequest {
  method : http_method;
  path : string;
  payload : option credentials_t
}.

(** What the HTTP layer does with a request: it returns a response or it
    raises; either takes [latency] milliseconds. *)
Inductive net_error : Type := Refused | Broken.

Inductive reply : Type :=
| Answer (latency : N) (r : response)
| Failure (latency : N) (e : net_error).

Definition exn_of_net_error (e : net_error) : exn :=
  match e with
  | Refused => ConnectionError
  | Broken => RequestException
  end.

(** The surroundings of a run: the process environment and the cluster,
    which answers the [n]-th request of the run. *)
Record world : Type := mkWorld {
  os_environ : environ;
  network : nat -> request -> reply
}.

(** The readiness sub-checks of [wait_for_dcos], in source order. *)
Inductive subcheck : Type :=
| AdminRouterUp
| Login
| TopologyResolution
| MarathonUp
| ZkQuorum
| SlavesToJoin
| SrouterSlavesEndpoints
| Metronome
| AllHealthyServices.

(** Observable events of a run.  [EvEnter] and [EvExit] bracket the calls
    that [wait_for_dcos] makes; [EvExit] is recorded on normal return. *)
Inductive event : Type :=
| EvRequest (rq : request)
| EvSleep (ms : N)
| EvEnter (c : subcheck)
| EvExit (c : subcheck).

Record state : Type := mkState {
  self : DcosApiSession;
  clock : N;           (* milliseconds *)
  nreq : nat;          (* requests sent so far *)
  trace : list event
}.

(** Computations: state passing, with exceptions; the outcome [None] is a
    retry loop that has used up its fuel. *)
Definition M (A : Type) : Type := world -> state -> option (result A) * state.

Definition ret {A} (a : A) : M A := fun _ st => (Some (Ok a), st).

Definition raise {A} (e : exn) : M A := fun _ st => (Some (Raise e), st).

Definition bind {A B} (m : M A) (k : A -> M B) : M B :=
  fun w st =>
    match m w st with
    | (Some (Ok a), st') => k a w st'
    | (Some (Raise e), st') => (Some (Raise e), st')
    | (None, st') => (None, st')
    end.

Declare Scope py_scope.
Delimit Scope py_scope with py.
Notation "x <- m ;; k" := (bind m (fun x => k))
  (at level 100, m at next level, right associativity) : py_scope.
Notation "m ;;; k" := (bind m (fun _ => k))
  (at level 100, right associativity) : py_scope.
Local Open Scope py_scope.

Definition lift {A} (r : result A) : M A := fun _ st => (Some r, st).

Definition get_self : M DcosApiSession := fun _ st => (Some (Ok (self st)), st).

Definition put_self (s : DcosApiSession) : M unit :=
  fun _ st =>
    (Some (Ok tt),
     {| self := s; clock := clock st; nreq := nreq st; trace := trace st |}).

Definition log_event (e : event) : M unit :=
  fun _ st =>
    (Some (Ok tt),
     {| self := self st; clock := clock st; nreq := nreq st;
        trace := trace st ++ [e] |}).

Definition getenv (k d : string) : M string :=
  fun w st => (Some (Ok (getenv_default (os_environ w) k d)), st).

Definition assert (b : bool) : M unit :=
  if b then ret tt else raise AssertionError.

(** [time.sleep(ms / 1000.0)]. *)
Definition sleep (ms : N) (st : state) : state :=
  {| self := self st; clock := (clock st + ms)%N; nreq := nreq st;
     trace := trace st ++ [EvSleep ms] |}.

(** [self.get(path)] and [self.post(path, json=...)]. *)
Definition send (rq : request) : M response :=
  fun w st =>
    let st' lat :=
      {| self := self st; clock := (clock st + lat)%N; nreq := S (nreq st);
         trace := trace st ++ [EvRequest rq] |} in
    match network w (nreq st) rq with
    | Answer lat r => (Some (Ok r), st' lat)
    | Failure lat e => (Some (Raise (exn_of_net_error e)), st' lat)
    end.

Definition get (p : string) : M response :=
  send {| method := GET; path := p; payload := None |}.

Definition post (p : string) (js : credentials_t) : M response :=
  send {| method := POST; path := p; payload := Some js |}.

(** [r.ok] and [r.raise_for_status()]. *)
Definition ok (r : response) : bool :=
  negb ((400 <=? status_code r)%Z && (status_code r <? 600)%Z).

Definition raise_for_status (r : response) : M unit :=
  if ok r then ret tt else raise (HTTPError (status_code r)).

(** Subscripting [r.json()] by a string key. *)
Definition missing_key {A} (b : body) : result A :=
  match b with
  | NotJson => Raise ValueError
  | ClusterStatus _ => Raise TypeError
  | _ => Raise KeyError
  end.

Definition json_servers (r : response) : result (list string) :=
  match json r with Servers l => Ok l | b => missing_key b end.

Definition json_slaves (r : response) : result (list agent) :=
  match json r with Slaves l => Ok l | b => missing_key b end.

Definition json_token (r : response) : result string :=
  match json r with Token t => Ok t | b => missing_key b end.

Definition json_units (r : response) : result (list (string * Z)) :=
  match json r with Units l => Ok l | b => missing_key b end.

(** [[n['hostname'] for n in r.json()]]: iterating over a JSON object
    yields its keys, and subscripting a key by a string raises. *)
Definition json_hostnames (r : response) : result (list string) :=
  match json r with
  | ClusterStatus l => Ok l
  | NotJson => Raise ValueError
  | _ => Raise TypeError
  end.

(** [data = r.json()] followed by the lookup of ["id"]. *)
Definition json_id (r : response) : result (option string) :=
  match json r with
  | NotJson => Raise ValueError
  | AgentState i => Ok i
  | _ => Ok None
  end.

(* ================================================================= *)
(** ** The decorator [retrying.retry] *)

(** [retrying] is the third-party package behind the decorators of the
    module; what follows is its [Retrying] class restricted to the keyword
    arguments the module passes.  An absent [retry_on_result] never
    rejects, an absent [retry_on_exception] always rejects, and without a
    stop argument the loop never stops.  Time is the millisecond clock of
    the state: a request takes the latency of its reply and a sleep takes
    [wait_fixed]. *)
Record retry_args : Type := mkRetry {
  wait_fixed : N;
  retry_on_result : option (pyval -> bool);
  retry_on_exception : option (exn -> bool);
  stop_max_attempt_number : option nat;
  stop_max_delay : option N
}.

(** [Retrying.should_reject]. *)
Definition should_reject (p : retry_args) (attempt : result pyval) : bool :=
  match attempt with
  | Raise e =>
      match retry_on_exception p with Some f => f e | None => true end
  | Ok v =>
      match retry_on_result p with Some f => f v | None => false end
  end.

(** [Retrying.stop]: any of the configured stop functions fires. *)
Definition stop (p : retry_args) (attempt_number : nat) (delay : N) : bool :=
  match stop_max_attempt_number p with
  | Some n => (n <=? attempt_number)%nat
  | None => false
  end
  || match stop_max_delay p with
     | Some d => (d <=? delay)%N
     | None => false
     end.

(** [Retrying.call]: the loop, started at [attempt_number = 1]. *)
Fixpoint retry_call (p : retry_args) (fn : M pyval) (fuel : nat)
    (attempt_number : nat) (start_time : N) : M pyval :=
  fun w st =>
    match fuel with
    | O => (None, st)
    | S fuel' =>
        match fn w st with
        | (None, st1) => (None, st1)
        | (Some attempt, st1) =>
            if negb (should_reject p attempt) then (Some attempt, st1)
            else if stop p attempt_number (clock st1 - start_time)%N then
              match attempt with
              | Raise e => (Some (Raise e), st1)
              | Ok _ => (Some (Raise RetryError), st1)
              end
            else
              retry_call p fn fuel' (S attempt_number) start_time w
                (sleep (wait_fixed p) st1)
        end
    end.

Definition retry (p : retry_args) (fn : M pyval) (fuel : nat) : M pyval :=
  fun w st => retry_call p fn fuel 1 (clock st) w st.

(** [lambda ret: ret is False] and [lambda x: False]. *)
Definition is_False (v : pyval) : bool :=
  match v with PBool false => true | _ => false end.

Definition never (_ : exn) : bool := false.

(* ================================================================= *)
(** ** Topology discovery and login *)

Definition set_master_list (l : list string) : M unit :=
  s <- get_self ;;
  put_self {| master_list := Some l; slave_list := slave_list s;
              public_slave_list := public_slave_list s;
              auth_user := auth_user s; session_auth := session_auth s |}.

Definition set_slave_list (l : list string) : M unit :=
  s <- get_self ;;
  put_self {| master_list := master_list s; slave_list := Some l;
              public_slave_list := public_slave_list s;
              auth_user := auth_user s; session_auth := session_auth s |}.

Definition set_public_slave_list (l : list string) : M unit :=
  s <- get_self ;;
  put_self {| master_list := master_list s; slave_list := slave_list s;
              public_slave_list := Some l;
              auth_user := auth_user s; session_auth := session_auth s |}.

Definition set_session_auth (tok : string) : M unit :=
  s <- get_self ;;
  put_self {| master_list := master_list s; slave_list := slave_list s;
              public_slave_list := public_slave_list s;
              auth_user := auth_user s; session_auth := Some tok |}.

Definition set_auth_token (tok : string) : M unit :=
  s <- get_self ;;
  put_self {| master_list := master_list s; slave_list := slave_list s;
              public_slave_list := public_slave_list s;
              auth_user := option_map
                             (fun u => {| credentials := credentials u;
                                          auth_token := Some tok |})
                             (auth_user s);
              session_auth := session_auth s |}.

Definition is_set {A} (o : option A) : bool :=
  match o with Some _ => true | None => false end.

(** [s['attributes'].get('public_ip') == 'true']. *)
Definition is_public (s : agent) : bool :=
  pyval_eqb (dict_get (agent_attributes s) "public_ip") (PStr "true").

Definition private_hostnames (slaves_json : list agent) : list string :=
  map agent_hostname (filter (fun s => negb (is_public s)) slaves_json).

Definition public_hostnames (slaves_json : list agent) : list string :=
  map agent_hostname (filter is_public slaves_json).

Definition set_node_lists_if_unset : M unit :=
  (s <- get_self ;;
   if is_set (master_list s) then ret tt
   else
     r <- get "/exhibitor/exhibitor/v1/cluster/list" ;;
     raise_for_status r ;;;
     servers <- lift (json_servers r) ;;
     set_master_list (sorted servers)) ;;;
  s <- get_self ;;
  if is_set (slave_list s) && is_set (public_slave_list s) then ret tt
  else
    r <- get "/mesos/slaves" ;;
    raise_for_status r ;;;
    slaves_json <- lift (json_slaves r) ;;
    (s <- get_self ;;
     if is_set (slave_list s) then ret tt
     else set_slave_list (sorted (private_hostnames slaves_json))) ;;;
    (s <- get_self ;;
     if is_set (public_slave_list s) then ret tt
     else set_public_slave_list (sorted (public_hostnames slaves_json))).

(** The body of [login_default_user]. *)
Definition login_default_user_once : M pyval :=
  s <- get_self ;;
  match auth_user s with
  | None => ret PNone
  | Some u =>
      match auth_token u with
      | Some tok => set_session_auth tok ;;; ret PNone
      | None =>
          r <- post "/acs/api/v1/auth/login" (credentials u) ;;
          raise_for_status r ;;;
          tok <- lift (json_token r) ;;
          set_auth_token tok ;;;
          set_session_auth tok ;;;
          ret PNone
      end
  end.

Definition login_retry : retry_args :=
  {| wait_fixed := 5000; retry_on_result := None; retry_on_exception := None;
     stop_max_attempt_number := None; stop_max_delay := Some (120 * 1000)%N |}.

Definition login_default_user (fuel : nat) : M pyval :=
  retry login_retry login_default_user_once fuel.

(* ================================================================= *)
(** ** The readiness probes *)

(** The arguments shared by most probes:
    [retry_on_result=lambda ret: ret is False],
    [retry_on_exception=lambda x: False]. *)
Definition probe_retry (wait : N) (max_attempts : option nat) : retry_args :=
  {| wait_fixed := wait; retry_on_result := Some is_False;
     retry_on_exception := Some never;
     stop_max_attempt_number := max_attempts; stop_max_delay := None |}.

Definition status_in (r : response) (codes : list Z) : bool :=
  existsb (Z.eqb (status_code r)) codes.

Definition _wait_for_marathon_up_once : M pyval :=
  r <- get "/marathon/v2/info" ;;
  if (status_code r =? 200)%Z then ret (PBool true) else ret (PBool false).

Definition _wait_for_marathon_up (fuel : nat) : M pyval :=
  retry (probe_retry 1000 None) _wait_for_marathon_up_once fuel.

Definition _wait_for_zk_quorum_once : M pyval :=
  r <- get "/exhibitor/exhibitor/v1/cluster/status" ;;
  (if negb (ok r) then raise_for_status r else ret tt) ;;;
  status <- lift (json_hostnames r) ;;
  let zk_nodes := sorted status in
  s <- get_self ;;
  m <- lift (masters s) ;;
  assert (List.length zk_nodes =? List.length m)%nat ;;;
  ret PNone.

Definition zk_quorum_retry : retry_args :=
  {| wait_fixed := 1000; retry_on_result := None; retry_on_exception := None;
     stop_max_attempt_number := None; stop_max_delay := None |}.

Definition _wait_for_zk_quorum (fuel : nat) : M pyval :=
  retry zk_quorum_retry _wait_for_zk_quorum_once fuel.

Definition _wait_for_slaves_to_join_once : M pyval :=
  r <- get "/mesos/master/slaves" ;;
  if negb (status_code r =? 200)%Z then ret (PBool false)
  else
    data <- lift (json_slaves r) ;;
    let num_slaves := List.length data in
    s <- get_self ;;
    expected <- lift (all_slaves s) ;;
    if (List.length expected <=? num_slaves)%nat then ret (PBool true)
    else ret (PBool false).

Definition _wait_for_slaves_to_join (fuel : nat) : M pyval :=
  retry (probe_retry 1000 None) _wait_for_slaves_to_join_once fuel.

(** [try: self.get('/') except requests.ConnectionError: ... else: ...]. *)
Definition _wait_for_adminrouter_up_once : M pyval :=
  fun w st =>
    match get "/" w st with
    | (Some (Ok _), st') => (Some (Ok (PBool true)), st')
    | (Some (Raise ConnectionError), st') => (Some (Ok (PBool false)), st')
    | (Some (Raise e), st') => (Some (Raise e), st')
    | (None, st') => (None, st')
    end.

Definition _wait_for_adminrouter_up (fuel : nat) : M pyval :=
  retry (probe_retry 1000 None) _wait_for_adminrouter_up_once fuel.

(** [x['id'] for x in data['slaves'] if x['hostname'] in self.all_slaves]:
    the property [all_slaves] is evaluated once per element. *)
Fixpoint expected_ids (s : DcosApiSession) (l : list agent)
    : result (list string) :=
  match l with
  | [] => Ok []
  | x :: l' =>
      match all_slaves s with
      | Raise e => Raise e
      | Ok known =>
          match expected_ids s l' with
          | Raise e => Raise e
          | Ok ids =>
              if existsb (String.eqb (agent_hostname x)) known
              then Ok (agent_id x :: ids)
              else Ok ids
          end
      end
  end.

Definition in_progress_status_codes : list Z := [404; 502; 503]%Z.

Definition slave_state_uri (slave_id : string) : string :=
  String.append "/slave/" (String.append slave_id "/slave%281%29/state").

(** The [for slave_id in slaves_ids] loop; falling off its end returns
    [None]. *)
Fixpoint check_slave_endpoints (slaves_ids : list string) : M pyval :=
  match slaves_ids with
  | [] => ret PNone
  | slave_id :: rest =>
      r <- get (slave_state_uri slave_id) ;;
      if status_in r in_progress_status_codes then ret (PBool false)
      else
        assert (status_code r =? 200)%Z ;;;
        data_id <- lift (json_id r) ;;
        assert (is_set data_id) ;;;
        assert (match data_id with
                | Some i => String.eqb i slave_id
                | None => false
                end) ;;;
        check_slave_endpoints rest
  end.

Definition _wait_for_srouter_slaves_endpoints_once : M pyval :=
  r <- get "/mesos/master/slaves" ;;
  if (status_code r =? 502)%Z then ret (PBool false)
  else
    assert (status_code r =? 200)%Z ;;;
    data <- lift (json_slaves r) ;;
    s <- get_self ;;
    ids <- lift (expected_ids s data) ;;
    check_slave_endpoints (sorted ids).

Definition _wait_for_srouter_slaves_endpoints (fuel : nat) : M pyval :=
  retry (probe_retry 2000 (Some 60)) _wait_for_srouter_slaves_endpoints_once
    fuel.

Definition expected_error_codes : list Z := [404; 504]%Z.

Definition _wait_for_metronome_once : M pyval :=
  r <- get "/service/metronome/v1/jobs" ;;
  if status_in r expected_error_codes || (500 <=? status_code r)%Z
  then ret (PBool false)
  else
    assert (status_code r =? 200)%Z ;;;
    ret PNone.

Definition _wait_for_metronome (fuel : nat) : M pyval :=
  retry (probe_retry 2000 None) _wait_for_metronome_once fuel.

(** The property [health] evaluates [self.masters] and [self.all_slaves]
    to build the [Diagnostics] client, whose requests are rooted at
    [system/health/v1]. *)
Definition health_get (p : string) : M response :=
  s <- get_self ;;
  lift (masters s) ;;;
  lift (all_slaves s) ;;;
  get (String.append "/system/health/v1" p).

Definition _wait_for_all_healthy_services_once : M pyval :=
  r <- health_get "/units" ;;
  raise_for_status r ;;;
  units <- lift (json_units r) ;;
  let all_healthy := forallb (fun unit => (snd unit =? 0)%Z) units in
  ret (PBool all_healthy).

Definition _wait_for_all_healthy_services (fuel : nat) : M pyval :=
  retry (probe_retry 2000 None) _wait_for_all_healthy_services_once fuel.

(* ================================================================= *)
(** ** [wait_for_dcos] *)

(** A call made by [wait_for_dcos], bracketed in the trace. *)
Definition call {A} (c : subcheck) (m : M A) : M unit :=
  log_event (EvEnter c) ;;;
  m ;;;
  log_event (EvExit c).

Definition wait_for_dcos (fuel : nat) : M unit :=
  call AdminRouterUp (_wait_for_adminrouter_up fuel) ;;;
  call Login (login_default_user fuel) ;;;
  env_value <- getenv "WAIT_FOR_HOSTS" "true" ;;
  let wait_for_hosts := String.eqb env_value "true" in
  s <- get_self ;;
  let master_list_set := is_set (master_list s) in
  let slave_list_set := is_set (slave_list s) in
  let public_slave_list_set := is_set (public_slave_list s) in
  let node_lists_set :=
    forallb (fun b => b)
      [master_list_set; slave_list_set; public_slave_list_set] in
  if wait_for_hosts && negb node_lists_set then raise HostListsException
  else
    call TopologyResolution set_node_lists_if_unset ;;;
    call MarathonUp (_wait_for_marathon_up fuel) ;;;
    call ZkQuorum (_wait_for_zk_quorum fuel) ;;;
    call SlavesToJoin (_wait_for_slaves_to_join fuel) ;;;
    call SrouterSlavesEndpoints (_wait_for_srouter_slaves_endpoints fuel) ;;;
    call Metronome (_wait_for_metronome fuel) ;;;
    call AllHealthyServices (_wait_for_all_healthy_services fuel).

(** The state in which a run starts: nothing sent yet. *)
Definition initial_state (s : DcosApiSession) : state :=
  {| self := s; clock := 0; nreq := 0; trace := [] |}.

(* ================================================================= *)
(** ** Example clusters *)

Definition agent1 : agent :=
  {| agent_id := "S1"; agent_hostname := "10.0.0.2";
     agent_attributes := [] |}.

Definition agent2 : agent :=
  {| agent_id := "S0"; agent_hostname := "10.0.0.3";
     agent_attributes := [("public_ip", PStr "true")] |}.

Definition path_is (rq : request) (p : string) : bool := String.eqb (path rq) p.

(** A cluster with one master, a private and a public agent, in which
    every service is up. *)
Definition healthy_cluster (_ : nat) (rq : request) : reply :=
  Answer 10
    {| status_code := 200;
       json :=
         if path_is rq "/acs/api/v1/auth/login" then Token "secret"
         else if path_is rq "/exhibitor/exhibitor/v1/cluster/list"
         then Servers ["10.0.0.1"]
         else if path_is rq "/exhibitor/exhibitor/v1/cluster/status"
         then ClusterStatus ["10.0.0.1"]
         else if path_is rq "/mesos/slaves" then Slaves [agent1; agent2]
         else if path_is rq "/mesos/master/slaves" then Slaves [agent1; agent2]
         else if path_is rq (slave_state_uri "S0") then AgentState (Some "S0")
         else if path_is rq (slave_state_uri "S1") then AgentState (Some "S1")
         else if path_is rq "/system/health/v1/units" then Units [("dcos-mesos-master", 0%Z)]
         else NotJson |}.

(** A cluster that answers every request with the same status code. *)
Definition stuck_cluster (code : Z) (b : body) (_ : nat) (_ : request) : reply :=
  Answer 10 {| status_code := code; json := b |}.

(** A cluster whose first [n] answers carry [code] and which is healthy
    afterwards. *)
Definition late_cluster (n : nat) (code : Z) (k : nat) (rq : request) : reply :=
  if (k <? n)%nat then stuck_cluster code NotJson k rq else healthy_cluster k rq.

Definition empty_env : environ := fun _ => None.

Definition no_wait_env : environ :=
  fun k => if String.eqb k "WAIT_FOR_HOSTS" then Some "false" else None.

Definition ci_user : DcosUser :=
  {| credentials := [("uid", "bootstrapuser")]; auth_token := None |}.

(* ================================================================= *)
(** ** Vocabulary of the properties *)

(** The order behind [sorted]. *)
Definition str_le (a b : string) : Prop := String.leb a b = true.

(** The bracketing events of a trace. *)
Definition is_mark (e : event) : bool :=
  match e with
  | EvEnter _ | EvExit _ => true
  | _ => false
  end.

Definition marks (tr : list event) : list event := filter is_mark tr.

Definition subcheck_order : list subcheck :=
  [AdminRouterUp; Login; TopologyResolution; MarathonUp; ZkQuorum;
   SlavesToJoin; SrouterSlavesEndpoints; Metronome; AllHealthyServices].

Definition expected_marks : list event :=
  flat_map (fun c => [EvEnter c; EvExit c]) subcheck_order.

(** The first two statements of [wait_for_dcos]. *)
Definition wait_for_dcos_entry (fuel : nat) : M unit :=
  call AdminRouterUp (_wait_for_adminrouter_up fuel) ;;;
  call Login (login_default_user fuel).

(** The guard of [wait_for_dcos] on the host lists. *)
Definition wait_for_dcos_guard : M unit :=
  env_value <- getenv "WAIT_FOR_HOSTS" "true" ;;
  s <- get_self ;;
  if String.eqb env_value "true"
     && negb (forallb (fun b => b)
                [is_set (master_list s); is_set (slave_list s);
                 is_set (public_slave_list s)])
  then raise HostListsException
  else ret tt.

(** The statements of [wait_for_dcos] after topology resolution. *)
Definition wait_for_dcos_checks (fuel : nat) : M unit :=
  call MarathonUp (_wait_for_marathon_up fuel) ;;;
  call ZkQuorum (_wait_for_zk_quorum fuel) ;;;
  call SlavesToJoin (_wait_for_slaves_to_join fuel) ;;;
  call SrouterSlavesEndpoints (_wait_for_srouter_slaves_endpoints fuel) ;;;
  call Metronome (_wait_for_metronome fuel) ;;;
  call AllHealthyServices (_wait_for_all_healthy_services fuel).

(** [WAIT_FOR_HOSTS] is unset or ['true']. *)
Definition wait_for_hosts_enabled (w : world) : Prop :=
  getenv_default (os_environ w) "WAIT_FOR_HOSTS" "true" = "true".

Definition node_lists_set (s : DcosApiSession) : bool :=
  is_set (master_list s) && is_set (slave_list s)
  && is_set (public_slave_list s).

(** Relations between the state before and after a computation. *)
Definition same_marks (st st' : state) : Prop :=
  marks (trace st') = marks (trace st).

Definition same_lists (st st' : state) : Prop :=
  master_list (self st') = master_list (self st) /\
  slave_list (self st') = slave_list (self st) /\
  public_slave_list (self st') = public_slave_list (self st).

(** The events that the admin-router check and the login produce. *)
Definition entry_event (e : event) : Prop :=
  match e with
  | EvRequest rq =>
      rq = {| method := GET; path := "/"; payload := None |} \/
      (method rq = POST /\ path rq = "/acs/api/v1/auth/login")
  | EvSleep _ => True
  | EvEnter c | EvExit c => c = AdminRouterUp \/ c = Login
  end.

Definition entry_only (st st' : state) : Prop :=
  exists l, trace st' = trace st ++ l /\ Forall entry_event l.

(** The state after [log_event e]. *)
Definition logged (e : event) (st : state) : state :=
  {| self := self st; clock := clock st; nreq := nreq st;
     trace := trace st ++ [e] |}.
Arguments logged : simpl never.

(** [m] moves every state along [R]. *)
Definition steps {A} (R : state -> state -> Prop) (m : M A) : Prop :=
  forall w st, R st (snd (m w st)).

(** The marks that [m] adds are a prefix of [E], all of [E] exactly when
    [m] returns normally. *)
Definition follows (E : list event) (m : M unit) : Prop :=
  forall w st,
    exists k,
      k <= List.length E /\
      marks (trace (snd (m w st))) = marks (trace st) ++ firstn k E /\
      (fst (m w st) = Some (Ok tt) <-> k = List.length E).



(** The first answer a probe gets in state [st]. *)
Definition answered (w : world) (st : state) (r : response) : Prop :=
  forall rq, exists lat, network w (nreq st) rq = Answer lat r.

(** Two readings of the specification that the code does not follow.
    The first: with waiting enabled and a list missing, [wait_for_dcos]
    raises before anything has run, so that the trace of the run is
    empty.  The second: with waiting enabled and a list missing, a run
    whose entry checks pass ends with the three lists populated. *)
Definition raises_before_any_subcheck : Prop :=
  forall fuel w s,
    wait_for_hosts_enabled w -> node_lists_set s = false ->
    (exists e, fst (wait_for_dcos fuel w (initial_state s)) = Some (Raise e)) /\
    trace (snd (wait_for_dcos fuel w (initial_state s))) = [].

Definition discovers_when_waiting : Prop :=
  forall fuel w s,
    wait_for_hosts_enabled w -> node_lists_set s = false ->
    fst (wait_for_dcos_entry fuel w (initial_state s)) = Some (Ok tt) ->
    node_lists_set (self (snd (wait_for_dcos fuel w (initial_state s)))) = true.

(** The worlds and the session of the examples. *)
Definition waiting_world : world :=
  {| os_environ := empty_env; network := healthy_cluster |}.

Definition no_wait_world : world :=
  {| os_environ := no_wait_env; network := healthy_cluster |}.

Definition bare_session : DcosApiSession :=
  init None None None (Some ci_user).

(** [m] never runs out of fuel. *)
Definition total {A} (m : M A) : Prop :=
  forall w st, fst (m w st) <> None.

(** Clusters on which a probe is never ready. *)
Definition unavailable_world : world :=
  {| os_environ := empty_env; network := stuck_cluster 503 NotJson |}.

Definition bad_gateway_world : world :=
  {| os_environ := empty_env; network := stuck_cluster 502 NotJson |}.

Definition unhealthy_world : world :=
  {| os_environ := empty_env;
     network := stuck_cluster 200 (Units [("dcos-marathon", 1%Z)]) |}.

Definition full_session : DcosApiSession :=
  init (Some ["10.0.0.1"]) (Some ["10.0.0.2"]) (Some ["10.0.0.3"])
    (Some ci_user).





(* ================================================================= *)
(** ** The rest of the class *)

(** ['token={}'.format(auth_token)]; [None] is formatted as ['None']. *)
Definition format_token (tok : option string) : string :=
  String.append "token="
    (match tok with Some t => t | None => "None" end).

(** [DcosUser.auth_header]. *)
Definition auth_header (u : DcosUser) : list (string * string) :=
  [("Authorization", format_token (auth_token u))].

(** [d.get(k)] on a dictionary of strings. *)
Fixpoint dict_lookup (d : list (string * string)) (k : string)
    : option string :=
  match d with
  | [] => None
  | (k', v) :: d' => if String.eqb k' k then Some v else dict_lookup d' k
  end.

(** The headers of a request are a [CaseInsensitiveDict] of [requests]:
    keys are compared by their lower case, and an assignment keeps the
    place of the entry and the spelling of the key assigned last.
    [lower] is [str.lower]. *)
Section Headers.

Variable lower : string -> string.

Fixpoint headers_set (h : list (string * string)) (k v : string)
    : list (string * string) :=
  match h with
  | [] => [(k, v)]
  | (k', v') :: h' =>
      if String.eqb (lower k') (lower k) then (k, v) :: h'
      else (k', v') :: headers_set h' k v
  end.

Fixpoint headers_get (h : list (string * string)) (k : string)
    : option string :=
  match h with
  | [] => None
  | (k', v) :: h' =>
      if String.eqb (lower k') (lower k) then Some v else headers_get h' k
  end.

(** [DcosAuth(auth_token).__call__(request)], on the headers of the
    request. *)
Definition DcosAuth_call (tok : string) (headers : list (string * string))
    : list (string * string) :=
  headers_set headers "Authorization" (format_token (Some tok)).

End Headers.

(** [str.lower] on ASCII text. *)
Definition ascii_lower (c : ascii) : ascii :=
  let n := nat_of_ascii c in
  if (65 <=? n)%nat && (n <=? 90)%nat then ascii_of_nat (n + 32) else c.

Fixpoint str_lower (s : string) : string :=
  match s with
  | EmptyString => EmptyString
  | String c s' => String (ascii_lower c) (str_lower s')
  end.

(** Replaces the object the methods run on. *)
Definition with_self (s : DcosApiSession) (st : state) : state :=
  {| self := s; clock := clock st; nreq := nreq st; trace := trace st |}.

(** [DcosApiSession.create]: the session is built from the environment
    and logged in; the state it returns in runs on the new session. *)
Definition create (CI_CREDENTIALS : credentials_t) (fuel : nat)
    : M DcosApiSession :=
  fun w st =>
    match get_args_from_env CI_CREDENTIALS (os_environ w) with
    | Raise e => (Some (Raise e), st)
    | Ok args =>
        let api := init (arg_masters args) (Some (arg_slaves args))
                     (Some (arg_public_slaves args))
                     (Some (arg_auth_user args)) in
        match login_default_user fuel w (with_self api st) with
        | (Some (Ok _), st') => (Some (Ok (self st')), st')
        | (Some (Raise e), st') => (Some (Raise e), st')
        | (None, st') => (None, st')
        end
    end.

(** [copy]: a deep copy, whose cookies (not modelled) are cleared. *)
Definition copy (s : DcosApiSession) : DcosApiSession := s.

(** The [user] handed to [get_user_session]: [None], the very [DcosUser]
    object that the session holds as its [auth_user], or an object of the
    caller's own. *)
Inductive user_argument : Type :=
| NoUser
| SessionUser
| OtherUser (u : DcosUser).

Definition user_object (s : DcosApiSession) (user : user_argument)
    : option DcosUser :=
  match user with
  | NoUser => None
  | SessionUser => auth_user s
  | OtherUser u => Some u
  end.

(** [get_user_session]: the copy is logged in as [user]; the session it
    was copied from is the one the state goes on with.  The assignment
    [new.auth_user = user] shares the caller's object with the copy, and
    the login writes the token into that object: when the object is the
    [auth_user] of the session the call is made on, that session holds the
    token as well. *)
Definition get_user_session (user : user_argument) (fuel : nat)
    : M DcosApiSession :=
  fun w st =>
    let new := copy (self st) in
    let new := {| master_list := master_list new;
                  slave_list := slave_list new;
                  public_slave_list := public_slave_list new;
                  auth_user := None; session_auth := None |} in
    match user_object (self st) user with
    | None => (Some (Ok new), st)
    | Some u =>
        let new := {| master_list := master_list new;
                      slave_list := slave_list new;
                      public_slave_list := public_slave_list new;
                      auth_user := Some u; session_auth := None |} in
        let back (st' : state) : state :=
          match user with
          | SessionUser =>
              with_self {| master_list := master_list (self st);
                           slave_list := slave_list (self st);
                           public_slave_list := public_slave_list (self st);
                           auth_user := auth_user (self st');
                           session_auth := session_auth (self st) |} st'
          | _ => with_self (self st) st'
          end in
        match login_default_user fuel w (with_self new st) with
        | (Some (Ok _), st') => (Some (Ok (self st')), back st')
        | (Some (Raise e), st') => (Some (Raise e), back st')
        | (None, st') => (None, back st')
        end
    end.

(** The property [exhibitor], as the address it builds: through the
    admin router, or the first master on port 8181 when a password is
    set.  [self.masters[0]] fails on a missing and on an empty list. *)
Inductive exhibitor_address : Type :=
| ThroughAdminRouter
| Direct (url : string)
| MastersTypeError
| MastersIndexError.

Definition exhibitor (s : DcosApiSession)
    (exhibitor_admin_password : option string) : exhibitor_address :=
  match exhibitor_admin_password with
  | None => ThroughAdminRouter
  | Some _ =>
      match masters s with
      | Raise _ => MastersTypeError
      | Ok [] => MastersIndexError
      | Ok (m :: _) =>
          Direct (String.append "http://" (String.append m ":8181"))
      end
  end.

(* ================================================================= *)
(** ** The sandbox helpers *)

(** The agent state served at [/agent/<id>/state], as far as the helpers
    read it. *)
Record executor_json : Type := mkExecutor {
  ex_id : string;              (* ['id'] *)
  ex_directory : string        (* ['directory'] *)
}.

Record framework_json : Type := mkFramework {
  fw_id : string;                          (* ['id'] *)
  fw_executors : list executor_json        (* ['executors'] *)
}.

Inductive document : Type :=
| NoDocument                                         (* not JSON *)
| AgentStateDoc (frameworks : list framework_json)   (* {"frameworks": [...]} *)
| OtherDoc.                                          (* any other object *)

Record file_response : Type := mkFileResponse {
  file_status : Z;
  file_text : string;
  file_json : document
}.

Record file_request : Type := mkFileRequest {
  file_path : string;
  file_params : list (string * string)
}.

(** The two [Exception]s of the helpers, beside the exceptions above. *)
Inductive sandbox_exn : Type :=
| Native (e : exn)
| FrameworkNotFound (framework slave : string)
| ExecutorNotFound (task framework slave : string).

Inductive sandbox_result (A : Type) : Type :=
| Found (a : A)
| Failed (e : sandbox_exn).
Arguments Found {A} a.
Arguments Failed {A} e.

(** The agent answers the [n]-th request; the state is the list of the
    requests sent so far. *)
Definition agent_world : Type := nat -> file_request -> file_response + net_error.

Definition Agent (A : Type) : Type :=
  agent_world -> list file_request -> sandbox_result A * list file_request.

Definition agent_bind {A B} (m : Agent A) (k : A -> Agent B) : Agent B :=
  fun w sent =>
    match m w sent with
    | (Found a, sent') => k a w sent'
    | (Failed e, sent') => (Failed e, sent')
    end.

Definition agent_ret {A} (a : A) : Agent A := fun _ sent => (Found a, sent).

Definition agent_raise {A} (e : sandbox_exn) : Agent A :=
  fun _ sent => (Failed e, sent).

Definition agent_get (p : string) (params : list (string * string))
    : Agent file_response :=
  fun w sent =>
    let rq := {| file_path := p; file_params := params |} in
    match w (List.length sent) rq with
    | inl r => (Found r, sent ++ [rq])
    | inr e => (Failed (Native (exn_of_net_error e)), sent ++ [rq])
    end.

Definition file_raise_for_status (r : file_response) : Agent unit :=
  if (400 <=? file_status r)%Z && (file_status r <? 600)%Z
  then agent_raise (Native (HTTPError (file_status r)))
  else agent_ret tt.

(** [r.json()['frameworks']]. *)
Definition json_frameworks (r : file_response) : Agent (list framework_json) :=
  match file_json r with
  | AgentStateDoc fs => agent_ret fs
  | NoDocument => agent_raise (Native ValueError)
  | OtherDoc => agent_raise (Native KeyError)
  end.

Definition agent_state_path (slave_id : string) : string :=
  String.append "/agent/" (String.append slave_id "/state").

Definition agent_download_path (slave_id : string) : string :=
  String.append "/agent/" (String.append slave_id "/files/download").

(** [next(x for x in l if x['id'] == i)]. *)
Definition first_with {A} (ident : A -> string) (i : string) (l : list A)
    : option A :=
  find (fun x => String.eqb (ident x) i) l.

Definition mesos_sandbox_directory (slave_id framework_id task_id : string)
    : Agent string :=
  agent_bind (agent_get (agent_state_path slave_id) []) (fun r =>
  agent_bind (file_raise_for_status r) (fun _ =>
  agent_bind (json_frameworks r) (fun frameworks =>
  match first_with fw_id framework_id frameworks with
  | None => agent_raise (FrameworkNotFound framework_id slave_id)
  | Some framework =>
      match first_with ex_id task_id (fw_executors framework) with
      | None => agent_raise (ExecutorNotFound task_id framework_id slave_id)
      | Some executor => agent_ret (ex_directory executor)
      end
  end))).

Definition mesos_sandbox_file (slave_id framework_id task_id filename : string)
    : Agent string :=
  agent_bind (mesos_sandbox_directory slave_id framework_id task_id) (fun d =>
  agent_bind (agent_get (agent_download_path slave_id)
                [("path", String.append d (String.append "/" filename))])
    (fun r =>
  agent_bind (file_raise_for_status r) (fun _ =>
  agent_ret (file_text r)))).

Definition mesos_pod_sandbox_directory
    (slave_id framework_id executor_id task_id : string) : Agent string :=
  agent_bind (mesos_sandbox_directory slave_id framework_id executor_id)
    (fun d => agent_ret (String.append d (String.append "/tasks/" task_id))).

Definition mesos_pod_sandbox_file
    (slave_id framework_id executor_id task_id filename : string)
    : Agent string :=
  agent_bind
    (mesos_pod_sandbox_directory slave_id framework_id executor_id task_id)
    (fun d =>
  agent_bind (agent_get (agent_download_path slave_id)
                [("path", String.append d (String.append "/" filename))])
    (fun r =>
  agent_bind (file_raise_for_status r) (fun _ =>
  agent_ret (file_text r)))).

(* ================================================================= *)
(** ** [metronome_one_off] *)

(** The calls made on the [jobs.Jobs] client, a sibling module: what the
    client does with each call is a parameter of the run. *)
Inductive jobs_call : Type :=
| JobsCreate (job_definition : list (string * string))
| JobsRun (job_id : string) (timeout : Z)
| JobsDestroy (job_id : string).

Record jobs_client : Type := mkJobs {
  jobs_create : list (string * string) -> bool;      (* false: it raises *)
  jobs_run : string -> Z -> option bool;             (* None: it raises *)
  jobs_destroy : string -> bool                      (* false: it raises *)
}.

Inductive one_off_outcome : Type :=
| OneOffDone
| OneOffKeyError          (* the definition has no ['id'] *)
| OneOffJobsError         (* the client raised *)
| OneOffJobFailed.        (* [Exception('Metronome job failed!: ...')] *)

Definition metronome_one_off (_jobs : jobs_client)
    (job_definition : list (string * string)) (timeout : Z)
    (ignore_failures : bool) : one_off_outcome * list jobs_call :=
  match dict_lookup job_definition "id" with
  | None => (OneOffKeyError, [])
  | Some job_id =>
      if negb (jobs_create _jobs job_definition)
      then (OneOffJobsError, [JobsCreate job_definition])
      else
        match jobs_run _jobs job_id timeout with
        | None =>
            (OneOffJobsError,
             [JobsCreate job_definition; JobsRun job_id timeout])
        | Some status =>
            if negb status && negb ignore_failures
            then (OneOffJobFailed,
                  [JobsCreate job_definition; JobsRun job_id timeout])
            else
              (if jobs_destroy _jobs job_id then OneOffDone
               else OneOffJobsError,
               [JobsCreate job_definition; JobsRun job_id timeout;
                JobsDestroy job_id])
        end
  end.

(* ================================================================= *)
(** ** More vocabulary *)

(** The environments in which a Windows variable is a non-empty string
    while the variable it is joined to is unset. *)
Definition type_error_env (env : environ) : Prop :=
  (exists w, env "WINDOWS_HOSTS" = Some w /\ w <> "" /\
             env "SLAVE_HOSTS" = None) \/
  (exists w, env "WINDOWS_PUBLIC_HOSTS" = Some w /\ w <> "" /\
             env "PUBLIC_SLAVE_HOSTS" = None).

(** The session object is the same before and after. *)
Definition same_self (st st' : state) : Prop := self st' = self st.

(** A node list that is set stays as it is. *)
Definition keeps_lists (st st' : state) : Prop :=
  (forall l, master_list (self st) = Some l -> master_list (self st') = Some l) /\
  (forall l, slave_list (self st) = Some l -> slave_list (self st') = Some l) /\
  (forall l, public_slave_list (self st) = Some l ->
             public_slave_list (self st') = Some l).

(** Time does not go back. *)
Definition clock_le (st st' : state) : Prop := (clock st <= clock st')%N.

(** The exceptions that come out of a request or of the decoding of its
    answer. *)
Definition request_exn (e : exn) : Prop :=
  match e with
  | ConnectionError | RequestException | HTTPError _
  | ValueError | KeyError | TypeError => True
  | _ => False
  end.

(** The user of a session holds a token, which is the session's auth. *)
Definition logged_in (s : DcosApiSession) : Prop :=
  match auth_user s with
  | None => True
  | Some u =>
      exists tok, auth_token u = Some tok /\ session_auth s = Some tok
  end.

Definition state_request (slave_id : string) : file_request :=
  {| file_path := agent_state_path slave_id; file_params := [] |}.

Definition download_request (slave_id file : string) : file_request :=
  {| file_path := agent_download_path slave_id;
     file_params := [("path", file)] |}.

(** An environment with agents of both kinds. *)
Definition windows_env : environ :=
  fun k => if String.eqb k "SLAVE_HOSTS" then Some "10.0.0.2,10.0.0.3"
           else if String.eqb k "WINDOWS_HOSTS" then Some "10.0.0.9"
           else None.

(** A cluster whose [/mesos/slaves] is down. *)
Definition slaves_down_world : world :=
  {| os_environ := no_wait_env;
     network := fun n rq =>
       if path_is rq "/mesos/slaves"
       then Answer 10 {| status_code := 503; json := NotJson |}
       else healthy_cluster n rq |}.

(** [DCOS_ACS_TOKEN] is set, nothing else. *)
Definition token_world : world :=
  {| os_environ := fun k => if String.eqb k "DCOS_ACS_TOKEN"
                            then Some "secret" else None;
     network := healthy_cluster |}.

(** An agent with two frameworks of the same id, and a file to serve. *)
Definition example_frameworks : list framework_json :=
  [{| fw_id := "marathon";
      fw_executors := [{| ex_id := "app.1"; ex_directory := "/sandbox/1" |}] |};
   {| fw_id := "marathon";
      fw_executors := [{| ex_id := "app.2"; ex_directory := "/sandbox/2" |}] |}].

Definition example_agent : agent_world :=
  fun _ rq =>
    if String.eqb (file_path rq) (agent_state_path "S1")
    then inl {| file_status := 200; file_text := "";
                file_json := AgentStateDoc example_frameworks |}
    else inl {| file_status := 200; file_text := "hello";
                file_json := NoDocument |}.

(** A jobs client on which every call returns, the run having failed. *)
Definition failing_jobs : jobs_client :=
  {| jobs_create := fun _ => true;
     jobs_run := fun _ _ => Some false;
     jobs_destroy := fun _ => true |}.

(* ================================================================= *)
(** ** The sub-checks of [wait_for_dcos], one by one *)

Definition get_request (p : string) : request :=
  {| method := GET; path := p; payload := None |}.

(** The requests that each sub-check sends. *)
Definition requests_of (c : subcheck) (rq : request) : Prop :=
  match c with
  | AdminRouterUp => rq = get_request "/"
  | Login => method rq = POST /\ path rq = "/acs/api/v1/auth/login"
  | TopologyResolution =>
      rq = get_request "/exhibitor/exhibitor/v1/cluster/list" \/
      rq = get_request "/mesos/slaves"
  | MarathonUp => rq = get_request "/marathon/v2/info"
  | ZkQuorum => rq = get_request "/exhibitor/exhibitor/v1/cluster/status"
  | SlavesToJoin => rq = get_request "/mesos/master/slaves"
  | SrouterSlavesEndpoints =>
      rq = get_request "/mesos/master/slaves" \/
      exists slave_id, rq = get_request (slave_state_uri slave_id)
  | Metronome => rq = get_request "/service/metronome/v1/jobs"
  | AllHealthyServices => rq = get_request "/system/health/v1/units"
  end.

(** The events of a sub-check between its marks: its own requests and
    the sleeps of its retry loop. *)
Definition body_event (c : subcheck) (e : event) : Prop :=
  match e with
  | EvRequest rq => requests_of c rq
  | EvSleep _ => True
  | EvEnter _ | EvExit _ => False
  end.

Definition is_request (e : event) : bool :=
  match e with
  | EvRequest _ => true
  | _ => false
  end.

Definition count_requests (l : list event) : nat :=
  List.length (filter is_request l).

(** The state has moved by events of sub-check [c] alone, and every
    request sent is in the trace. *)
Definition only (c : subcheck) (st st' : state) : Prop :=
  exists l,
    trace st' = trace st ++ l /\ Forall (body_event c) l /\
    nreq st' = nreq st + count_requests l.

Definition nreq_le (st st' : state) : Prop := nreq st <= nreq st'.

(** The sub-checks that poll an endpoint; the login and the topology
    resolution send nothing when there is nothing to fetch. *)
Definition polls (c : subcheck) : bool :=
  match c with
  | Login | TopologyResolution => false
  | _ => true
  end.

(** The events of a run that goes through the sub-checks [cs] in this
    order: the run has stopped between two sub-checks, or inside one, or
    it has gone through the first, which has returned, and on through the
    rest.  A polling sub-check that has returned has sent a request. *)
Inductive run_shape : list subcheck -> list event -> Prop :=
| shape_stopped (cs : list subcheck) : run_shape cs []
| shape_inside (c : subcheck) (cs : list subcheck) (body : list event) :
    Forall (body_event c) body ->
    run_shape (c :: cs) (EvEnter c :: body)
| shape_next (c : subcheck) (cs : list subcheck) (body rest : list event) :
    Forall (body_event c) body ->
    (polls c = true ->
     exists rq, In (EvRequest rq) body /\ requests_of c rq) ->
    run_shape cs rest ->
    run_shape (c :: cs) (EvEnter c :: body ++ EvExit c :: rest).

Definition shaped (cs : list subcheck) (m : M unit) : Prop :=
  forall w st,
    exists l, trace (snd (m w st)) = trace st ++ l /\ run_shape cs l.

(** The method behind each sub-check of the specification. *)
Definition run_subcheck (c : subcheck) (fuel : nat) : M unit :=
  match c with
  | AdminRouterUp => call AdminRouterUp (_wait_for_adminrouter_up fuel)
  | Login => call Login (login_default_user fuel)
  | TopologyResolution => call TopologyResolution set_node_lists_if_unset
  | MarathonUp => call MarathonUp (_wait_for_marathon_up fuel)
  | ZkQuorum => call ZkQuorum (_wait_for_zk_quorum fuel)
  | SlavesToJoin => call SlavesToJoin (_wait_for_slaves_to_join fuel)
  | SrouterSlavesEndpoints =>
      call SrouterSlavesEndpoints (_wait_for_srouter_slaves_endpoints fuel)
  | Metronome => call Metronome (_wait_for_metronome fuel)
  | AllHealthyServices =>
      call AllHealthyServices (_wait_for_all_healthy_services fuel)
  end.

(** What is checked before a sub-check starts: the host lists, before
    the topology is resolved. *)
Definition subcheck_guard (c : subcheck) : M unit :=
  match c with
  | TopologyResolution => wait_for_dcos_guard
  | _ => ret tt
  end.

(** The specification's reading of [wait_for_dcos]: the sub-checks of a
    list run one after the other, each one only when the one before it
    has returned normally. *)
Fixpoint in_fixed_order (cs : list subcheck) (fuel : nat) : M unit :=
  fun w st =>
    match cs with
    | [] => (Some (Ok tt), st)
    | c :: cs' =>
        match subcheck_guard c w st with
        | (Some (Ok _), st0) =>
            match run_subcheck c fuel w st0 with
            | (Some (Ok _), st1) => in_fixed_order cs' fuel w st1
            | (Some (Raise e), st1) => (Some (Raise e), st1)
            | (None, st1) => (None, st1)
            end
        | (Some (Raise e), st0) => (Some (Raise e), st0)
        | (None, st0) => (None, st0)
        end
    end.

(* ================================================================= *)
(** ** What a decorated probe does with its first attempt *)




(* ================================================================= *)
(** ** Discovery with one slave list supplied *)

(** A further reading that the code does not follow: whenever one of the
    two slave lists is missing, every agent that [/mesos/slaves] reports
    is afterwards in the list of its kind. *)
Definition every_observed_slave_assigned : Prop :=
  forall w st st' lat r slaves_json,
    slave_list (self st) = None \/ public_slave_list (self st) = None ->
    set_node_lists_if_unset w st = (Some (Ok tt), st') ->
    network w (nreq st + (if is_set (master_list (self st)) then 0 else 1))
      (get_request "/mesos/slaves")
    = Answer lat r ->
    json r = Slaves slaves_json ->
    forall s, In s slaves_json ->
      exists sl pl,
        slave_list (self st') = Some sl /\
        public_slave_list (self st') = Some pl /\
        (dict_get (agent_attributes s) "public_ip" = PStr "true" ->
         In (agent_hostname s) pl) /\
        (dict_get (agent_attributes s) "public_ip" <> PStr "true" ->
         In (agent_hostname s) sl).

(** A session whose public slaves were supplied (there are none) and
    whose private slaves were not. *)
Definition no_public_session : DcosApiSession :=
  init (Some ["10.0.0.1"]) None (Some []) (Some ci_user).

(* ================================================================= *)
(** * Properties *)

(** ** The order on strings and [sorted] *)

Lemma str_le_trans (a b c : string) : str_le a b -> str_le b c -> str_le a c.
Proof.
  unfold str_le, String.leb. revert b c.
  induction a as [|x a IH]; intros [|y b] [|z c]; simpl; try congruence.
  unfold Ascii.compare.
  destruct (N.compare_spec (N_of_ascii x) (N_of_ascii y)) as [Hxy|Hxy|Hxy];
    destruct (N.compare_spec (N_of_ascii y) (N_of_ascii z)) as [Hyz|Hyz|Hyz];
    destruct (N.compare_spec (N_of_ascii x) (N_of_ascii z)) as [Hxz|Hxz|Hxz];
    try congruence; try lia; try apply IH.
Qed.

Lemma str_le_total (a b : string) : str_le a b \/ str_le b a.
Proof. apply String.leb_total. Qed.

Lemma str_le_antisym (a b : string) : str_le a b -> str_le b a -> a = b.
Proof. apply String.leb_antisym. Qed.

Lemma insert_perm (x : string) (l : list string) :
  Permutation (insert x l) (x :: l).
Proof.
  induction l as [|y l IH]; simpl.
  - apply Permutation_refl.
  - destruct (String.leb x y).
    + apply Permutation_refl.
    + apply perm_trans with (y :: x :: l).
      * apply perm_skip, IH.
      * apply perm_swap.
Qed.

Lemma sorted_perm (l : list string) : Permutation (sorted l) l.
Proof.
  induction l as [|x l IH]; simpl.
  - apply perm_nil.
  - apply perm_trans with (x :: sorted l).
    + apply insert_perm.
    + apply perm_skip, IH.
Qed.

Lemma insert_strongly_sorted (x : string) (l : list string) :
  StronglySorted str_le l -> StronglySorted str_le (insert x l).
Proof.
  induction 1 as [|y l Hl IH Hy]; simpl.
  - constructor; constructor.
  - destruct (String.leb x y) eqn:E.
    + constructor.
      * constructor; assumption.
      * constructor; [exact E|].
        eapply Forall_impl; [|exact Hy].
        intros z Hz. eapply str_le_trans; [exact E|exact Hz].
    + constructor; [exact IH|].
      assert (Hyx : str_le y x).
      { destruct (str_le_total x y) as [H'|H']; [unfold str_le in H'; congruence|exact H']. }
      eapply Permutation_Forall.
      * apply Permutation_sym, insert_perm.
      * constructor; assumption.
Qed.

Lemma sorted_strongly_sorted (l : list string) : StronglySorted str_le (sorted l).
Proof.
  induction l as [|x l IH]; simpl.
  - constructor.
  - apply insert_strongly_sorted, IH.
Qed.

(** Two sorted lists with the same elements are the same list. *)
Lemma strongly_sorted_unique (l1 l2 : list string) :
  StronglySorted str_le l1 -> StronglySorted str_le l2 ->
  Permutation l1 l2 -> l1 = l2.
Proof.
  intros H1; revert l2.
  induction H1 as [|x l1 Hl1 IH Hx]; intros l2 H2 HP.
  - apply Permutation_nil in HP. congruence.
  - destruct H2 as [|y l2 Hl2 Hy].
    + apply Permutation_sym, Permutation_nil in HP. discriminate.
    + assert (x = y) as ->.
      { assert (Hin1 : In x (y :: l2)) by (eapply Permutation_in; [exact HP|left; reflexivity]).
        assert (Hin2 : In y (x :: l1))
          by (eapply Permutation_in; [apply Permutation_sym; exact HP|left; reflexivity]).
        destruct Hin1 as [->|Hin1]; [reflexivity|].
        destruct Hin2 as [->|Hin2]; [reflexivity|].
        apply str_le_antisym.
        - rewrite Forall_forall in Hx. apply Hx, Hin2.
        - rewrite Forall_forall in Hy. apply Hy, Hin1. }
      f_equal. apply IH; [exact Hl2|].
      eapply Permutation_cons_inv; exact HP.
Qed.

Lemma sorted_order_irrelevant (l1 l2 : list string) :
  Permutation l1 l2 -> sorted l1 = sorted l2.
Proof.
  intros HP. apply strongly_sorted_unique; try apply sorted_strongly_sorted.
  apply perm_trans with l1; [apply sorted_perm|].
  apply perm_trans with l2; [exact HP|apply Permutation_sym, sorted_perm].
Qed.

Lemma sorted_app_sorted (a b : list string) :
  sorted (sorted a ++ sorted b) = sorted (a ++ b).
Proof.
  apply sorted_order_irrelevant, Permutation_app; apply sorted_perm.
Qed.

(* ================================================================= *)
(** ** The sorted accessors *)

(** C8. When the three node lists are set, [masters], [slaves],
    [public_slaves] and [all_slaves] return sorted lists, with the elements
    that were supplied, whatever the order in which they were supplied
    (a session [s'] holding the same identifiers in another order exposes
    the same lists), and [all_slaves] is the sorted concatenation of the
    private and the public slave lists. *)
Theorem accessors_sorted (s s' : DcosApiSession)
    (ml sl pl ml' sl' pl' : list string) :
  master_list s = Some ml -> slave_list s = Some sl ->
  public_slave_list s = Some pl ->
  master_list s' = Some ml' -> slave_list s' = Some sl' ->
  public_slave_list s' = Some pl' ->
  Permutation ml ml' -> Permutation sl sl' -> Permutation pl pl' ->
  exists m a p al,
    masters s = Ok m /\ slaves s = Ok a /\ public_slaves s = Ok p /\
    all_slaves s = Ok al /\
    StronglySorted str_le m /\ StronglySorted str_le a /\
    StronglySorted str_le p /\ StronglySorted str_le al /\
    Permutation m ml /\ Permutation a sl /\ Permutation p pl /\
    Permutation al (sl ++ pl) /\
    al = sorted (sl ++ pl) /\
    masters s' = Ok m /\ slaves s' = Ok a /\ public_slaves s' = Ok p /\
    all_slaves s' = Ok al.
Proof.
  intros Hm Hs Hp Hm' Hs' Hp' Pm Ps Pp.
  exists (sorted ml), (sorted sl), (sorted pl), (sorted (sl ++ pl)).
  unfold all_slaves, masters, slaves, public_slaves, sorted_opt.
  rewrite Hm, Hs, Hp, Hm', Hs', Hp'.
  rewrite !sorted_app_sorted.
  rewrite (sorted_order_irrelevant ml' ml) by (apply Permutation_sym; exact Pm).
  rewrite (sorted_order_irrelevant sl' sl) by (apply Permutation_sym; exact Ps).
  rewrite (sorted_order_irrelevant pl' pl) by (apply Permutation_sym; exact Pp).
  rewrite (sorted_order_irrelevant (sl' ++ pl') (sl ++ pl))
    by (apply Permutation_sym, Permutation_app; assumption).
  repeat split; try reflexivity;
    try apply sorted_strongly_sorted; apply sorted_perm.
Qed.

Lemma accessors_sorted_witness :
  exists m a p al,
    masters (init (Some ["m2"; "m1"]) (Some ["b"; "a"]) (Some ["c"]) None) = Ok m /\
    slaves (init (Some ["m2"; "m1"]) (Some ["b"; "a"]) (Some ["c"]) None) = Ok a /\
    public_slaves (init (Some ["m2"; "m1"]) (Some ["b"; "a"]) (Some ["c"]) None) = Ok p /\
    all_slaves (init (Some ["m2"; "m1"]) (Some ["b"; "a"]) (Some ["c"]) None) = Ok al /\
    StronglySorted str_le m /\ StronglySorted str_le a /\
    StronglySorted str_le p /\ StronglySorted str_le al /\
    Permutation m ["m2"; "m1"] /\ Permutation a ["b"; "a"] /\
    Permutation p ["c"] /\ Permutation al (["b"; "a"] ++ ["c"]) /\
    al = sorted (["b"; "a"] ++ ["c"]) /\
    masters (init (Some ["m1"; "m2"]) (Some ["a"; "b"]) (Some ["c"]) None) = Ok m /\
    slaves (init (Some ["m1"; "m2"]) (Some ["a"; "b"]) (Some ["c"]) None) = Ok a /\
    public_slaves (init (Some ["m1"; "m2"]) (Some ["a"; "b"]) (Some ["c"]) None) = Ok p /\
    all_slaves (init (Some ["m1"; "m2"]) (Some ["a"; "b"]) (Some ["c"]) None) = Ok al.
Proof.
  apply (accessors_sorted
           (init (Some ["m2"; "m1"]) (Some ["b"; "a"]) (Some ["c"]) None)
           (init (Some ["m1"; "m2"]) (Some ["a"; "b"]) (Some ["c"]) None)
           ["m2"; "m1"] ["b"; "a"] ["c"] ["m1"; "m2"] ["a"; "b"] ["c"]);
    try reflexivity; apply perm_swap.
Defined.

(** The accessors fail on a list that is still [None]. *)
Lemma masters_unset (s : DcosApiSession) :
  master_list s = None -> masters s = Raise TypeError.
Proof. unfold masters. intros ->. reflexivity. Qed.

(* ================================================================= *)
(** ** [get_args_from_env] *)

(** C9. In an environment where [WINDOWS_HOSTS] is a non-empty string and
    [SLAVE_HOSTS] is unset, or where [WINDOWS_PUBLIC_HOSTS] is a non-empty
    string and [PUBLIC_SLAVE_HOSTS] is unset, [get_args_from_env] raises a
    [TypeError] (from joining [None] with a string) and returns no
    argument dictionary. *)
Theorem get_args_from_env_type_error (ci : credentials_t) (env : environ) :
  (exists w, env "WINDOWS_HOSTS" = Some w /\ w <> "" /\
             env "SLAVE_HOSTS" = None) \/
  (exists w, env "WINDOWS_PUBLIC_HOSTS" = Some w /\ w <> "" /\
             env "PUBLIC_SLAVE_HOSTS" = None) ->
  get_args_from_env ci env = Raise TypeError.
Proof.
  intros [(w & Hw & Hne & Hs) | (w & Hw & Hne & Hs)]; unfold get_args_from_env.
  - rewrite Hw, Hs. destruct w; [congruence|]. reflexivity.
  - rewrite Hw, Hs. destruct w as [|c w]; [congruence|].
    cbn [truthy join2].
    destruct (truthy (env "WINDOWS_HOSTS")); [|reflexivity].
    destruct (join2 (env "SLAVE_HOSTS") (env "WINDOWS_HOSTS")) eqn:E;
      [reflexivity|].
    unfold join2 in E.
    destruct (env "SLAVE_HOSTS"), (env "WINDOWS_HOSTS"); congruence.
Qed.

Lemma get_args_from_env_type_error_witness :
  get_args_from_env [("uid", "bootstrapuser")]
    (fun k => if String.eqb k "WINDOWS_HOSTS" then Some "10.0.0.9" else None)
  = Raise TypeError.
Proof.
  apply (get_args_from_env_type_error [("uid", "bootstrapuser")]
           (fun k => if String.eqb k "WINDOWS_HOSTS" then Some "10.0.0.9" else None)).
  left. exists "10.0.0.9". repeat split; [discriminate].
Defined.

(** Without the Windows variables the unset lists default to [[]]. *)
Example get_args_from_env_plain :
  get_args_from_env [("uid", "bootstrapuser")]
    (fun k => if String.eqb k "MASTER_HOSTS" then Some "10.0.0.1,10.0.0.4" else None)
  = Ok {| arg_auth_user := {| credentials := [("uid", "bootstrapuser")];
                              auth_token := None |};
          arg_dcos_url := "http://leader.mesos";
          arg_masters := Some ["10.0.0.1"; "10.0.0.4"];
          arg_slaves := [];
          arg_public_slaves := [] |}.
Proof. reflexivity. Qed.

(* ================================================================= *)
(** ** Discovery and login on a session that needs neither *)

(** C4. When the three node lists are set, [set_node_lists_if_unset]
    returns at once in the state it was called in: it sends no request
    (the trace and the request counter are those of the call state), so
    neither the exhibitor cluster list nor [/mesos/slaves] is fetched, and
    the three node lists are unchanged. *)
Theorem set_node_lists_if_unset_noop (w : world) (st : state)
    (ml sl pl : list string) :
  master_list (self st) = Some ml ->
  slave_list (self st) = Some sl ->
  public_slave_list (self st) = Some pl ->
  set_node_lists_if_unset w st = (Some (Ok tt), st).
Proof.
  intros Hm Hs Hp.
  unfold set_node_lists_if_unset, bind, get_self, ret.
  rewrite Hm. cbn. rewrite Hs, Hp. reflexivity.
Qed.

Lemma set_node_lists_if_unset_noop_witness :
  set_node_lists_if_unset
    {| os_environ := empty_env; network := healthy_cluster |}
    (initial_state (init (Some ["m"]) (Some ["a"]) (Some []) None))
  = (Some (Ok tt),
     initial_state (init (Some ["m"]) (Some ["a"]) (Some []) None)).
Proof.
  apply (set_node_lists_if_unset_noop
           {| os_environ := empty_env; network := healthy_cluster |}
           (initial_state (init (Some ["m"]) (Some ["a"]) (Some []) None))
           ["m"] ["a"] []); reflexivity.
Defined.

(** C5. On a session whose user already holds a token,
    [login_default_user] returns on its first attempt without sending a
    request or sleeping, leaves the user (credentials and token) and the
    node lists as they were and installs the token as the session's auth;
    a second call changes nothing at all. *)
Theorem login_default_user_idempotent (fuel : nat) (w : world) (st : state)
    (u : DcosUser) (tok : string) :
  auth_user (self st) = Some u ->
  auth_token u = Some tok ->
  exists st1,
    login_default_user (S fuel) w st = (Some (Ok PNone), st1) /\
    trace st1 = trace st /\ nreq st1 = nreq st /\ clock st1 = clock st /\
    auth_user (self st1) = Some u /\
    session_auth (self st1) = Some tok /\
    master_list (self st1) = master_list (self st) /\
    slave_list (self st1) = slave_list (self st) /\
    public_slave_list (self st1) = public_slave_list (self st) /\
    login_default_user (S fuel) w st1 = (Some (Ok PNone), st1).
Proof.
  intros Hu Ht.
  unfold login_default_user, retry, retry_call, login_default_user_once,
    set_session_auth, bind, get_self, put_self, ret.
  rewrite Hu, Ht. cbn.
  eexists; split; [reflexivity|].
  cbn. rewrite Hu, Ht. cbn.
  repeat split; reflexivity.
Qed.

Lemma login_default_user_idempotent_witness :
  exists st1,
    login_default_user 1 {| os_environ := empty_env; network := healthy_cluster |}
      (initial_state (init None None None
         (Some {| credentials := [("token", "")]; auth_token := Some "t0" |})))
    = (Some (Ok PNone), st1) /\
    trace st1 = [] /\ nreq st1 = 0 /\ clock st1 = 0%N /\
    auth_user (self st1)
    = Some {| credentials := [("token", "")]; auth_token := Some "t0" |} /\
    session_auth (self st1) = Some "t0" /\
    master_list (self st1) = None /\
    slave_list (self st1) = None /\
    public_slave_list (self st1) = None /\
    login_default_user 1 {| os_environ := empty_env; network := healthy_cluster |} st1
    = (Some (Ok PNone), st1).
Proof.
  apply (login_default_user_idempotent 0
           {| os_environ := empty_env; network := healthy_cluster |}
           (initial_state (init None None None
              (Some {| credentials := [("token", "")]; auth_token := Some "t0" |})))
           {| credentials := [("token", "")]; auth_token := Some "t0" |} "t0");
    reflexivity.
Defined.

(* ================================================================= *)
(** ** Reasoning about computations *)

Section Steps.

Variable R : state -> state -> Prop.
Hypothesis R_refl : forall st, R st st.
Hypothesis R_trans : forall a b c, R a b -> R b c -> R a c.

Lemma steps_ret {A} (a : A) : steps R (ret a).
Proof. intros w st. apply R_refl. Qed.

Lemma steps_raise {A} (e : exn) : steps R (@raise A e).
Proof. intros w st. apply R_refl. Qed.

Lemma steps_lift {A} (r : result A) : steps R (lift r).
Proof. intros w st. apply R_refl. Qed.

Lemma steps_get_self : steps R get_self.
Proof. intros w st. apply R_refl. Qed.

Lemma steps_getenv (k d : string) : steps R (getenv k d).
Proof. intros w st. apply R_refl. Qed.

Lemma steps_assert (b : bool) : steps R (assert b).
Proof. destruct b; [apply steps_ret|apply steps_raise]. Qed.

Lemma steps_raise_for_status (r : response) : steps R (raise_for_status r).
Proof.
  unfold raise_for_status. destruct (ok r); [apply steps_ret|apply steps_raise].
Qed.

Lemma steps_bind {A B} (m : M A) (k : A -> M B) :
  steps R m -> (forall a, steps R (k a)) -> steps R (bind m k).
Proof.
  intros Hm Hk w st. unfold bind.
  specialize (Hm w st).
  destruct (m w st) as [[[a|e]|] st1]; simpl in *; try exact Hm.
  eapply R_trans; [exact Hm|apply Hk].
Qed.

Hypothesis R_sleep : forall ms st, R st (sleep ms st).

Lemma steps_retry_call (p : retry_args) (fn : M pyval) :
  steps R fn ->
  forall fuel attempt_number start_time,
    steps R (retry_call p fn fuel attempt_number start_time).
Proof.
  intros Hfn fuel.
  induction fuel as [|fuel IH]; intros k t w st; simpl.
  - apply R_refl.
  - specialize (Hfn w st).
    destruct (fn w st) as [[attempt|] st1]; simpl in *; [|exact Hfn].
    destruct (negb (should_reject p attempt)); [exact Hfn|].
    destruct (stop p k (clock st1 - t)).
    + destruct attempt; exact Hfn.
    + eapply R_trans; [exact Hfn|].
      eapply R_trans; [apply R_sleep|apply IH].
Qed.

Lemma steps_retry (p : retry_args) (fn : M pyval) (fuel : nat) :
  steps R fn -> steps R (retry p fn fuel).
Proof.
  intros Hfn w st. unfold retry. apply steps_retry_call, Hfn.
Qed.

Hypothesis R_send : forall rq, steps R (send rq).

Lemma steps_get (p : string) : steps R (get p).
Proof. apply R_send. Qed.

Lemma steps_post (p : string) (js : credentials_t) : steps R (post p js).
Proof. apply R_send. Qed.

Lemma steps_adminrouter_once :
  steps R (get "/") -> steps R _wait_for_adminrouter_up_once.
Proof.
  intros Hget w st. unfold _wait_for_adminrouter_up_once.
  specialize (Hget w st).
  destruct (get "/" w st) as [[[r|e]|] st1]; simpl in *; try exact Hget.
  destruct e; exact Hget.
Qed.

End Steps.

(** Splits a goal [steps R m] along the structure of [m]. *)
Ltac steps_split Rt :=
  repeat first
    [ apply steps_ret; assumption
    | apply steps_raise; assumption
    | apply steps_lift; assumption
    | apply steps_get_self; assumption
    | apply steps_getenv; assumption
    | apply steps_assert; assumption
    | apply steps_raise_for_status; assumption
    | apply (steps_bind _ Rt); [|intro]
    | match goal with
      | |- steps _ (if ?b then _ else _) => destruct b
      | |- steps _ (match ?x with _ => _ end) => destruct x
      end ].

Section Probes.

Variable R : state -> state -> Prop.
Hypothesis R_refl : forall st, R st st.
Hypothesis R_trans : forall a b c, R a b -> R b c -> R a c.
Hypothesis R_sleep : forall ms st, R st (sleep ms st).
Hypothesis R_send : forall rq, steps R (send rq).

Let get_steps (p : string) : steps R (get p) := steps_get R R_send p.

Lemma steps_marathon_once : steps R _wait_for_marathon_up_once.
Proof.
  unfold _wait_for_marathon_up_once.
  apply (steps_bind _ R_trans); [apply get_steps|intro].
  steps_split R_trans.
Qed.

Lemma steps_zk_quorum_once : steps R _wait_for_zk_quorum_once.
Proof.
  unfold _wait_for_zk_quorum_once.
  apply (steps_bind _ R_trans); [apply get_steps|intro].
  steps_split R_trans.
Qed.

Lemma steps_slaves_to_join_once : steps R _wait_for_slaves_to_join_once.
Proof.
  unfold _wait_for_slaves_to_join_once.
  apply (steps_bind _ R_trans); [apply get_steps|intro].
  steps_split R_trans.
Qed.

Lemma steps_check_slave_endpoints (ids : list string) :
  steps R (check_slave_endpoints ids).
Proof.
  induction ids as [|i ids IH]; cbn [check_slave_endpoints].
  - apply steps_ret, R_refl.
  - apply (steps_bind _ R_trans); [apply get_steps|intro r].
    destruct (status_in r in_progress_status_codes);
      [apply steps_ret, R_refl|].
    repeat (apply (steps_bind _ R_trans);
            [first [apply steps_assert|apply steps_lift]; exact R_refl|intro]).
    exact IH.
Qed.

Lemma steps_srouter_once : steps R _wait_for_srouter_slaves_endpoints_once.
Proof.
  unfold _wait_for_srouter_slaves_endpoints_once.
  apply (steps_bind _ R_trans); [apply get_steps|intro r].
  destruct (status_code r =? 502)%Z; [apply steps_ret, R_refl|].
  repeat (apply (steps_bind _ R_trans);
          [first [apply steps_assert|apply steps_lift|apply steps_get_self];
           exact R_refl|intro]).
  apply steps_check_slave_endpoints.
Qed.

Lemma steps_metronome_once : steps R _wait_for_metronome_once.
Proof.
  unfold _wait_for_metronome_once.
  apply (steps_bind _ R_trans); [apply get_steps|intro].
  steps_split R_trans.
Qed.

Lemma steps_all_healthy_once : steps R _wait_for_all_healthy_services_once.
Proof.
  unfold _wait_for_all_healthy_services_once, health_get.
  apply (steps_bind _ R_trans); [|intro; steps_split R_trans].
  repeat (apply (steps_bind _ R_trans);
          [first [apply steps_lift|apply steps_get_self]; exact R_refl|intro]).
  apply get_steps.
Qed.

(** Every retried probe of [wait_for_dcos]. *)
Lemma steps_probes (fuel : nat) :
  steps R (_wait_for_adminrouter_up fuel) /\
  steps R (_wait_for_marathon_up fuel) /\
  steps R (_wait_for_zk_quorum fuel) /\
  steps R (_wait_for_slaves_to_join fuel) /\
  steps R (_wait_for_srouter_slaves_endpoints fuel) /\
  steps R (_wait_for_metronome fuel) /\
  steps R (_wait_for_all_healthy_services fuel).
Proof.
  repeat split; apply (steps_retry R R_refl R_trans R_sleep).
  - apply steps_adminrouter_once, get_steps.
  - apply steps_marathon_once.
  - apply steps_zk_quorum_once.
  - apply steps_slaves_to_join_once.
  - apply steps_srouter_once.
  - apply steps_metronome_once.
  - apply steps_all_healthy_once.
Qed.

Section Login.

Hypothesis R_set_session_auth : forall tok, steps R (set_session_auth tok).
Hypothesis R_set_auth_token : forall tok, steps R (set_auth_token tok).
Hypothesis R_login_post :
  forall js, steps R (post "/acs/api/v1/auth/login" js).

Lemma steps_login_once : steps R login_default_user_once.
Proof.
  unfold login_default_user_once.
  apply (steps_bind _ R_trans); [apply steps_get_self, R_refl|intro s].
  destruct (auth_user s) as [u|]; [|apply steps_ret, R_refl].
  destruct (auth_token u) as [tok|].
  - apply (steps_bind _ R_trans); [apply R_set_session_auth|intro].
    apply steps_ret, R_refl.
  - apply (steps_bind _ R_trans); [apply R_login_post|intro r].
    apply (steps_bind _ R_trans);
      [apply steps_raise_for_status, R_refl|intro].
    apply (steps_bind _ R_trans); [apply steps_lift, R_refl|intro tok].
    apply (steps_bind _ R_trans); [apply R_set_auth_token|intro].
    apply (steps_bind _ R_trans); [apply R_set_session_auth|intro].
    apply steps_ret, R_refl.
Qed.

Lemma steps_login (fuel : nat) : steps R (login_default_user fuel).
Proof.
  apply (steps_retry R R_refl R_trans R_sleep), steps_login_once.
Qed.

End Login.

Section Discovery.

Hypothesis R_put_self : forall s, steps R (put_self s).

Lemma steps_setters (l : list string) (tok : string) :
  steps R (set_master_list l) /\ steps R (set_slave_list l) /\
  steps R (set_public_slave_list l) /\ steps R (set_session_auth tok) /\
  steps R (set_auth_token tok).
Proof.
  repeat split;
    (apply (steps_bind _ R_trans);
     [apply steps_get_self, R_refl|intro; apply R_put_self]).
Qed.

Lemma steps_set_node_lists_if_unset : steps R set_node_lists_if_unset.
Proof.
  unfold set_node_lists_if_unset.
  apply (steps_bind _ R_trans); [|intro].
  - apply (steps_bind _ R_trans); [apply steps_get_self, R_refl|intro s].
    destruct (is_set (master_list s)); [apply steps_ret, R_refl|].
    apply (steps_bind _ R_trans); [apply get_steps|intro r].
    apply (steps_bind _ R_trans);
      [apply steps_raise_for_status, R_refl|intro].
    apply (steps_bind _ R_trans); [apply steps_lift, R_refl|intro].
    apply steps_setters; exact "".
  - apply (steps_bind _ R_trans); [apply steps_get_self, R_refl|intro s].
    destruct (is_set (slave_list s) && is_set (public_slave_list s));
      [apply steps_ret, R_refl|].
    apply (steps_bind _ R_trans); [apply get_steps|intro r].
    apply (steps_bind _ R_trans);
      [apply steps_raise_for_status, R_refl|intro].
    apply (steps_bind _ R_trans); [apply steps_lift, R_refl|intro js].
    apply (steps_bind _ R_trans); [|intro].
    + apply (steps_bind _ R_trans); [apply steps_get_self, R_refl|intro s'].
      destruct (is_set (slave_list s')); [apply steps_ret, R_refl|].
      apply steps_setters; exact "".
    + apply (steps_bind _ R_trans); [apply steps_get_self, R_refl|intro s'].
      destruct (is_set (public_slave_list s')); [apply steps_ret, R_refl|].
      apply steps_setters; exact "".
Qed.

End Discovery.

End Probes.

(* ================================================================= *)
(** ** The three relations *)

Lemma marks_app (a b : list event) : marks (a ++ b) = marks a ++ marks b.
Proof. apply filter_app. Qed.

Lemma same_marks_refl (st : state) : same_marks st st.
Proof. reflexivity. Qed.

Lemma same_marks_trans (a b c : state) :
  same_marks a b -> same_marks b c -> same_marks a c.
Proof. unfold same_marks. congruence. Qed.

Lemma same_marks_sleep (ms : N) (st : state) : same_marks st (sleep ms st).
Proof. unfold same_marks, sleep. simpl. rewrite marks_app. apply app_nil_r. Qed.

Lemma same_marks_send (rq : request) : steps same_marks (send rq).
Proof.
  intros w st. unfold send, same_marks.
  destruct (network w (nreq st) rq); simpl; rewrite marks_app; apply app_nil_r.
Qed.

Lemma same_marks_put_self (s : DcosApiSession) : steps same_marks (put_self s).
Proof. intros w st. reflexivity. Qed.

Lemma same_lists_refl (st : state) : same_lists st st.
Proof. repeat split. Qed.

Lemma same_lists_trans (a b c : state) :
  same_lists a b -> same_lists b c -> same_lists a c.
Proof. unfold same_lists. intuition congruence. Qed.

Lemma same_lists_sleep (ms : N) (st : state) : same_lists st (sleep ms st).
Proof. repeat split. Qed.

Lemma same_lists_send (rq : request) : steps same_lists (send rq).
Proof.
  intros w st. unfold send.
  destruct (network w (nreq st) rq); repeat split.
Qed.

Lemma same_lists_log_event (e : event) : steps same_lists (log_event e).
Proof. intros w st. repeat split. Qed.

Lemma same_lists_set_session_auth (tok : string) :
  steps same_lists (set_session_auth tok).
Proof. intros w st. repeat split. Qed.

Lemma same_lists_set_auth_token (tok : string) :
  steps same_lists (set_auth_token tok).
Proof. intros w st. repeat split. Qed.

Lemma entry_only_refl (st : state) : entry_only st st.
Proof. exists []. split; [symmetry; apply app_nil_r|constructor]. Qed.

Lemma entry_only_trans (a b c : state) :
  entry_only a b -> entry_only b c -> entry_only a c.
Proof.
  intros (l1 & E1 & F1) (l2 & E2 & F2). exists (l1 ++ l2). split.
  - rewrite E2, E1. symmetry. apply app_assoc.
  - apply Forall_app. split; assumption.
Qed.

Lemma entry_only_event (e : event) (st st' : state) :
  entry_event e -> trace st' = trace st ++ [e] -> entry_only st st'.
Proof. intros He Ht. exists [e]. split; [exact Ht|repeat constructor; exact He]. Qed.

Lemma entry_only_sleep (ms : N) (st : state) : entry_only st (sleep ms st).
Proof. apply entry_only_event with (EvSleep ms); [exact I|reflexivity]. Qed.

Lemma entry_only_send (rq : request) :
  entry_event (EvRequest rq) -> steps entry_only (send rq).
Proof.
  intros He w st. apply entry_only_event with (EvRequest rq); [exact He|].
  unfold send. destruct (network w (nreq st) rq); reflexivity.
Qed.

Lemma entry_only_log_event (e : event) :
  entry_event e -> steps entry_only (log_event e).
Proof. intros He w st. apply entry_only_event with e; [exact He|reflexivity]. Qed.

Lemma entry_only_same_trace {A} (m : M A) :
  (forall w st, trace (snd (m w st)) = trace st) -> steps entry_only m.
Proof.
  intros H w st. exists []. split; [rewrite H; symmetry; apply app_nil_r|constructor].
Qed.

(** A bracketed call moves the state along any relation that its body
    and the logging of its marks respect. *)
Lemma steps_call {A} (R : state -> state -> Prop) (c : subcheck) (m : M A) :
  (forall a b c, R a b -> R b c -> R a c) ->
  steps R (log_event (EvEnter c)) -> steps R (log_event (EvExit c)) ->
  steps R m -> steps R (call c m).
Proof.
  intros Rt He Hx Hm. unfold call.
  apply (steps_bind _ Rt); [exact He|intro].
  apply (steps_bind _ Rt); [exact Hm|intro]. exact Hx.
Qed.

(* ================================================================= *)
(** ** The order of the sub-checks *)

Lemma call_run {A} (c : subcheck) (m : M A) (w : world) (st : state) :
  call c m w st =
  match m w (logged (EvEnter c) st) with
  | (Some (Ok _), st1) => (Some (Ok tt), logged (EvExit c) st1)
  | (Some (Raise e), st1) => (Some (Raise e), st1)
  | (None, st1) => (None, st1)
  end.
Proof.
  unfold call, bind, log_event, logged. cbn.
  destruct (m w _) as [[[a|e]|] st1]; reflexivity.
Qed.

Lemma marks_logged_enter (c : subcheck) (st : state) :
  marks (trace (logged (EvEnter c) st)) = marks (trace st) ++ [EvEnter c].
Proof. unfold logged. simpl. apply marks_app. Qed.

Lemma marks_logged_exit (c : subcheck) (st : state) :
  marks (trace (logged (EvExit c) st)) = marks (trace st) ++ [EvExit c].
Proof. unfold logged. simpl. apply marks_app. Qed.

Lemma follows_ret : follows [] (ret tt).
Proof.
  intros w st. exists 0. simpl. repeat split; auto.
  symmetry. apply app_nil_r.
Qed.

Lemma follows_raise (E : list event) (e : exn) :
  E <> [] -> follows E (raise e).
Proof.
  intros HE w st. exists 0. simpl. split; [lia|]. split.
  - symmetry. apply app_nil_r.
  - split; [discriminate|]. destruct E; [congruence|discriminate].
Qed.

Lemma follows_getenv (E : list event) (k d : string) (f : string -> M unit) :
  (forall v, follows E (f v)) -> follows E (v <- getenv k d ;; f v).
Proof. intros H w st. exact (H _ w st). Qed.

Lemma follows_get_self (E : list event) (f : DcosApiSession -> M unit) :
  (forall s, follows E (f s)) -> follows E (s <- get_self ;; f s).
Proof. intros H w st. exact (H _ w st). Qed.

Lemma follows_call {A} (c : subcheck) (m : M A) (E : list event) (rest : M unit) :
  steps same_marks m -> follows E rest ->
  follows (EvEnter c :: EvExit c :: E) (call c m ;;; rest).
Proof.
  intros Hm Hrest w st. unfold bind. rewrite call_run.
  specialize (Hm w (logged (EvEnter c) st)). unfold same_marks in Hm.
  rewrite marks_logged_enter in Hm.
  destruct (m w (logged (EvEnter c) st)) as [[[a|e]|] st1]; simpl in Hm.
  - destruct (Hrest w (logged (EvExit c) st1)) as (k & Hk & Hmarks & Hiff).
    exists (S (S k)). simpl. split; [lia|]. split.
    + rewrite Hmarks, marks_logged_exit, Hm, <- !app_assoc. reflexivity.
    + rewrite Hiff. lia.
  - exists 1. simpl. split; [lia|]. split; [exact Hm|].
    split; [discriminate|lia].
  - exists 1. simpl. split; [lia|]. split; [exact Hm|].
    split; [discriminate|lia].
Qed.

Lemma follows_call_last {A} (c : subcheck) (m : M A) :
  steps same_marks m -> follows [EvEnter c; EvExit c] (call c m).
Proof.
  intros Hm w st. rewrite call_run.
  specialize (Hm w (logged (EvEnter c) st)). unfold same_marks in Hm.
  rewrite marks_logged_enter in Hm.
  destruct (m w (logged (EvEnter c) st)) as [[[a|e]|] st1]; simpl in Hm.
  - exists 2. cbn [fst snd firstn List.length]. split; [lia|]. split.
    + rewrite marks_logged_exit, Hm, <- app_assoc. reflexivity.
    + split; reflexivity.
  - exists 1. simpl. split; [lia|]. split; [exact Hm|].
    split; [discriminate|lia].
  - exists 1. simpl. split; [lia|]. split; [exact Hm|].
    split; [discriminate|lia].
Qed.

Lemma same_marks_probes (fuel : nat) :
  steps same_marks (_wait_for_adminrouter_up fuel) /\
  steps same_marks (_wait_for_marathon_up fuel) /\
  steps same_marks (_wait_for_zk_quorum fuel) /\
  steps same_marks (_wait_for_slaves_to_join fuel) /\
  steps same_marks (_wait_for_srouter_slaves_endpoints fuel) /\
  steps same_marks (_wait_for_metronome fuel) /\
  steps same_marks (_wait_for_all_healthy_services fuel).
Proof.
  apply steps_probes.
  - exact same_marks_refl.
  - exact same_marks_trans.
  - exact same_marks_sleep.
  - exact same_marks_send.
Qed.

Lemma same_marks_login (fuel : nat) : steps same_marks (login_default_user fuel).
Proof.
  apply steps_login.
  - exact same_marks_refl.
  - exact same_marks_trans.
  - exact same_marks_sleep.
  - intro tok.
    apply (steps_setters same_marks same_marks_refl same_marks_trans
             same_marks_put_self [] tok).
  - intro tok.
    apply (steps_setters same_marks same_marks_refl same_marks_trans
             same_marks_put_self [] tok).
  - intro js. apply same_marks_send.
Qed.

Lemma same_marks_set_node_lists_if_unset :
  steps same_marks set_node_lists_if_unset.
Proof.
  apply steps_set_node_lists_if_unset.
  - exact same_marks_refl.
  - exact same_marks_trans.
  - exact same_marks_send.
  - exact same_marks_put_self.
Qed.

Lemma follows_checks (fuel : nat) :
  follows (skipn 6 expected_marks) (wait_for_dcos_checks fuel).
Proof.
  destruct (same_marks_probes fuel) as (_ & Hma & Hzk & Hsl & Hsr & Hme & Hhe).
  unfold wait_for_dcos_checks. cbn [skipn expected_marks subcheck_order flat_map app].
  repeat (apply follows_call; [assumption|]).
  apply follows_call_last. assumption.
Qed.

(** The marks of a run are an initial segment of the expected ones, all
    of them exactly when the run returns normally. *)
Lemma wait_for_dcos_marks (fuel : nat) :
  follows expected_marks (wait_for_dcos fuel).
Proof.
  destruct (same_marks_probes fuel) as (Had & _).
  unfold wait_for_dcos.
  cbn [expected_marks subcheck_order flat_map app].
  apply follows_call; [exact Had|].
  apply follows_call; [apply same_marks_login|].
  apply follows_getenv; intro env_value.
  apply follows_get_self; intro s. cbv zeta.
  match goal with
  | |- follows _ (if ?b then raise _ else _) => destruct b
  end.
  - apply follows_raise. discriminate.
  - apply (follows_call TopologyResolution set_node_lists_if_unset
             (skipn 6 expected_marks) (wait_for_dcos_checks fuel)).
    + exact same_marks_set_node_lists_if_unset.
    + apply follows_checks.
Qed.

(** *** The events between the marks *)

Lemma count_requests_app (a b : list event) :
  count_requests (a ++ b) = count_requests a + count_requests b.
Proof. unfold count_requests. rewrite filter_app. apply length_app. Qed.

Lemma count_requests_In (c : subcheck) (l : list event) :
  Forall (body_event c) l -> 0 < count_requests l ->
  exists rq, In (EvRequest rq) l /\ requests_of c rq.
Proof.
  induction 1 as [|e l He Hl IH]; intro Hn.
  - inversion Hn.
  - destruct e as [rq| | |].
    + exists rq. split; [left; reflexivity|exact He].
    + destruct (IH Hn) as (rq & Hin & Hrq).
      exists rq. split; [right; exact Hin|exact Hrq].
    + destruct He.
    + destruct He.
Qed.

Lemma only_refl (c : subcheck) (st : state) : only c st st.
Proof.
  exists []. split; [symmetry; apply app_nil_r|]. split; [constructor|].
  cbn. lia.
Qed.

Lemma only_trans (c : subcheck) (x y z : state) :
  only c x y -> only c y z -> only c x z.
Proof.
  intros (l1 & E1 & F1 & N1) (l2 & E2 & F2 & N2). exists (l1 ++ l2).
  split; [rewrite E2, E1; symmetry; apply app_assoc|].
  split; [apply Forall_app; split; assumption|].
  rewrite count_requests_app. lia.
Qed.

Lemma only_sleep (c : subcheck) (ms : N) (st : state) : only c st (sleep ms st).
Proof.
  exists [EvSleep ms]. split; [reflexivity|].
  split; [repeat constructor|]. cbn. lia.
Qed.

Lemma only_send (c : subcheck) (rq : request) :
  requests_of c rq -> steps (only c) (send rq).
Proof.
  intros He w st. exists [EvRequest rq]. unfold send.
  destruct (network w (nreq st) rq); cbn;
    (split; [reflexivity|]); (split; [repeat constructor; exact He|lia]).
Qed.

Lemma only_put_self (c : subcheck) (s : DcosApiSession) :
  steps (only c) (put_self s).
Proof.
  intros w st. exists []. cbn. split; [symmetry; apply app_nil_r|].
  split; [constructor|lia].
Qed.

Lemma nreq_le_refl (st : state) : nreq_le st st.
Proof. unfold nreq_le. lia. Qed.

Lemma nreq_le_trans (x y z : state) : nreq_le x y -> nreq_le y z -> nreq_le x z.
Proof. unfold nreq_le. lia. Qed.

Lemma nreq_le_sleep (ms : N) (st : state) : nreq_le st (sleep ms st).
Proof. unfold nreq_le. cbn. lia. Qed.

Lemma nreq_le_send (rq : request) : steps nreq_le (send rq).
Proof.
  intros w st. unfold nreq_le, send.
  destruct (network w (nreq st) rq); cbn; lia.
Qed.

(** The probes again, this time along a relation that holds of their
    own requests only. *)
Section RequestSteps.

Variable R : state -> state -> Prop.
Hypothesis R_refl : forall st, R st st.
Hypothesis R_trans : forall a b c, R a b -> R b c -> R a c.

Lemma steps_marathon_request :
  steps R (get "/marathon/v2/info") -> steps R _wait_for_marathon_up_once.
Proof.
  intro Hget. unfold _wait_for_marathon_up_once.
  apply (steps_bind _ R_trans); [exact Hget|intro].
  steps_split R_trans.
Qed.

Lemma steps_zk_quorum_request :
  steps R (get "/exhibitor/exhibitor/v1/cluster/status") ->
  steps R _wait_for_zk_quorum_once.
Proof.
  intro Hget. unfold _wait_for_zk_quorum_once.
  apply (steps_bind _ R_trans); [exact Hget|intro].
  steps_split R_trans.
Qed.

Lemma steps_slaves_to_join_request :
  steps R (get "/mesos/master/slaves") -> steps R _wait_for_slaves_to_join_once.
Proof.
  intro Hget. unfold _wait_for_slaves_to_join_once.
  apply (steps_bind _ R_trans); [exact Hget|intro].
  steps_split R_trans.
Qed.

Lemma steps_check_slave_endpoints_request (ids : list string) :
  (forall slave_id, steps R (get (slave_state_uri slave_id))) ->
  steps R (check_slave_endpoints ids).
Proof.
  intro Hget.
  induction ids as [|i ids IH]; cbn [check_slave_endpoints].
  - apply steps_ret, R_refl.
  - apply (steps_bind _ R_trans); [apply Hget|intro r].
    destruct (status_in r in_progress_status_codes);
      [apply steps_ret, R_refl|].
    repeat (apply (steps_bind _ R_trans);
            [first [apply steps_assert|apply steps_lift]; exact R_refl|intro]).
    exact IH.
Qed.

Lemma steps_srouter_request :
  steps R (get "/mesos/master/slaves") ->
  (forall slave_id, steps R (get (slave_state_uri slave_id))) ->
  steps R _wait_for_srouter_slaves_endpoints_once.
Proof.
  intros Hget Hstate. unfold _wait_for_srouter_slaves_endpoints_once.
  apply (steps_bind _ R_trans); [exact Hget|intro r].
  destruct (status_code r =? 502)%Z; [apply steps_ret, R_refl|].
  repeat (apply (steps_bind _ R_trans);
          [first [apply steps_assert|apply steps_lift|apply steps_get_self];
           exact R_refl|intro]).
  apply steps_check_slave_endpoints_request, Hstate.
Qed.

Lemma steps_metronome_request :
  steps R (get "/service/metronome/v1/jobs") -> steps R _wait_for_metronome_once.
Proof.
  intro Hget. unfold _wait_for_metronome_once.
  apply (steps_bind _ R_trans); [exact Hget|intro].
  steps_split R_trans.
Qed.

Lemma steps_all_healthy_request :
  steps R (get "/system/health/v1/units") ->
  steps R _wait_for_all_healthy_services_once.
Proof.
  intro Hget. unfold _wait_for_all_healthy_services_once, health_get.
  apply (steps_bind _ R_trans); [|intro; steps_split R_trans].
  repeat (apply (steps_bind _ R_trans);
          [first [apply steps_lift|apply steps_get_self]; exact R_refl|intro]).
  exact Hget.
Qed.

Lemma steps_discovery_request :
  steps R (get "/exhibitor/exhibitor/v1/cluster/list") ->
  steps R (get "/mesos/slaves") ->
  (forall s, steps R (put_self s)) ->
  steps R set_node_lists_if_unset.
Proof.
  intros Hlist Hslaves Hput.
  unfold set_node_lists_if_unset.
  apply (steps_bind _ R_trans); [|intro].
  - apply (steps_bind _ R_trans); [apply steps_get_self, R_refl|intro s].
    destruct (is_set (master_list s)); [apply steps_ret, R_refl|].
    apply (steps_bind _ R_trans); [exact Hlist|intro r].
    apply (steps_bind _ R_trans);
      [apply steps_raise_for_status, R_refl|intro].
    apply (steps_bind _ R_trans); [apply steps_lift, R_refl|intro].
    apply (steps_setters R R_refl R_trans Hput); exact "".
  - apply (steps_bind _ R_trans); [apply steps_get_self, R_refl|intro s].
    destruct (is_set (slave_list s) && is_set (public_slave_list s));
      [apply steps_ret, R_refl|].
    apply (steps_bind _ R_trans); [exact Hslaves|intro r].
    apply (steps_bind _ R_trans);
      [apply steps_raise_for_status, R_refl|intro].
    apply (steps_bind _ R_trans); [apply steps_lift, R_refl|intro js].
    apply (steps_bind _ R_trans); [|intro].
    + apply (steps_bind _ R_trans); [apply steps_get_self, R_refl|intro s'].
      destruct (is_set (slave_list s')); [apply steps_ret, R_refl|].
      apply (steps_setters R R_refl R_trans Hput); exact "".
    + apply (steps_bind _ R_trans); [apply steps_get_self, R_refl|intro s'].
      destruct (is_set (public_slave_list s')); [apply steps_ret, R_refl|].
      apply (steps_setters R R_refl R_trans Hput); exact "".
Qed.

End RequestSteps.

(** Each sub-check sends its own requests and no others. *)
Lemma only_subchecks (fuel : nat) :
  steps (only AdminRouterUp) (_wait_for_adminrouter_up fuel) /\
  steps (only Login) (login_default_user fuel) /\
  steps (only TopologyResolution) set_node_lists_if_unset /\
  steps (only MarathonUp) (_wait_for_marathon_up fuel) /\
  steps (only ZkQuorum) (_wait_for_zk_quorum fuel) /\
  steps (only SlavesToJoin) (_wait_for_slaves_to_join fuel) /\
  steps (only SrouterSlavesEndpoints) (_wait_for_srouter_slaves_endpoints fuel) /\
  steps (only Metronome) (_wait_for_metronome fuel) /\
  steps (only AllHealthyServices) (_wait_for_all_healthy_services fuel).
Proof.
  assert (Hretry : forall c p fn, steps (only c) fn ->
                                  steps (only c) (retry p fn fuel)).
  { intros c p fn. apply steps_retry;
      [apply only_refl|apply only_trans|apply only_sleep]. }
  assert (Hset : forall c tok,
             steps (only c) (set_session_auth tok) /\
             steps (only c) (set_auth_token tok)).
  { intros c tok.
    destruct (steps_setters (only c) (only_refl c) (only_trans c)
                (only_put_self c) [] tok) as (_ & _ & _ & Hs & Ht).
    split; assumption. }
  repeat match goal with |- _ /\ _ => split end.
  - apply Hretry, steps_adminrouter_once. apply only_send. reflexivity.
  - apply steps_login;
      [apply only_refl|apply only_trans|apply only_sleep
      |intro tok; apply Hset|intro tok; apply Hset|].
    intro js. apply only_send. split; reflexivity.
  - apply steps_discovery_request;
      [apply only_refl|apply only_trans| | |apply only_put_self];
      apply only_send; [left|right]; reflexivity.
  - apply Hretry, steps_marathon_request;
      [apply only_refl|apply only_trans|apply only_send; reflexivity].
  - apply Hretry, steps_zk_quorum_request;
      [apply only_refl|apply only_trans|apply only_send; reflexivity].
  - apply Hretry, steps_slaves_to_join_request;
      [apply only_refl|apply only_trans|apply only_send; reflexivity].
  - apply Hretry, steps_srouter_request;
      [apply only_refl|apply only_trans|apply only_send; left; reflexivity|].
    intro i. apply only_send. right. exists i. reflexivity.
  - apply Hretry, steps_metronome_request;
      [apply only_refl|apply only_trans|apply only_send; reflexivity].
  - apply Hretry, steps_all_healthy_request;
      [apply only_refl|apply only_trans|apply only_send; reflexivity].
Qed.

(** *** A probe that has returned has sent a request *)

Lemma retry_call_sends (p : retry_args) (fn : M pyval) :
  steps nreq_le fn ->
  (forall w st v st', fn w st = (Some (Ok v), st') -> nreq st < nreq st') ->
  forall fuel k t w st v st',
    retry_call p fn fuel k t w st = (Some (Ok v), st') -> nreq st < nreq st'.
Proof.
  intros Hle Hok fuel.
  induction fuel as [|fuel IH]; intros k t w st v st' H; cbn [retry_call] in H.
  - discriminate.
  - specialize (Hle w st). specialize (Hok w st).
    destruct (fn w st) as [[attempt|] st1]; cbn [snd] in Hle; [|discriminate].
    destruct (negb (should_reject p attempt)).
    + inversion H; subst. apply (Hok v st'). reflexivity.
    + destruct (stop p k (clock st1 - t)).
      * destruct attempt; discriminate.
      * apply IH in H. unfold nreq_le in Hle. cbn in H. lia.
Qed.

Lemma bind_get_sends {A} (p : string) (k : response -> M A) :
  (forall r, steps nreq_le (k r)) ->
  forall w st, nreq st < nreq (snd (bind (get p) k w st)).
Proof.
  intros Hk w st. unfold bind, get, send.
  destruct (network w (nreq st) _) as [lat r|lat e]; cbn [snd nreq].
  - specialize (Hk r w). unfold nreq_le in Hk.
    match goal with
    | |- _ < nreq (snd (k r w ?s)) => specialize (Hk s); cbn [nreq] in Hk
    end.
    lia.
  - lia.
Qed.

Lemma adminrouter_once_sends (w : world) (st : state) :
  nreq st < nreq (snd (_wait_for_adminrouter_up_once w st)).
Proof.
  unfold _wait_for_adminrouter_up_once, get, send.
  destruct (network w (nreq st) _) as [lat r|lat [|]]; cbn; lia.
Qed.

Lemma all_healthy_once_sends (w : world) (st : state) (v : pyval) (st' : state) :
  _wait_for_all_healthy_services_once w st = (Some (Ok v), st') ->
  nreq st < nreq st'.
Proof.
  unfold _wait_for_all_healthy_services_once, health_get, bind, get_self, lift.
  destruct (masters (self st)); [|discriminate].
  destruct (all_slaves (self st)); [|discriminate].
  unfold get, send.
  destruct (network w (nreq st) _) as [lat r|lat e]; [|discriminate].
  unfold raise_for_status. destruct (ok r); [|discriminate].
  unfold ret. destruct (json_units r); [|discriminate].
  intro H. inversion H; subst. cbn. lia.
Qed.

Ltac nreq_le_rel :=
  first [exact nreq_le_refl|exact nreq_le_trans|exact nreq_le_send].

(** A polling sub-check that returns has sent at least one request. *)
Lemma polling_sends (fuel : nat) (w : world) (st : state) (v : pyval) (st' : state) :
  (_wait_for_adminrouter_up fuel w st = (Some (Ok v), st') -> nreq st < nreq st') /\
  (_wait_for_marathon_up fuel w st = (Some (Ok v), st') -> nreq st < nreq st') /\
  (_wait_for_zk_quorum fuel w st = (Some (Ok v), st') -> nreq st < nreq st') /\
  (_wait_for_slaves_to_join fuel w st = (Some (Ok v), st') -> nreq st < nreq st') /\
  (_wait_for_srouter_slaves_endpoints fuel w st = (Some (Ok v), st') ->
   nreq st < nreq st') /\
  (_wait_for_metronome fuel w st = (Some (Ok v), st') -> nreq st < nreq st') /\
  (_wait_for_all_healthy_services fuel w st = (Some (Ok v), st') ->
   nreq st < nreq st').
Proof.
  pose proof nreq_le_refl as Hrefl.
  assert (Hbody : forall (fn : M pyval),
             (forall w st, nreq st < nreq (snd (fn w st))) ->
             forall w st v st', fn w st = (Some (Ok v), st') -> nreq st < nreq st').
  { intros fn Hfn w0 st0 v0 st0' H. specialize (Hfn w0 st0).
    rewrite H in Hfn. exact Hfn. }
  repeat match goal with |- _ /\ _ => split end;
    unfold _wait_for_adminrouter_up, _wait_for_marathon_up, _wait_for_zk_quorum,
      _wait_for_slaves_to_join, _wait_for_srouter_slaves_endpoints,
      _wait_for_metronome, _wait_for_all_healthy_services, retry;
    apply retry_call_sends.
  - apply steps_adminrouter_once, nreq_le_send.
  - apply Hbody, adminrouter_once_sends.
  - apply steps_marathon_once; nreq_le_rel.
  - apply Hbody. unfold _wait_for_marathon_up_once.
    apply bind_get_sends. intro r. steps_split nreq_le_trans.
  - apply steps_zk_quorum_once; nreq_le_rel.
  - apply Hbody. unfold _wait_for_zk_quorum_once.
    apply bind_get_sends. intro r. steps_split nreq_le_trans.
  - apply steps_slaves_to_join_once; nreq_le_rel.
  - apply Hbody. unfold _wait_for_slaves_to_join_once.
    apply bind_get_sends. intro r. steps_split nreq_le_trans.
  - apply steps_srouter_once; nreq_le_rel.
  - apply Hbody. unfold _wait_for_srouter_slaves_endpoints_once.
    apply bind_get_sends. intro r.
    destruct (status_code r =? 502)%Z; [apply steps_ret, nreq_le_refl|].
    repeat (apply (steps_bind _ nreq_le_trans);
            [first [apply steps_assert|apply steps_lift|apply steps_get_self];
             exact nreq_le_refl|intro]).
    apply steps_check_slave_endpoints; nreq_le_rel.
  - apply steps_metronome_once; nreq_le_rel.
  - apply Hbody. unfold _wait_for_metronome_once.
    apply bind_get_sends. intro r. steps_split nreq_le_trans.
  - apply steps_all_healthy_once; nreq_le_rel.
  - apply all_healthy_once_sends.
Qed.

(** *** The shape of a run *)

Lemma shaped_stop (cs : list subcheck) (m : M unit) :
  (forall w st, trace (snd (m w st)) = trace st) -> shaped cs m.
Proof.
  intros H w st. exists []. split; [rewrite H; symmetry; apply app_nil_r|].
  constructor.
Qed.

Lemma shaped_getenv (cs : list subcheck) (k d : string) (f : string -> M unit) :
  (forall v, shaped cs (f v)) -> shaped cs (v <- getenv k d ;; f v).
Proof. intros H w st. exact (H _ w st). Qed.

Lemma shaped_get_self (cs : list subcheck) (f : DcosApiSession -> M unit) :
  (forall s, shaped cs (f s)) -> shaped cs (s <- get_self ;; f s).
Proof. intros H w st. exact (H _ w st). Qed.

Lemma shaped_call {A} (c : subcheck) (m : M A) (cs : list subcheck)
    (rest : M unit) :
  steps (only c) m ->
  (polls c = true ->
   forall w st v st', m w st = (Some (Ok v), st') -> nreq st < nreq st') ->
  shaped cs rest ->
  shaped (c :: cs) (call c m ;;; rest).
Proof.
  intros Hm Hp Hrest w st. unfold bind. rewrite call_run.
  destruct (Hm w (logged (EvEnter c) st)) as (body & Ht & Hf & Hn).
  destruct (m w (logged (EvEnter c) st)) as [[[a|e]|] st1] eqn:Hrun;
    cbn [snd] in Ht, Hn |- *.
  - destruct (Hrest w (logged (EvExit c) st1)) as (l & Hl & Hs).
    exists (EvEnter c :: body ++ EvExit c :: l). split.
    + rewrite Hl. unfold logged in Ht |- *. cbn [trace] in Ht |- *.
      rewrite Ht, <- !app_assoc. reflexivity.
    + constructor; [exact Hf| |exact Hs].
      intro Hc. apply count_requests_In; [exact Hf|].
      specialize (Hp Hc _ _ _ _ Hrun). unfold logged in Hp, Hn.
      cbn [nreq] in Hp, Hn. lia.
  - exists (EvEnter c :: body). split.
    + unfold logged in Ht. cbn [trace] in Ht.
      rewrite Ht, <- app_assoc. reflexivity.
    + constructor. exact Hf.
  - exists (EvEnter c :: body). split.
    + unfold logged in Ht. cbn [trace] in Ht.
      rewrite Ht, <- app_assoc. reflexivity.
    + constructor. exact Hf.
Qed.

Lemma shaped_call_last {A} (c : subcheck) (m : M A) :
  steps (only c) m ->
  (polls c = true ->
   forall w st v st', m w st = (Some (Ok v), st') -> nreq st < nreq st') ->
  shaped [c] (call c m).
Proof.
  intros Hm Hp w st.
  destruct (shaped_call c m [] (ret tt) Hm Hp
              (shaped_stop [] (ret tt) (fun _ _ => eq_refl)) w st)
    as (l & Hl & Hs).
  exists l. split; [|exact Hs]. rewrite <- Hl.
  unfold bind, ret. destruct (call c m w st) as [[[[]|e]|] st1]; reflexivity.
Qed.

Lemma wait_for_dcos_shaped (fuel : nat) :
  shaped subcheck_order (wait_for_dcos fuel).
Proof.
  destruct (only_subchecks fuel)
    as (Oad & Olo & Oto & Oma & Ozk & Osl & Osr & Ome & Ohe).
  assert (Hsends := fun w st v st' => polling_sends fuel w st v st').
  unfold wait_for_dcos, subcheck_order.
  apply shaped_call; [exact Oad|intros _ w st v st'; apply Hsends|].
  apply shaped_call; [exact Olo|discriminate|].
  apply shaped_getenv; intro env_value.
  apply shaped_get_self; intro s. cbv zeta.
  match goal with
  | |- shaped _ (if ?b then raise _ else _) => destruct b
  end.
  - apply shaped_stop. reflexivity.
  - apply shaped_call; [exact Oto|discriminate|].
    apply shaped_call; [exact Oma|intros _ w st v st'; apply Hsends|].
    apply shaped_call; [exact Ozk|intros _ w st v st'; apply Hsends|].
    apply shaped_call; [exact Osl|intros _ w st v st'; apply Hsends|].
    apply shaped_call; [exact Osr|intros _ w st v st'; apply Hsends|].
    apply shaped_call; [exact Ome|intros _ w st v st'; apply Hsends|].
    apply shaped_call_last; [exact Ohe|intros _ w st v st'; apply Hsends].
Qed.

(** [wait_for_dcos] is the run of its nine sub-checks in the fixed
    order. *)
Lemma wait_for_dcos_in_fixed_order (fuel : nat) (w : world) (st : state) :
  wait_for_dcos fuel w st = in_fixed_order subcheck_order fuel w st.
Proof.
  unfold wait_for_dcos, subcheck_order.
  cbn [in_fixed_order subcheck_guard run_subcheck].
  unfold wait_for_dcos_guard, bind, ret, getenv, get_self.
  cbv beta iota zeta.
  destruct (call AdminRouterUp _ w st) as [[[[]|?]|] st1]; try reflexivity.
  destruct (call Login _ w st1) as [[[[]|?]|] st2]; try reflexivity.
  match goal with
  | |- context [if ?b then raise _ else _] => destruct b
  end; [reflexivity|].
  destruct (call TopologyResolution _ w st2) as [[[[]|?]|] st3]; try reflexivity.
  destruct (call MarathonUp _ w st3) as [[[[]|?]|] st4]; try reflexivity.
  destruct (call ZkQuorum _ w st4) as [[[[]|?]|] st5]; try reflexivity.
  destruct (call SlavesToJoin _ w st5) as [[[[]|?]|] st6]; try reflexivity.
  destruct (call SrouterSlavesEndpoints _ w st6) as [[[[]|?]|] st7];
    try reflexivity.
  destruct (call Metronome _ w st7) as [[[[]|?]|] st8]; try reflexivity.
  destruct (call AllHealthyServices _ w st8) as [[[[]|?]|] st9]; reflexivity.
Qed.

(** C6. [wait_for_dcos] is the run, one after the other, of the nine
    sub-checks in the fixed order admin router, login, topology
    resolution, marathon, ZooKeeper quorum, slaves joined, agent
    endpoints, metronome, health, each one started only when the one
    before it has returned normally (and, for the topology resolution,
    when the guard on the host lists has let the run pass).  Whatever the
    cluster answers and however long the run lasts, the events of the run
    are those of an initial segment of that sequence: between the marks of
    a sub-check lie only the requests of that sub-check and the sleeps of
    its retry loop, a polling sub-check that has returned has sent a
    request to its endpoint, one sub-check is entered only after the one
    before it has returned, and [wait_for_dcos] returns normally exactly
    when all nine have. *)
Theorem wait_for_dcos_order (fuel : nat) (w : world) (st : state) :
  wait_for_dcos fuel w st = in_fixed_order subcheck_order fuel w st /\
  (exists l,
     trace (snd (wait_for_dcos fuel w st)) = trace st ++ l /\
     run_shape subcheck_order l) /\
  (exists k,
     k <= List.length expected_marks /\
     marks (trace (snd (wait_for_dcos fuel w st)))
     = marks (trace st) ++ firstn k expected_marks /\
     (fst (wait_for_dcos fuel w st) = Some (Ok tt)
      <-> k = List.length expected_marks)).
Proof.
  split; [apply wait_for_dcos_in_fixed_order|].
  split; [apply wait_for_dcos_shaped|apply wait_for_dcos_marks].
Qed.

(** On a healthy cluster the nine calls all take place. *)
Example wait_for_dcos_healthy_cluster :
  let run := wait_for_dcos 1
               {| os_environ := no_wait_env; network := healthy_cluster |}
               (initial_state (init None None None (Some ci_user))) in
  fst run = Some (Ok tt) /\
  marks (trace (snd run)) = expected_marks /\
  master_list (self (snd run)) = Some ["10.0.0.1"] /\
  slave_list (self (snd run)) = Some ["10.0.0.2"] /\
  public_slave_list (self (snd run)) = Some ["10.0.0.3"].
Proof. vm_compute. repeat split. Qed.

(* ================================================================= *)
(** ** The guard on the host lists *)

(** [wait_for_dcos] is its entry (admin router, login), then the guard,
    then topology resolution, then the remaining checks. *)
Lemma wait_for_dcos_split (fuel : nat) (w : world) (st : state) :
  wait_for_dcos fuel w st =
  (wait_for_dcos_entry fuel ;;;
   wait_for_dcos_guard ;;;
   call TopologyResolution set_node_lists_if_unset ;;;
   wait_for_dcos_checks fuel) w st.
Proof.
  unfold wait_for_dcos, wait_for_dcos_entry, wait_for_dcos_guard,
    wait_for_dcos_checks, bind.
  destruct (call AdminRouterUp _ w st) as [[[?|?]|] st1]; try reflexivity.
  destruct (call Login _ w st1) as [[[?|?]|] st2]; try reflexivity.
  unfold getenv, get_self.
  match goal with
  | |- context [if ?b then raise _ else _] => destruct b
  end; reflexivity.
Qed.

Lemma guard_run (w : world) (st : state) :
  wait_for_dcos_guard w st =
  (if String.eqb (getenv_default (os_environ w) "WAIT_FOR_HOSTS" "true") "true"
      && negb (node_lists_set (self st))
   then Some (Raise HostListsException)
   else Some (Ok tt), st).
Proof.
  unfold wait_for_dcos_guard, bind, getenv, get_self, node_lists_set.
  cbn [forallb].
  rewrite andb_true_r, andb_assoc.
  match goal with
  | |- context [if ?b then raise _ else _] => destruct b
  end; reflexivity.
Qed.

Lemma node_lists_set_same (st st' : state) :
  same_lists st st' -> node_lists_set (self st') = node_lists_set (self st).
Proof.
  intros (Hm & Hs & Hp). unfold node_lists_set. rewrite Hm, Hs, Hp. reflexivity.
Qed.

Lemma same_lists_entry (fuel : nat) : steps same_lists (wait_for_dcos_entry fuel).
Proof.
  unfold wait_for_dcos_entry.
  apply (steps_bind _ same_lists_trans); [|intro];
    apply (steps_call _ _ _ same_lists_trans);
    try apply same_lists_log_event.
  - apply (steps_probes same_lists same_lists_refl same_lists_trans
             same_lists_sleep same_lists_send fuel).
  - apply steps_login.
    + exact same_lists_refl.
    + exact same_lists_trans.
    + exact same_lists_sleep.
    + exact same_lists_set_session_auth.
    + exact same_lists_set_auth_token.
    + intro js. apply same_lists_send.
Qed.

Lemma entry_only_entry (fuel : nat) : steps entry_only (wait_for_dcos_entry fuel).
Proof.
  unfold wait_for_dcos_entry.
  apply (steps_bind _ entry_only_trans); [|intro];
    apply (steps_call _ _ _ entry_only_trans);
    try (apply entry_only_log_event; simpl; tauto).
  - apply (steps_retry _ entry_only_refl entry_only_trans entry_only_sleep).
    apply steps_adminrouter_once, entry_only_send. left. reflexivity.
  - apply steps_login.
    + exact entry_only_refl.
    + exact entry_only_trans.
    + exact entry_only_sleep.
    + intro tok. apply entry_only_same_trace. reflexivity.
    + intro tok. apply entry_only_same_trace. reflexivity.
    + intro js. apply entry_only_send. right. split; reflexivity.
Qed.

(** C1 (as the code has it).  With [WAIT_FOR_HOSTS] unset or ['true'] and
    a node list that is [None], [wait_for_dcos] first runs the admin-router
    check and the login; when these two have returned normally it raises
    the host-lists exception in the state they left.  Whatever they do,
    the run consists of their events only (requests for [/] and the login
    endpoint, sleeps and their marks): no discovery request is sent and no
    later sub-check is entered, and the call never returns normally. *)
Theorem wait_for_dcos_hosts_not_supplied (fuel : nat) (w : world) (st : state) :
  wait_for_hosts_enabled w ->
  node_lists_set (self st) = false ->
  wait_for_dcos fuel w st =
    match wait_for_dcos_entry fuel w st with
    | (Some (Ok _), st1) => (Some (Raise HostListsException), st1)
    | other => other
    end /\
  entry_only st (snd (wait_for_dcos fuel w st)) /\
  fst (wait_for_dcos fuel w st) <> Some (Ok tt).
Proof.
  intros Hw Hl.
  assert (E : wait_for_dcos fuel w st =
              match wait_for_dcos_entry fuel w st with
              | (Some (Ok _), st1) => (Some (Raise HostListsException), st1)
              | other => other
              end).
  { rewrite wait_for_dcos_split. unfold bind at 1.
    pose proof (same_lists_entry fuel w st) as Hsame.
    destruct (wait_for_dcos_entry fuel w st) as [[[[]|e]|] st1];
      try reflexivity.
    simpl in Hsame. unfold bind. rewrite guard_run.
    rewrite (node_lists_set_same _ _ Hsame), Hl.
    unfold wait_for_hosts_enabled in Hw. rewrite Hw. reflexivity. }
  rewrite E. pose proof (entry_only_entry fuel w st) as Hentry.
  destruct (wait_for_dcos_entry fuel w st) as [[[[]|e]|] st1]; simpl in *.
  - split; [reflexivity|]. split; [exact Hentry|discriminate].
  - split; [reflexivity|]. split; [exact Hentry|discriminate].
  - split; [reflexivity|]. split; [exact Hentry|discriminate].
Qed.

(* ================================================================= *)
(** ** Topology discovery *)

(** Case analysis on what a run inspects: the scrutinee of the first
    [match] or [if] of the hypothesis [H]. *)
Ltac run_case H :=
  match type of H with
  | context [match network ?w ?n ?rq with _ => _ end] =>
      destruct (network w n rq) as [?lat ?r|?lat ?e] eqn:?
  | context [if ok ?r then _ else _] => destruct (ok r) eqn:?
  | context [match json ?r with _ => _ end] => destruct (json r) eqn:?
  end.

(** What a normal return of [set_node_lists_if_unset] has done. *)
Lemma set_node_lists_if_unset_run (w : world) (st st' : state) :
  set_node_lists_if_unset w st = (Some (Ok tt), st') ->
  node_lists_set (self st') = true /\
  (forall l, master_list (self st) = Some l -> master_list (self st') = Some l) /\
  (forall l, slave_list (self st) = Some l -> slave_list (self st') = Some l) /\
  (forall l, public_slave_list (self st) = Some l ->
             public_slave_list (self st') = Some l) /\
  (master_list (self st) = None ->
   exists lat r servers,
     network w (nreq st)
       {| method := GET; path := "/exhibitor/exhibitor/v1/cluster/list";
          payload := None |} = Answer lat r /\
     ok r = true /\ json r = Servers servers /\
     master_list (self st') = Some (sorted servers)) /\
  (slave_list (self st) = None \/ public_slave_list (self st) = None ->
   exists lat r slaves_json,
     network w (nreq st + (if is_set (master_list (self st)) then 0 else 1))
       {| method := GET; path := "/mesos/slaves"; payload := None |}
     = Answer lat r /\
     ok r = true /\ json r = Slaves slaves_json /\
     (slave_list (self st) = None ->
      slave_list (self st') = Some (sorted (private_hostnames slaves_json))) /\
     (public_slave_list (self st) = None ->
      public_slave_list (self st')
      = Some (sorted (public_hostnames slaves_json)))).
Proof.
  destruct st as [[ml sl pl u a] c n tr].
  unfold set_node_lists_if_unset, set_master_list, set_slave_list,
    set_public_slave_list, raise_for_status, json_servers, json_slaves,
    missing_key, get, send, lift, bind, get_self, put_self, ret, raise,
    node_lists_set.
  cbn [self master_list slave_list public_slave_list nreq trace clock is_set].
  rewrite ?Nat.add_0_r, ?Nat.add_1_r.
  destruct ml as [ml|], sl as [sl|], pl as [pl|];
    cbn [is_set andb self master_list slave_list public_slave_list nreq];
    intros H;
    repeat (run_case H;
            cbn [self master_list slave_list public_slave_list nreq is_set andb] in H;
            try discriminate H);
    injection H as <-;
    cbn [self master_list slave_list public_slave_list nreq is_set andb];
    repeat split; try (intros; congruence);
    try (intros [?|?]; discriminate);
    intros; eauto 12;
    rewrite ?Nat.add_0_r, ?Nat.add_1_r;
    do 3 eexists; (split; [eassumption|]);
    repeat split; try eassumption; intros;
    first [reflexivity|discriminate].
Qed.

Lemma wait_for_dcos_hosts_not_supplied_witness :
  wait_for_dcos 1 waiting_world (initial_state bare_session) =
    match wait_for_dcos_entry 1 waiting_world (initial_state bare_session) with
    | (Some (Ok _), st1) => (Some (Raise HostListsException), st1)
    | other => other
    end /\
  entry_only (initial_state bare_session)
    (snd (wait_for_dcos 1 waiting_world (initial_state bare_session))) /\
  fst (wait_for_dcos 1 waiting_world (initial_state bare_session))
  <> Some (Ok tt).
Proof.
  apply (wait_for_dcos_hosts_not_supplied 1 waiting_world
           (initial_state bare_session)); reflexivity.
Defined.

(** The run behind the two counterexamples below: the admin-router check
    and the login have run, and sent a request each, when the exception
    is raised; the node lists are still [None]. *)
Example wait_for_dcos_waiting_run :
  wait_for_dcos 1 waiting_world (initial_state bare_session) =
  (Some (Raise HostListsException),
   {| self := {| master_list := None; slave_list := None;
                 public_slave_list := None;
                 auth_user := Some {| credentials := credentials ci_user;
                                      auth_token := Some "secret" |};
                 session_auth := Some "secret" |};
      clock := 20; nreq := 2;
      trace := [EvEnter AdminRouterUp;
                EvRequest {| method := GET; path := "/"; payload := None |};
                EvExit AdminRouterUp;
                EvEnter Login;
                EvRequest {| method := POST; path := "/acs/api/v1/auth/login";
                             payload := Some (credentials ci_user) |};
                EvExit Login] |}).
Proof. vm_compute. reflexivity. Qed.

(** C1 (as stated) fails: the exception is not raised before any
    readiness sub-check runs. *)
Lemma raises_before_any_subcheck_fails : ~ raises_before_any_subcheck.
Proof.
  intros H.
  destruct (H 1 waiting_world bare_session) as [_ Ht]; [reflexivity..|].
  rewrite wait_for_dcos_waiting_run in Ht. discriminate Ht.
Qed.

(** C2 (as stated) fails: with waiting enabled nothing is discovered. *)
Lemma discovers_when_waiting_fails : ~ discovers_when_waiting.
Proof.
  intros H.
  specialize (H 1 waiting_world bare_session).
  rewrite wait_for_dcos_waiting_run in H.
  assert (E : false = true) by (apply H; reflexivity).
  discriminate E.
Qed.

(** C2 (as the code has it).  With [WAIT_FOR_HOSTS] set to something
    other than ['true'], once the admin-router check and the login have
    returned normally and topology resolution has returned normally (in
    state [st2]), [wait_for_dcos] continues with the remaining readiness
    checks from [st2], in which the three node lists are set: a list that
    was supplied is unchanged, a missing master list is the sorted
    ['servers'] of the exhibitor answer, and missing slave lists are the
    sorted host names of the agents in the answer of [/mesos/slaves]. *)
Theorem wait_for_dcos_discovers (fuel : nat) (w : world) (st st1 st2 : state) :
  ~ wait_for_hosts_enabled w ->
  wait_for_dcos_entry fuel w st = (Some (Ok tt), st1) ->
  call TopologyResolution set_node_lists_if_unset w st1 = (Some (Ok tt), st2) ->
  wait_for_dcos fuel w st = wait_for_dcos_checks fuel w st2 /\
  node_lists_set (self st2) = true /\
  (forall l, master_list (self st) = Some l -> master_list (self st2) = Some l) /\
  (forall l, slave_list (self st) = Some l -> slave_list (self st2) = Some l) /\
  (forall l, public_slave_list (self st) = Some l ->
             public_slave_list (self st2) = Some l) /\
  (master_list (self st) = None ->
   exists lat r servers,
     network w (nreq st1)
       {| method := GET; path := "/exhibitor/exhibitor/v1/cluster/list";
          payload := None |} = Answer lat r /\
     json r = Servers servers /\
     master_list (self st2) = Some (sorted servers)) /\
  (slave_list (self st) = None \/ public_slave_list (self st) = None ->
   exists lat r slaves_json,
     network w (nreq st1 + (if is_set (master_list (self st)) then 0 else 1))
       {| method := GET; path := "/mesos/slaves"; payload := None |}
     = Answer lat r /\
     json r = Slaves slaves_json /\
     (slave_list (self st) = None ->
      slave_list (self st2) = Some (sorted (private_hostnames slaves_json))) /\
     (public_slave_list (self st) = None ->
      public_slave_list (self st2)
      = Some (sorted (public_hostnames slaves_json)))).
Proof.
  intros Hw He Hc.
  pose proof (same_lists_entry fuel w st) as (Hm & Hs & Hp).
  rewrite He in Hm, Hs, Hp. simpl in Hm, Hs, Hp.
  rewrite call_run in Hc.
  destruct (set_node_lists_if_unset w (logged (EvEnter TopologyResolution) st1))
    as [[[[]|e]|] st'] eqn:Hrun; try discriminate Hc.
  injection Hc as <-.
  apply set_node_lists_if_unset_run in Hrun as Hspec.
  change (self (logged (EvEnter TopologyResolution) st1)) with (self st1) in Hspec.
  change (nreq (logged (EvEnter TopologyResolution) st1)) with (nreq st1) in Hspec.
  change (self (logged (EvExit TopologyResolution) st')) with (self st').
  rewrite Hm, Hs, Hp in Hspec.
  destruct Hspec as (Hset & Hml & Hsl & Hpl & Hdm & Hds).
  split.
  - rewrite wait_for_dcos_split. unfold bind at 1. rewrite He.
    unfold bind at 1. rewrite guard_run.
    assert (Hoff : String.eqb (getenv_default (os_environ w) "WAIT_FOR_HOSTS" "true")
                     "true" = false).
    { apply String.eqb_neq. exact Hw. }
    rewrite Hoff. cbn [andb].
    unfold bind at 1. rewrite call_run, Hrun. reflexivity.
  - repeat split; try assumption.
    + intros Hn. destruct (Hdm Hn) as (lat & r & servers & Hnet & _ & Hj & Hres).
      exists lat, r, servers. auto.
    + intros Hn.
      destruct (Hds Hn) as (lat & r & js & Hnet & _ & Hj & Hres1 & Hres2).
      exists lat, r, js. auto.
Qed.

Lemma wait_for_dcos_discovers_witness :
  let st := initial_state bare_session in
  let st1 := snd (wait_for_dcos_entry 1 no_wait_world st) in
  let st2 := snd (call TopologyResolution set_node_lists_if_unset
                    no_wait_world st1) in
  ~ wait_for_hosts_enabled no_wait_world /\
  wait_for_dcos 1 no_wait_world st = wait_for_dcos_checks 1 no_wait_world st2 /\
  node_lists_set (self st2) = true /\
  master_list (self st2) = Some ["10.0.0.1"] /\
  slave_list (self st2) = Some ["10.0.0.2"] /\
  public_slave_list (self st2) = Some ["10.0.0.3"].
Proof.
  intros st st1 st2.
  assert (Hw : ~ wait_for_hosts_enabled no_wait_world)
    by (unfold wait_for_hosts_enabled; simpl; discriminate).
  destruct (wait_for_dcos_discovers 1 no_wait_world st st1 st2 Hw)
    as (H1 & H2 & _).
  - reflexivity.
  - reflexivity.
  - split; [exact Hw|]. split; [exact H1|]. split; [exact H2|].
    repeat split.
Defined.

(** ** The classification of the discovered agents *)

Lemma pyval_eqb_str (v : pyval) (s : string) :
  pyval_eqb v (PStr s) = true <-> v = PStr s.
Proof.
  destruct v; simpl; split; try discriminate; try congruence.
  - intros H. apply String.eqb_eq in H. congruence.
  - intros H. injection H as ->. apply String.eqb_refl.
Qed.

Lemma is_public_iff (s : agent) :
  is_public s = true <-> dict_get (agent_attributes s) "public_ip" = PStr "true".
Proof. apply pyval_eqb_str. Qed.

Lemma In_public_hostnames (h : string) (l : list agent) :
  In h (public_hostnames l) <->
  exists s, In s l /\ agent_hostname s = h /\
            dict_get (agent_attributes s) "public_ip" = PStr "true".
Proof.
  unfold public_hostnames. rewrite in_map_iff. split.
  - intros (s & Hh & Hin). apply filter_In in Hin as [Hin Hp].
    exists s. rewrite <- is_public_iff. auto.
  - intros (s & Hin & Hh & Hp). exists s. split; [exact Hh|].
    apply filter_In. rewrite is_public_iff. auto.
Qed.

Lemma In_private_hostnames (h : string) (l : list agent) :
  In h (private_hostnames l) <->
  exists s, In s l /\ agent_hostname s = h /\
            dict_get (agent_attributes s) "public_ip" <> PStr "true".
Proof.
  unfold private_hostnames. rewrite in_map_iff. split.
  - intros (s & Hh & Hin). apply filter_In in Hin as [Hin Hp].
    exists s. rewrite <- is_public_iff.
    apply negb_true_iff in Hp. rewrite Hp. auto.
  - intros (s & Hin & Hh & Hp). exists s. split; [exact Hh|].
    apply filter_In. split; [exact Hin|].
    apply negb_true_iff. rewrite <- is_public_iff in Hp.
    destruct (is_public s); congruence.
Qed.

(** Every agent is counted once, on one side. *)
Lemma hostnames_partition (l : list agent) :
  Permutation (private_hostnames l ++ public_hostnames l)
    (map agent_hostname l).
Proof.
  unfold private_hostnames, public_hostnames.
  induction l as [|s l IH]; simpl.
  - apply perm_nil.
  - destruct (is_public s); simpl.
    + apply Permutation_sym, Permutation_cons_app, Permutation_sym, IH.
    + apply perm_skip, IH.
Qed.

(** C10 (as stated) fails: the public slaves having been supplied as the
    empty list, the public agent that [/mesos/slaves] reports is put in
    no list. *)
Lemma every_observed_slave_assigned_fails : ~ every_observed_slave_assigned.
Proof.
  intros H.
  destruct (H no_wait_world (initial_state no_public_session)
              (snd (set_node_lists_if_unset no_wait_world
                      (initial_state no_public_session)))
              10%N
              {| status_code := 200; json := Slaves [agent1; agent2] |}
              [agent1; agent2])
    with (s := agent2) as (sl & pl & _ & Hpl & Hin & _).
  - left. reflexivity.
  - reflexivity.
  - reflexivity.
  - reflexivity.
  - right. left. reflexivity.
  - cbn in Hpl. injection Hpl as <-. apply Hin. reflexivity.
Qed.

(** The run behind it. *)
Example discovery_with_public_slaves_supplied :
  let st' := snd (set_node_lists_if_unset no_wait_world
                    (initial_state no_public_session)) in
  slave_list (self st') = Some ["10.0.0.2"] /\
  public_slave_list (self st') = Some [].
Proof. split; reflexivity. Qed.

(** C10 (as the code has it).  When [set_node_lists_if_unset] returns
    normally on a session whose [slave_list] or [public_slave_list] is
    [None], it has fetched [/mesos/slaves]; a missing [public_slave_list]
    becomes the sorted host names of the agents whose ['public_ip']
    attribute is the string ['true'], a missing [slave_list] the sorted
    host names of all the other agents, so that when both were missing
    every observed agent is in exactly one of the two lists; a list that
    was not [None] is left as it was, the agents of its kind that
    [/mesos/slaves] reports not being added to it. *)
Theorem discovered_slaves_partition (w : world) (st st' : state) :
  slave_list (self st) = None \/ public_slave_list (self st) = None ->
  set_node_lists_if_unset w st = (Some (Ok tt), st') ->
  exists lat r slaves_json,
    network w (nreq st + (if is_set (master_list (self st)) then 0 else 1))
      {| method := GET; path := "/mesos/slaves"; payload := None |}
    = Answer lat r /\
    json r = Slaves slaves_json /\
    (slave_list (self st) = None ->
     exists sl, slave_list (self st') = Some sl /\
       StronglySorted str_le sl /\
       forall h, In h sl <->
         exists s, In s slaves_json /\ agent_hostname s = h /\
                   dict_get (agent_attributes s) "public_ip" <> PStr "true") /\
    (public_slave_list (self st) = None ->
     exists pl, public_slave_list (self st') = Some pl /\
       StronglySorted str_le pl /\
       forall h, In h pl <->
         exists s, In s slaves_json /\ agent_hostname s = h /\
                   dict_get (agent_attributes s) "public_ip" = PStr "true") /\
    (slave_list (self st) = None -> public_slave_list (self st) = None ->
     exists sl pl, slave_list (self st') = Some sl /\
       public_slave_list (self st') = Some pl /\
       Permutation (sl ++ pl) (map agent_hostname slaves_json)) /\
    (forall l, master_list (self st) = Some l -> master_list (self st') = Some l) /\
    (forall l, slave_list (self st) = Some l -> slave_list (self st') = Some l) /\
    (forall l, public_slave_list (self st) = Some l ->
               public_slave_list (self st') = Some l).
Proof.
  intros Hnone Hrun.
  destruct (set_node_lists_if_unset_run w st st' Hrun)
    as (_ & Hml & Hsl & Hpl & _ & Hds).
  destruct (Hds Hnone) as (lat & r & js & Hnet & _ & Hj & Hs & Hp).
  exists lat, r, js.
  split; [exact Hnet|]. split; [exact Hj|].
  split; [|split; [|split; [|repeat split; assumption]]].
  - intros Hn. eexists. split; [exact (Hs Hn)|].
    split; [apply sorted_strongly_sorted|].
    intros h. rewrite <- In_private_hostnames. split.
    + apply Permutation_in, sorted_perm.
    + apply Permutation_in, Permutation_sym, sorted_perm.
  - intros Hn. eexists. split; [exact (Hp Hn)|].
    split; [apply sorted_strongly_sorted|].
    intros h. rewrite <- In_public_hostnames. split.
    + apply Permutation_in, sorted_perm.
    + apply Permutation_in, Permutation_sym, sorted_perm.
  - intros Hn1 Hn2. eexists _, _.
    split; [exact (Hs Hn1)|]. split; [exact (Hp Hn2)|].
    eapply perm_trans; [|apply hostnames_partition].
    apply Permutation_app; apply sorted_perm.
Qed.

Lemma discovered_slaves_partition_witness :
  let st := initial_state bare_session in
  let st' := snd (set_node_lists_if_unset no_wait_world st) in
  exists lat r slaves_json,
    network no_wait_world
      (nreq st + (if is_set (master_list (self st)) then 0 else 1))
      {| method := GET; path := "/mesos/slaves"; payload := None |}
    = Answer lat r /\
    json r = Slaves slaves_json /\
    (slave_list (self st) = None ->
     exists sl, slave_list (self st') = Some sl /\
       StronglySorted str_le sl /\
       forall h, In h sl <->
         exists s, In s slaves_json /\ agent_hostname s = h /\
                   dict_get (agent_attributes s) "public_ip" <> PStr "true") /\
    (public_slave_list (self st) = None ->
     exists pl, public_slave_list (self st') = Some pl /\
       StronglySorted str_le pl /\
       forall h, In h pl <->
         exists s, In s slaves_json /\ agent_hostname s = h /\
                   dict_get (agent_attributes s) "public_ip" = PStr "true") /\
    (slave_list (self st) = None -> public_slave_list (self st) = None ->
     exists sl pl, slave_list (self st') = Some sl /\
       public_slave_list (self st') = Some pl /\
       Permutation (sl ++ pl) (map agent_hostname slaves_json)) /\
    (forall l, master_list (self st) = Some l -> master_list (self st') = Some l) /\
    (forall l, slave_list (self st) = Some l -> slave_list (self st') = Some l) /\
    (forall l, public_slave_list (self st) = Some l ->
               public_slave_list (self st') = Some l).
Proof.
  intros st st'.
  apply (discovered_slaves_partition no_wait_world st st').
  - left. reflexivity.
  - reflexivity.
Defined.

(** On the example cluster the private agent and the public agent end up
    in their own lists. *)
Example discovery_on_healthy_cluster :
  let st' := snd (set_node_lists_if_unset no_wait_world
                    (initial_state bare_session)) in
  master_list (self st') = Some ["10.0.0.1"] /\
  slave_list (self st') = Some ["10.0.0.2"] /\
  public_slave_list (self st') = Some ["10.0.0.3"].
Proof. repeat split. Qed.

(* ================================================================= *)
(** ** How long the retry loops run *)

Lemma total_bind {A B} (m : M A) (k : A -> M B) :
  total m -> (forall a, total (k a)) -> total (bind m k).
Proof.
  intros Hm Hk w st. unfold bind. specialize (Hm w st).
  destruct (m w st) as [[[a|e]|] st1]; simpl in *;
    [apply Hk|discriminate|congruence].
Qed.

Lemma total_send (rq : request) : total (send rq).
Proof.
  intros w st. unfold send. destruct (network w (nreq st) rq); discriminate.
Qed.

Lemma total_pure {A} (r : result A) : total (lift r).
Proof. intros w st. discriminate. Qed.

Lemma total_assert (b : bool) : total (assert b).
Proof. destruct b; intros w st; discriminate. Qed.

Lemma total_check_slave_endpoints (ids : list string) :
  total (check_slave_endpoints ids).
Proof.
  induction ids as [|i ids IH]; cbn [check_slave_endpoints].
  - intros w st. discriminate.
  - apply total_bind; [apply total_send|intro r].
    destruct (status_in r in_progress_status_codes);
      [intros w st; discriminate|].
    repeat (apply total_bind;
            [first [apply total_assert|apply total_pure]|intro]).
    exact IH.
Qed.

Lemma total_srouter_once : total _wait_for_srouter_slaves_endpoints_once.
Proof.
  unfold _wait_for_srouter_slaves_endpoints_once.
  apply total_bind; [apply total_send|intro r].
  destruct (status_code r =? 502)%Z; [intros w st; discriminate|].
  apply total_bind; [apply total_assert|intro].
  apply total_bind; [apply total_pure|intro].
  apply total_bind; [intros w st; discriminate|intro].
  apply total_bind; [apply total_pure|intro].
  apply total_check_slave_endpoints.
Qed.

(** A loop with [stop_max_attempt_number = n] makes no attempt after the
    [n]-th. *)
Lemma retry_call_within (p : retry_args) (fn : M pyval) (n : nat) :
  stop_max_attempt_number p = Some n -> total fn ->
  forall fuel k t w st,
    k <= n -> n < fuel + k ->
    fst (retry_call p fn fuel k t w st) <> None.
Proof.
  intros Hn Hfn fuel.
  induction fuel as [|fuel IH]; intros k t w st Hk Hf; [lia|].
  cbn [retry_call]. specialize (Hfn w st).
  destruct (fn w st) as [[attempt|] st1]; simpl in Hfn; [|congruence].
  destruct (negb (should_reject p attempt)); [discriminate|].
  destruct (stop p k (clock st1 - t)) eqn:Hstop.
  - destruct attempt; discriminate.
  - unfold stop in Hstop. rewrite Hn in Hstop.
    apply orb_false_iff in Hstop as [Hle _].
    apply Nat.leb_gt in Hle.
    apply IH; lia.
Qed.

(** ... and raises [RetryError] when the [n]-th result is still rejected. *)
Lemma retry_call_exhausted (p : retry_args) (fn : M pyval) (n : nat) (w : world) :
  stop_max_attempt_number p = Some n -> stop_max_delay p = None ->
  (forall st, exists v st',
      fn w st = (Some (Ok v), st') /\ should_reject p (Ok v) = true /\
      nreq st' = S (nreq st)) ->
  forall fuel k t st,
    k <= n -> n < fuel + k ->
    fst (retry_call p fn fuel k t w st) = Some (Raise RetryError) /\
    nreq (snd (retry_call p fn fuel k t w st)) = nreq st + (S n - k).
Proof.
  intros Hn Hd Hfn fuel.
  induction fuel as [|fuel IH]; intros k t st Hk Hf; [lia|].
  cbn [retry_call].
  destruct (Hfn st) as (v & st1 & -> & Hrej & Hreq).
  rewrite Hrej. cbn [negb].
  unfold stop. rewrite Hn, Hd, orb_false_r.
  destruct (n <=? k)%nat eqn:Hle.
  - apply Nat.leb_le in Hle. cbn [fst snd]. split; [reflexivity|lia].
  - apply Nat.leb_gt in Hle.
    destruct (IH (S k) t (sleep (wait_fixed p) st1)) as [H1 H2]; [lia..|].
    split; [exact H1|]. rewrite H2. cbn [sleep nreq]. lia.
Qed.

(** A loop without a stop argument goes on for as long as its results are
    rejected: whatever the fuel, it uses all of it.  [Inv] is what the
    probe needs of the state to be rejected again. *)
Lemma retry_call_unbounded (p : retry_args) (fn : M pyval) (w : world)
    (Inv : state -> Prop) :
  stop_max_attempt_number p = None -> stop_max_delay p = None ->
  (forall st, Inv st -> exists a st',
      fn w st = (Some a, st') /\ should_reject p a = true /\
      nreq st' = S (nreq st) /\ Inv (sleep (wait_fixed p) st')) ->
  forall fuel k t st,
    Inv st ->
    fst (retry_call p fn fuel k t w st) = None /\
    nreq (snd (retry_call p fn fuel k t w st)) = nreq st + fuel.
Proof.
  intros Hn Hd Hfn fuel.
  induction fuel as [|fuel IH]; intros k t st Hinv.
  - cbn [retry_call fst snd]. split; [reflexivity|lia].
  - cbn [retry_call].
    destruct (Hfn st Hinv) as (a & st1 & -> & Hrej & Hreq & Hinv1).
    rewrite Hrej. cbn [negb].
    unfold stop. rewrite Hn, Hd. cbn [orb].
    destruct (IH (S k) t (sleep (wait_fixed p) st1) Hinv1) as [H1 H2].
    split; [exact H1|]. rewrite H2. cbn [sleep nreq]. lia.
Qed.

Lemma srouter_bad_gateway (st : state) :
  exists v st',
    _wait_for_srouter_slaves_endpoints_once bad_gateway_world st
    = (Some (Ok v), st') /\
    should_reject (probe_retry 2000 (Some 60)) (Ok v) = true /\
    nreq st' = S (nreq st).
Proof. eexists _, _. cbn. repeat split. Qed.

Lemma marathon_unavailable (st : state) :
  exists a st',
    _wait_for_marathon_up_once unavailable_world st = (Some a, st') /\
    should_reject (probe_retry 1000 None) a = true /\
    nreq st' = S (nreq st).
Proof. eexists _, _. cbn. repeat split. Qed.

Lemma zk_quorum_unavailable (st : state) :
  exists a st',
    _wait_for_zk_quorum_once unavailable_world st = (Some a, st') /\
    should_reject zk_quorum_retry a = true /\
    nreq st' = S (nreq st).
Proof. eexists _, _. cbn. repeat split. Qed.

Lemma slaves_to_join_unavailable (st : state) :
  exists a st',
    _wait_for_slaves_to_join_once unavailable_world st = (Some a, st') /\
    should_reject (probe_retry 1000 None) a = true /\
    nreq st' = S (nreq st).
Proof. eexists _, _. cbn. repeat split. Qed.

Lemma metronome_unavailable (st : state) :
  exists a st',
    _wait_for_metronome_once unavailable_world st = (Some a, st') /\
    should_reject (probe_retry 2000 None) a = true /\
    nreq st' = S (nreq st).
Proof. eexists _, _. cbn. repeat split. Qed.

Lemma all_healthy_unhealthy (st : state) :
  node_lists_set (self st) = true ->
  exists a st',
    _wait_for_all_healthy_services_once unhealthy_world st = (Some a, st') /\
    should_reject (probe_retry 2000 None) a = true /\
    nreq st' = S (nreq st) /\
    node_lists_set (self (sleep 2000 st')) = true.
Proof.
  destruct st as [[[ml|] [sl|] [pl|] u a] c n tr]; try discriminate.
  intros _. eexists _, _. cbn. repeat split.
Qed.

(** C7. The agent-endpoint check (declared with
    [stop_max_attempt_number=60]) never makes a 61st attempt, whatever the
    cluster answers, and on a cluster that keeps answering 502 it raises
    [RetryError] after exactly 60 requests.  The marathon, ZooKeeper,
    slaves-join, metronome and health checks are declared without a stop
    argument, so that their stop test is never true: on a cluster on which
    they are never ready they are still retrying after any number [fuel]
    of attempts, having sent [fuel] requests. *)
Theorem retry_bounds (fuel : nat) (w : world) (st : state) :
  (60 <= fuel ->
   fst (_wait_for_srouter_slaves_endpoints fuel w st) <> None) /\
  (60 <= fuel ->
   fst (_wait_for_srouter_slaves_endpoints fuel bad_gateway_world st)
   = Some (Raise RetryError) /\
   nreq (snd (_wait_for_srouter_slaves_endpoints fuel bad_gateway_world st))
   = nreq st + 60) /\
  (fst (_wait_for_marathon_up fuel unavailable_world st) = None /\
   nreq (snd (_wait_for_marathon_up fuel unavailable_world st))
   = nreq st + fuel) /\
  (fst (_wait_for_zk_quorum fuel unavailable_world st) = None /\
   nreq (snd (_wait_for_zk_quorum fuel unavailable_world st))
   = nreq st + fuel) /\
  (fst (_wait_for_slaves_to_join fuel unavailable_world st) = None /\
   nreq (snd (_wait_for_slaves_to_join fuel unavailable_world st))
   = nreq st + fuel) /\
  (fst (_wait_for_metronome fuel unavailable_world st) = None /\
   nreq (snd (_wait_for_metronome fuel unavailable_world st))
   = nreq st + fuel) /\
  (node_lists_set (self st) = true ->
   fst (_wait_for_all_healthy_services fuel unhealthy_world st) = None /\
   nreq (snd (_wait_for_all_healthy_services fuel unhealthy_world st))
   = nreq st + fuel) /\
  (forall wait attempt_number delay,
     stop (probe_retry wait None) attempt_number delay = false /\
     stop zk_quorum_retry attempt_number delay = false /\
     stop (probe_retry wait (Some 60)) attempt_number delay
     = (60 <=? attempt_number)%nat).
Proof.
  unfold _wait_for_srouter_slaves_endpoints, _wait_for_marathon_up,
    _wait_for_zk_quorum, _wait_for_slaves_to_join, _wait_for_metronome,
    _wait_for_all_healthy_services, retry.
  split; [|split; [|split; [|split; [|split; [|split; [|split]]]]]].
  - intros Hf.
    apply (retry_call_within _ _ 60); [reflexivity|apply total_srouter_once|lia..].
  - intros Hf.
    apply (retry_call_exhausted _ _ 60 bad_gateway_world);
      [reflexivity|reflexivity|apply srouter_bad_gateway|lia..].
  - apply (retry_call_unbounded _ _ _ (fun _ => True));
      [reflexivity|reflexivity| |exact I].
    intros s _. destruct (marathon_unavailable s) as (a & s' & H1 & H2 & H3).
    exists a, s'. auto.
  - apply (retry_call_unbounded _ _ _ (fun _ => True));
      [reflexivity|reflexivity| |exact I].
    intros s _. destruct (zk_quorum_unavailable s) as (a & s' & H1 & H2 & H3).
    exists a, s'. auto.
  - apply (retry_call_unbounded _ _ _ (fun _ => True));
      [reflexivity|reflexivity| |exact I].
    intros s _. destruct (slaves_to_join_unavailable s) as (a & s' & H1 & H2 & H3).
    exists a, s'. auto.
  - apply (retry_call_unbounded _ _ _ (fun _ => True));
      [reflexivity|reflexivity| |exact I].
    intros s _. destruct (metronome_unavailable s) as (a & s' & H1 & H2 & H3).
    exists a, s'. auto.
  - intros Hset.
    apply (retry_call_unbounded _ _ _
             (fun s => node_lists_set (self s) = true));
      [reflexivity|reflexivity| |exact Hset].
    intros s Hs. apply all_healthy_unhealthy, Hs.
  - intros wait k d. unfold stop. cbn. rewrite orb_false_r. auto.
Qed.

Lemma retry_bounds_witness :
  fst (_wait_for_srouter_slaves_endpoints 60 waiting_world
         (initial_state full_session)) <> None /\
  fst (_wait_for_srouter_slaves_endpoints 60 bad_gateway_world
         (initial_state full_session)) = Some (Raise RetryError) /\
  nreq (snd (_wait_for_srouter_slaves_endpoints 60 bad_gateway_world
               (initial_state full_session))) = 60 /\
  fst (_wait_for_all_healthy_services 60 unhealthy_world
         (initial_state full_session)) = None /\
  nreq (snd (_wait_for_all_healthy_services 60 unhealthy_world
               (initial_state full_session))) = 60.
Proof.
  destruct (retry_bounds 60 waiting_world (initial_state full_session))
    as (H1 & _ & _ & _ & _ & _ & _ & _).
  destruct (retry_bounds 60 bad_gateway_world (initial_state full_session))
    as (_ & H2 & _ & _ & _ & _ & H7 & _).
  split; [apply H1; lia|].
  destruct H2 as [H2 H2']; [lia|].
  destruct H7 as [H7 H7']; [reflexivity|].
  split; [exact H2|]. split; [exact H2'|]. split; [exact H7|exact H7'].
Defined.

(* ================================================================= *)
(** ** Status codes and exceptions in the probes *)



(** The run behind it: a 403 and then a 200 make two attempts. *)
Example marathon_retries_on_403 :
  let w := {| os_environ := empty_env; network := late_cluster 1 403 |} in
  let run := _wait_for_marathon_up 2 w (initial_state full_session) in
  fst run = Some (Ok (PBool true)) /\ nreq (snd run) = 2.
Proof. split; reflexivity. Qed.






(* ================================================================= *)
(** * Further properties *)

(** ** [get_args_from_env], continued *)

Lemma split_not_nil (sep : ascii) (s : string) :
  exists h t, split sep s = h :: t.
Proof.
  induction s as [|c s (h & t & IH)]; simpl.
  - eauto.
  - destruct (Ascii.eqb c sep); [eauto|]. rewrite IH. eauto.
Qed.

(** Splitting what was joined gives the two lists, one after the other. *)
Lemma split_join (sep : ascii) (a b : string) :
  split sep (String.append a (String sep b)) = split sep a ++ split sep b.
Proof.
  induction a as [|c a IH]; simpl.
  - rewrite Ascii.eqb_refl. reflexivity.
  - destruct (Ascii.eqb c sep).
    + rewrite IH. reflexivity.
    + rewrite IH. destruct (split_not_nil sep a) as (h & t & ->). reflexivity.
Qed.

Lemma truthy_iff (o : option string) :
  truthy o = true <-> exists w, o = Some w /\ w <> "".
Proof.
  destruct o as [[|c w]|]; simpl; split; try discriminate.
  - intros (w & H & Hne). injection H as <-. congruence.
  - intros _. eexists. split; [reflexivity|discriminate].
  - reflexivity.
  - intros (w & H & _). discriminate.
Qed.

Lemma type_error_env_iff (env : environ) :
  type_error_env env <->
  (truthy (env "WINDOWS_HOSTS") = true /\ env "SLAVE_HOSTS" = None) \/
  (truthy (env "WINDOWS_PUBLIC_HOSTS") = true /\
   env "PUBLIC_SLAVE_HOSTS" = None).
Proof.
  unfold type_error_env. rewrite !truthy_iff. split.
  - intros [(w & H1 & H2 & H3)|(w & H1 & H2 & H3)]; [left|right]; eauto.
  - intros [((w & H1 & H2) & H3)|((w & H1 & H2) & H3)]; [left|right]; eauto.
Qed.

Lemma get_args_from_env_defined (ci : credentials_t) (env : environ) :
  (exists args, get_args_from_env ci env = Ok args) <->
  ~ ((truthy (env "WINDOWS_HOSTS") = true /\ env "SLAVE_HOSTS" = None) \/
     (truthy (env "WINDOWS_PUBLIC_HOSTS") = true /\
      env "PUBLIC_SLAVE_HOSTS" = None)).
Proof.
  unfold get_args_from_env.
  destruct (env "WINDOWS_HOSTS") as [[|c1 w1]|],
    (env "WINDOWS_PUBLIC_HOSTS") as [[|c2 w2]|],
    (env "SLAVE_HOSTS"), (env "PUBLIC_SLAVE_HOSTS"); simpl; split; intros H;
    first [ eexists; reflexivity
          | destruct H as [? H]; discriminate H
          | intros [[? ?]|[? ?]]; discriminate
          | exfalso; apply H; auto ].
Qed.

(** X1. [get_args_from_env] returns an argument dictionary in every
    environment but those in which a Windows variable is a non-empty
    string while the variable it is joined to is unset: the [TypeError]
    of the join is the only way it fails. *)
Theorem get_args_from_env_ok_iff (ci : credentials_t) (env : environ) :
  (exists args, get_args_from_env ci env = Ok args) <-> ~ type_error_env env.
Proof.
  rewrite type_error_env_iff. apply get_args_from_env_defined.
Qed.

(** X2. When both [SLAVE_HOSTS] and a non-empty [WINDOWS_HOSTS] are
    set, the slaves argument is the hosts of the first followed by the
    hosts of the second; the same holds of [PUBLIC_SLAVE_HOSTS] and
    [WINDOWS_PUBLIC_HOSTS]. *)
Theorem get_args_from_env_windows_appended (ci : credentials_t)
    (env : environ) (args : session_args) :
  get_args_from_env ci env = Ok args ->
  (forall a b, env "SLAVE_HOSTS" = Some a -> env "WINDOWS_HOSTS" = Some b ->
               b <> "" ->
               arg_slaves args = split "," a ++ split "," b) /\
  (forall a b, env "PUBLIC_SLAVE_HOSTS" = Some a ->
               env "WINDOWS_PUBLIC_HOSTS" = Some b -> b <> "" ->
               arg_public_slaves args = split "," a ++ split "," b).
Proof.
  unfold get_args_from_env. intros H. split; intros a b Ha Hb Hne.
  - rewrite Ha, Hb in H. destruct b as [|c b]; [congruence|].
    cbn [truthy join2] in H.
    destruct (if truthy (env "WINDOWS_PUBLIC_HOSTS") then _ else _)
      as [ps|e]; [|discriminate].
    injection H as <-. cbn [arg_slaves].
    change (String.append a (String.append "," (String c b)))
      with (String.append a (String "," (String c b))).
    apply split_join.
  - rewrite Ha, Hb in H. destruct b as [|c b]; [congruence|].
    cbn [truthy join2] in H.
    destruct (if truthy (env "WINDOWS_HOSTS") then _ else _)
      as [ss|e]; [|discriminate].
    injection H as <-. cbn [arg_public_slaves].
    change (String.append a (String.append "," (String c b)))
      with (String.append a (String "," (String c b))).
    apply split_join.
Qed.

Lemma get_args_from_env_windows_appended_witness :
  exists args,
    get_args_from_env [] windows_env = Ok args /\
    arg_slaves args = ["10.0.0.2"; "10.0.0.3"; "10.0.0.9"].
Proof.
  eexists. split; [reflexivity|].
  refine (proj1 (get_args_from_env_windows_appended [] windows_env _ eq_refl)
            "10.0.0.2,10.0.0.3" "10.0.0.9" eq_refl eq_refl _).
  discriminate.
Defined.

(* ================================================================= *)
(** ** What comes out of a retry loop *)

(** The outcome of a loop is the outcome of one of its attempts, accepted
    as it is, or rejected when the loop stopped; [Inv] is an invariant of
    the rejected attempts. *)
Lemma retry_call_inv (p : retry_args) (fn : M pyval) (w : world)
    (Inv : state -> Prop) :
  (forall st a st1,
      Inv st -> fn w st = (Some a, st1) -> should_reject p a = true ->
      Inv (sleep (wait_fixed p) st1)) ->
  forall fuel k t st a st',
    Inv st ->
    retry_call p fn fuel k t w st = (Some a, st') ->
    exists st0 a0,
      Inv st0 /\ fn w st0 = (Some a0, st') /\
      ((should_reject p a0 = false /\ a = a0) \/
       (should_reject p a0 = true /\
        a = match a0 with
            | Raise e => Raise e
            | Ok _ => Raise RetryError
            end)).
Proof.
  intros Hrej fuel.
  induction fuel as [|fuel IH]; intros k t st a st' Hinv Hrun;
    cbn [retry_call] in Hrun; [discriminate|].
  destruct (fn w st) as [[a0|] st1] eqn:Hfn; [|discriminate].
  destruct (should_reject p a0) eqn:Hr; cbn [negb] in Hrun.
  - destruct (stop p k (clock st1 - t)).
    + exists st, a0. split; [exact Hinv|].
      destruct a0; injection Hrun as <- <-; (split; [exact Hfn|]); right; auto.
    + eapply IH; [|exact Hrun]. eapply Hrej; eassumption.
  - injection Hrun as <- <-. exists st, a0. auto.
Qed.

Lemma retry_never_false (wait : N) (max : option nat) (fn : M pyval)
    (fuel : nat) (w : world) (st : state) :
  fst (retry (probe_retry wait max) fn fuel w st) <> Some (Ok (PBool false)).
Proof.
  intros Hf. unfold retry in Hf.
  destruct (retry_call _ fn fuel 1 (clock st) w st) as [o st'] eqn:Hrun.
  cbn [fst] in Hf. subst o.
  apply (retry_call_inv _ _ _ (fun _ => True)) in Hrun; [|auto|exact I].
  destruct Hrun as (st0 & a0 & _ & _ & [[Hr <-]|[_ Ha]]).
  - discriminate Hr.
  - destruct a0; discriminate Ha.
Qed.

(** X3. A probe declared with [retry_on_result=lambda ret: ret is False]
    never hands [False] to its caller: each of the six probes returns
    something else, raises, or is still retrying. *)
Theorem probes_never_return_false (fuel : nat) (w : world) (st : state) :
  fst (_wait_for_adminrouter_up fuel w st) <> Some (Ok (PBool false)) /\
  fst (_wait_for_marathon_up fuel w st) <> Some (Ok (PBool false)) /\
  fst (_wait_for_slaves_to_join fuel w st) <> Some (Ok (PBool false)) /\
  fst (_wait_for_srouter_slaves_endpoints fuel w st)
  <> Some (Ok (PBool false)) /\
  fst (_wait_for_metronome fuel w st) <> Some (Ok (PBool false)) /\
  fst (_wait_for_all_healthy_services fuel w st) <> Some (Ok (PBool false)).
Proof.
  repeat split; apply retry_never_false.
Qed.

(** X4. The admin router counts as up as soon as it answers, whatever
    the status code of the answer: the check returns [True] after one
    request. *)
Theorem adminrouter_up_on_any_answer (fuel : nat) (w : world) (st : state)
    (r : response) :
  answered w st r ->
  fst (_wait_for_adminrouter_up (S fuel) w st) = Some (Ok (PBool true)) /\
  nreq (snd (_wait_for_adminrouter_up (S fuel) w st)) = S (nreq st).
Proof.
  intros H.
  unfold _wait_for_adminrouter_up, retry. cbn [retry_call].
  unfold _wait_for_adminrouter_up_once, get, send.
  destruct (H {| method := GET; path := "/"; payload := None |}) as [lat E].
  rewrite E. split; reflexivity.
Qed.

Lemma adminrouter_up_on_any_answer_witness :
  fst (_wait_for_adminrouter_up 1 unavailable_world (initial_state bare_session))
  = Some (Ok (PBool true)) /\
  nreq (snd (_wait_for_adminrouter_up 1 unavailable_world
               (initial_state bare_session))) = 1.
Proof.
  apply (adminrouter_up_on_any_answer 0 unavailable_world
           (initial_state bare_session)
           {| status_code := 503; json := NotJson |}).
  intros rq. exists 10%N. reflexivity.
Defined.

(* ================================================================= *)
(** ** The login *)

Ltac login_finish :=
  cbn; repeat split; eauto; try discriminate;
  try (intros ? ? Hu Ht;
       first [exact Hu|injection Hu as <-; discriminate Ht|discriminate Hu]).

Lemma login_once_run (w : world) (st st1 : state) (a : result pyval) :
  login_default_user_once w st = (Some a, st1) ->
  match a with
  | Raise e => self st1 = self st /\ request_exn e
  | Ok v =>
      v = PNone /\ logged_in (self st1) /\ same_lists st st1 /\
      option_map credentials (auth_user (self st1))
      = option_map credentials (auth_user (self st)) /\
      (forall u tok, auth_user (self st) = Some u -> auth_token u = Some tok ->
                     auth_user (self st1) = Some u)
  end.
Proof.
  destruct st as [[ml sl pl [[cr [tok|]]|] sa] c n tr];
    unfold login_default_user_once, set_session_auth, set_auth_token, post,
      send, raise_for_status, json_token, missing_key, lift, bind, get_self,
      put_self, ret, raise, logged_in, same_lists;
    cbn [self auth_user auth_token credentials nreq].
  - intros H. injection H as <- <-. login_finish.
  - destruct (network w n _) as [lat r|lat e]; cbn.
    + destruct (ok r); cbn.
      * destruct (json r); cbn; intros H; injection H as <- <-; login_finish.
      * intros H. injection H as <- <-. login_finish.
    + intros H. injection H as <- <-. destruct e; login_finish.
  - intros H. injection H as <- <-. login_finish.
Qed.

Lemma login_once_total : total login_default_user_once.
Proof.
  intros w st.
  destruct st as [[ml sl pl [[cr [tok|]]|] sa] c n tr];
    unfold login_default_user_once, set_session_auth, set_auth_token, post,
      send, raise_for_status, json_token, missing_key, lift, bind, get_self,
      put_self, ret, raise;
    cbn [self auth_user auth_token credentials nreq]; try discriminate.
  destruct (network w n _) as [lat r|lat e]; cbn; [|discriminate].
  destruct (ok r); cbn; [|discriminate].
  destruct (json r); discriminate.
Qed.

(** The attempt that a returning login accepted ran on the session of
    the call: the rejected attempts before it raised and left it alone. *)
Lemma login_accepted (fuel : nat) (w : world) (st st' : state) (v : pyval) :
  login_default_user fuel w st = (Some (Ok v), st') ->
  exists st0,
    self st0 = self st /\ login_default_user_once w st0 = (Some (Ok v), st').
Proof.
  unfold login_default_user, retry. intros Hrun.
  apply (retry_call_inv _ _ _ (fun s => self s = self st)) in Hrun;
    [| |reflexivity].
  - destruct Hrun as (st0 & a0 & Hself & Hfn & [[_ <-]|[_ Ha]]).
    + exists st0. auto.
    + destruct a0; discriminate Ha.
  - intros s a s1 Hs Hfn Hrej. apply login_once_run in Hfn.
    destruct a as [x|e]; [discriminate Hrej|].
    cbn [sleep self]. destruct Hfn as [-> _]. exact Hs.
Qed.

(** X5. When [login_default_user] returns, the user of the session, if
    there is one, holds a token and the session's auth carries it; the
    credentials and the node lists are those of before, and a user who
    already held a token is unchanged. *)
Theorem login_default_user_returns (fuel : nat) (w : world) (st st' : state)
    (v : pyval) :
  login_default_user fuel w st = (Some (Ok v), st') ->
  v = PNone /\ logged_in (self st') /\ same_lists st st' /\
  option_map credentials (auth_user (self st'))
  = option_map credentials (auth_user (self st)) /\
  (forall u tok, auth_user (self st) = Some u -> auth_token u = Some tok ->
                 auth_user (self st') = Some u).
Proof.
  intros Hrun.
  apply login_accepted in Hrun as (st0 & Hself & Hfn).
  apply login_once_run in Hfn.
  unfold same_lists in *. rewrite Hself in Hfn. exact Hfn.
Qed.

Lemma login_default_user_returns_witness :
  let st' := snd (login_default_user 1 waiting_world
                    (initial_state bare_session)) in
  PNone = PNone /\ logged_in (self st') /\
  same_lists (initial_state bare_session) st' /\
  option_map credentials (auth_user (self st'))
  = option_map credentials (auth_user (self (initial_state bare_session))) /\
  (forall u tok,
      auth_user (self (initial_state bare_session)) = Some u ->
      auth_token u = Some tok -> auth_user (self st') = Some u).
Proof.
  intros st'.
  apply (login_default_user_returns 1 waiting_world
           (initial_state bare_session) st' PNone).
  reflexivity.
Defined.

Lemma clock_le_login_once : steps clock_le login_default_user_once.
Proof.
  apply steps_login_once; unfold clock_le.
  - intros s. apply N.le_refl.
  - intros a b c. apply N.le_trans.
  - intros tok w s. cbn. apply N.le_refl.
  - intros tok w s. cbn. apply N.le_refl.
  - intros js w s. unfold post, send.
    destruct (network w (nreq s) _); cbn; lia.
Qed.

(** The [k]-th attempt of the login starts at least [5000 * (k - 1)]
    milliseconds after the first, so that the loop stops at the 25th. *)
Lemma login_call_bounded (w : world) :
  forall fuel k t st,
    1 <= k <= 25 -> 26 <= fuel + k ->
    (t + 5000 * (N.of_nat k - 1) <= clock st)%N ->
    fst (retry_call login_retry login_default_user_once fuel k t w st) <> None.
Proof.
  induction fuel as [|fuel IH]; intros k t st Hk Hf Hclock; [lia|].
  cbn [retry_call].
  pose proof (login_once_total w st) as Htot.
  pose proof (clock_le_login_once w st) as Hle. unfold clock_le in Hle.
  destruct (login_default_user_once w st) as [[a|] st1];
    cbn [fst snd] in *; [|congruence].
  destruct (negb (should_reject login_retry a)); [discriminate|].
  destruct (stop login_retry k (clock st1 - t)) eqn:Hstop.
  - destruct a; discriminate.
  - unfold stop in Hstop. cbn in Hstop.
    apply N.leb_gt in Hstop.
    apply IH; [lia|lia|]. cbn [sleep clock login_retry wait_fixed]. lia.
Qed.

(** X6. The login gives up: whatever the cluster does, the 25th attempt
    is the last (attempts are 5 seconds apart and the loop stops after
    120 seconds), and what it raises then is the exception of that
    attempt, from the request or the decoding of its answer, never a
    [RetryError].  On a cluster that answers 503 within 10 ms the 25th
    attempt is needed. *)
Theorem login_default_user_gives_up (w : world) (st : state) :
  (exists a,
      fst (login_default_user 25 w st) = Some a /\
      forall e, a = Raise e -> request_exn e) /\
  fst (login_default_user 24 unavailable_world (initial_state bare_session))
  = None.
Proof.
  split; [|vm_compute; reflexivity].
  unfold login_default_user, retry.
  pose proof (login_call_bounded w 25 1 (clock st) st) as Hb.
  destruct (retry_call login_retry login_default_user_once 25 1 (clock st) w st)
    as [[a|] st'] eqn:Hrun; cbn [fst] in *.
  - exists a. split; [reflexivity|]. intros e ->.
    apply (retry_call_inv _ _ _ (fun _ => True)) in Hrun; [|auto|exact I].
    destruct Hrun as (st0 & a0 & _ & Hfn & [[_ <-]|[Hr Ha]]).
    + apply login_once_run in Hfn. apply Hfn.
    + destruct a0 as [x|e0]; [discriminate Hr|].
      injection Ha as ->. apply login_once_run in Hfn. apply Hfn.
  - exfalso. apply Hb; [lia|lia| |reflexivity]. cbn. lia.
Qed.

(* ================================================================= *)
(** ** What the success of a probe means *)

Lemma same_self_refl (st : state) : same_self st st.
Proof. reflexivity. Qed.

Lemma same_self_trans (a b c : state) :
  same_self a b -> same_self b c -> same_self a c.
Proof. unfold same_self. congruence. Qed.

Lemma same_self_sleep (ms : N) (st : state) : same_self st (sleep ms st).
Proof. reflexivity. Qed.

Lemma same_self_send (rq : request) : steps same_self (send rq).
Proof.
  intros w st. unfold send. destruct (network w (nreq st) rq); reflexivity.
Qed.

Lemma same_self_log_event (e : event) : steps same_self (log_event e).
Proof. intros w st. reflexivity. Qed.

Lemma same_self_probes (fuel : nat) :
  steps same_self (_wait_for_adminrouter_up fuel) /\
  steps same_self (_wait_for_marathon_up fuel) /\
  steps same_self (_wait_for_zk_quorum fuel) /\
  steps same_self (_wait_for_slaves_to_join fuel) /\
  steps same_self (_wait_for_srouter_slaves_endpoints fuel) /\
  steps same_self (_wait_for_metronome fuel) /\
  steps same_self (_wait_for_all_healthy_services fuel).
Proof.
  apply steps_probes.
  - exact same_self_refl.
  - exact same_self_trans.
  - exact same_self_sleep.
  - exact same_self_send.
Qed.

Lemma sorted_length (l : list string) : List.length (sorted l) = List.length l.
Proof. apply Permutation_length, sorted_perm. Qed.

(** The accepted attempt of a probe that keeps the session as it is. *)
Lemma probe_accepted (p : retry_args) (fn : M pyval) (fuel : nat)
    (w : world) (st st' : state) (v : pyval) :
  steps same_self fn ->
  retry p fn fuel w st = (Some (Ok v), st') ->
  exists st0, self st0 = self st /\ fn w st0 = (Some (Ok v), st').
Proof.
  intros Hfn Hrun. unfold retry in Hrun.
  apply (retry_call_inv _ _ _ (fun s => self s = self st)) in Hrun;
    [| |reflexivity].
  - destruct Hrun as (st0 & a0 & Hself & Hrun & [[_ <-]|[_ Ha]]).
    + exists st0. auto.
    + destruct a0; discriminate Ha.
  - intros s a s1 Hs Hrun' _. cbn [sleep self].
    pose proof (Hfn w s) as Hsame. rewrite Hrun' in Hsame.
    unfold same_self in Hsame. cbn [snd] in Hsame. congruence.
Qed.

Lemma zk_quorum_once_ok (w : world) (st st1 : state) (v : pyval) :
  _wait_for_zk_quorum_once w st = (Some (Ok v), st1) ->
  exists lat r hosts ml,
    network w (nreq st)
      {| method := GET; path := "/exhibitor/exhibitor/v1/cluster/status";
         payload := None |} = Answer lat r /\
    ok r = true /\ json r = ClusterStatus hosts /\
    master_list (self st) = Some ml /\
    List.length hosts = List.length ml /\
    nreq st1 = S (nreq st).
Proof.
  destruct st as [[ml sl pl u a] c n tr].
  unfold _wait_for_zk_quorum_once, raise_for_status, json_hostnames, masters,
    sorted_opt, assert, get, send, lift, bind, get_self, ret, raise.
  cbn [self master_list nreq].
  destruct (network w n _) as [lat r|lat e] eqn:Hnet; cbn; [|discriminate].
  destruct (ok r) eqn:Hok; cbn; [|discriminate].
  destruct (json r) eqn:Hj; cbn; try discriminate.
  destruct ml as [ml|]; cbn; [|discriminate].
  destruct (_ =? _)%nat eqn:Hlen; cbn; [|discriminate].
  intros H. injection H as <- <-.
  apply Nat.eqb_eq in Hlen. rewrite !sorted_length in Hlen.
  exists lat, r, hostnames, ml. repeat split; auto.
Qed.

(** X7. When [_wait_for_zk_quorum] returns, its last request was
    answered, without an HTTP error, by a cluster status that lists as
    many ZooKeeper nodes as the session has masters; the session is as it
    was. *)
Theorem zk_quorum_returns (fuel : nat) (w : world) (st st' : state)
    (v : pyval) :
  _wait_for_zk_quorum fuel w st = (Some (Ok v), st') ->
  self st' = self st /\
  exists n lat r hosts ml,
    nreq st' = S n /\
    network w n
      {| method := GET; path := "/exhibitor/exhibitor/v1/cluster/status";
         payload := None |} = Answer lat r /\
    ok r = true /\ json r = ClusterStatus hosts /\
    master_list (self st) = Some ml /\
    List.length hosts = List.length ml.
Proof.
  intros Hrun. split.
  - pose proof (same_self_probes fuel) as (_ & _ & Hzk & _).
    specialize (Hzk w st). rewrite Hrun in Hzk. exact Hzk.
  - apply probe_accepted in Hrun as (st0 & Hself & Hfn).
    + apply zk_quorum_once_ok in Hfn
        as (lat & r & hosts & ml & Hnet & Hok & Hj & Hml & Hlen & Hn).
      exists (nreq st0), lat, r, hosts, ml. rewrite <- Hself. auto 10.
    + apply steps_zk_quorum_once.
      * exact same_self_refl.
      * exact same_self_trans.
      * exact same_self_send.
Qed.

Lemma zk_quorum_returns_witness :
  let st := initial_state full_session in
  let st' := snd (_wait_for_zk_quorum 1 waiting_world st) in
  self st' = self st /\
  exists n lat r hosts ml,
    nreq st' = S n /\
    network waiting_world n
      {| method := GET; path := "/exhibitor/exhibitor/v1/cluster/status";
         payload := None |} = Answer lat r /\
    ok r = true /\ json r = ClusterStatus hosts /\
    master_list (self st) = Some ml /\
    List.length hosts = List.length ml.
Proof.
  intros st st'.
  apply (zk_quorum_returns 1 waiting_world st st' PNone). reflexivity.
Defined.

Lemma slaves_to_join_once_ok (w : world) (st st1 : state) (v : pyval) :
  _wait_for_slaves_to_join_once w st = (Some (Ok v), st1) ->
  v = PBool false \/
  (v = PBool true /\
   exists lat r agents sl pl,
     network w (nreq st)
       {| method := GET; path := "/mesos/master/slaves"; payload := None |}
     = Answer lat r /\
     status_code r = 200%Z /\ json r = Slaves agents /\
     slave_list (self st) = Some sl /\
     public_slave_list (self st) = Some pl /\
     List.length sl + List.length pl <= List.length agents /\
     nreq st1 = S (nreq st)).
Proof.
  destruct st as [[ml sl pl u a] c n tr].
  unfold _wait_for_slaves_to_join_once, json_slaves, missing_key, all_slaves,
    slaves, public_slaves, sorted_opt, get, send, lift, bind, get_self, ret.
  cbn [self slave_list public_slave_list nreq].
  destruct (network w n _) as [lat r|lat e] eqn:Hnet; cbn; [|discriminate].
  destruct (Z.eqb_spec (status_code r) 200) as [Hc|Hc]; cbn.
  - destruct (json r) eqn:Hj; cbn; try discriminate.
    destruct sl as [sl|]; cbn; [|discriminate].
    destruct pl as [pl|]; cbn; [|discriminate].
    destruct (_ <=? _)%nat eqn:Hlen; cbn;
      intros H; injection H as <- <-; [right|left; reflexivity].
    split; [reflexivity|].
    apply Nat.leb_le in Hlen.
    rewrite sorted_length, length_app, !sorted_length in Hlen.
    exists lat, r, slaves0, sl, pl. repeat split; auto.
  - intros H. injection H as <- <-. left. reflexivity.
Qed.

(** X8. When [_wait_for_slaves_to_join] returns, it returns [True], and
    its last request was answered with status 200 by a listing of at
    least as many agents as the session expects, private and public
    together. *)
Theorem slaves_to_join_returns (fuel : nat) (w : world) (st st' : state)
    (v : pyval) :
  _wait_for_slaves_to_join fuel w st = (Some (Ok v), st') ->
  v = PBool true /\ self st' = self st /\
  exists n lat r agents sl pl,
    nreq st' = S n /\
    network w n
      {| method := GET; path := "/mesos/master/slaves"; payload := None |}
    = Answer lat r /\
    status_code r = 200%Z /\ json r = Slaves agents /\
    slave_list (self st) = Some sl /\
    public_slave_list (self st) = Some pl /\
    List.length sl + List.length pl <= List.length agents.
Proof.
  intros Hrun.
  assert (Hv : v <> PBool false).
  { intros ->.
    apply (retry_never_false 1000 None _wait_for_slaves_to_join_once fuel w st).
    unfold _wait_for_slaves_to_join in Hrun. rewrite Hrun. reflexivity. }
  pose proof (same_self_probes fuel) as (_ & _ & _ & Hsl & _).
  specialize (Hsl w st). rewrite Hrun in Hsl.
  apply probe_accepted in Hrun as (st0 & Hself & Hfn).
  - apply slaves_to_join_once_ok in Hfn as [->|[-> Hfn]]; [congruence|].
    destruct Hfn as (lat & r & agents & sl & pl & H1 & H2 & H3 & H4 & H5 & H6 & H7).
    split; [reflexivity|]. split; [exact Hsl|].
    exists (nreq st0), lat, r, agents, sl, pl. rewrite <- Hself. auto 12.
  - apply steps_slaves_to_join_once.
    + exact same_self_refl.
    + exact same_self_trans.
    + exact same_self_send.
Qed.

Lemma slaves_to_join_returns_witness :
  let st := initial_state full_session in
  let st' := snd (_wait_for_slaves_to_join 1 waiting_world st) in
  PBool true = PBool true /\ self st' = self st /\
  exists n lat r agents sl pl,
    nreq st' = S n /\
    network waiting_world n
      {| method := GET; path := "/mesos/master/slaves"; payload := None |}
    = Answer lat r /\
    status_code r = 200%Z /\ json r = Slaves agents /\
    slave_list (self st) = Some sl /\
    public_slave_list (self st) = Some pl /\
    List.length sl + List.length pl <= List.length agents.
Proof.
  intros st st'.
  apply (slaves_to_join_returns 1 waiting_world st st' (PBool true)).
  reflexivity.
Defined.

(* ================================================================= *)
(** ** The agents that the endpoint check looks at *)

Lemma existsb_eqb_In (h : string) (l : list string) :
  existsb (String.eqb h) l = true <-> In h l.
Proof.
  rewrite existsb_exists. split.
  - intros (x & Hin & Heq). apply String.eqb_eq in Heq. congruence.
  - intros Hin. exists h. split; [exact Hin|apply String.eqb_refl].
Qed.

Lemma In_sorted (x : string) (l : list string) : In x (sorted l) <-> In x l.
Proof.
  split; apply Permutation_in; [|apply Permutation_sym]; apply sorted_perm.
Qed.

(** The ids that [expected_ids] keeps are those of the listed agents
    whose host name is in one of the two slave lists. *)
Lemma expected_ids_spec (s : DcosApiSession) (agents : list agent)
    (sl pl : list string) :
  slave_list s = Some sl -> public_slave_list s = Some pl ->
  exists ids,
    expected_ids s agents = Ok ids /\
    forall i, In i ids <->
      exists x, In x agents /\ agent_id x = i /\
                (In (agent_hostname x) sl \/ In (agent_hostname x) pl).
Proof.
  intros Hs Hp.
  induction agents as [|x agents (ids & IH & Hids)]; cbn [expected_ids].
  - exists []. split; [reflexivity|]. intros i. split; [intros []|].
    intros (x & [] & _).
  - unfold all_slaves, slaves, public_slaves, sorted_opt. rewrite Hs, Hp.
    fold (all_slaves s). rewrite IH.
    destruct (existsb (String.eqb (agent_hostname x))
                (sorted (sorted sl ++ sorted pl))) eqn:Hx.
    + exists (agent_id x :: ids). split; [reflexivity|].
      apply existsb_eqb_In in Hx.
      rewrite In_sorted, in_app_iff, !In_sorted in Hx.
      intros i. cbn [In]. rewrite Hids. split.
      * intros [<-|(y & Hy & Hi & Hh)]; [exists x|exists y]; auto.
      * intros (y & [<-|Hy] & Hi & Hh); [left; exact Hi|right; exists y; auto].
    + exists ids. split; [reflexivity|].
      assert (Hn : ~ (In (agent_hostname x) sl \/ In (agent_hostname x) pl)).
      { intros H. rewrite <- !(In_sorted _ sl), <- !(In_sorted _ pl) in H.
        rewrite <- in_app_iff, <- In_sorted, <- existsb_eqb_In in H.
        congruence. }
      intros i. rewrite Hids. cbn [In]. split.
      * intros (y & Hy & Hi & Hh). exists y. auto.
      * intros (y & [<-|Hy] & Hi & Hh); [contradiction|exists y; auto].
Qed.

(** The loop over the ids asks for the state of the ids in turn and
    stops at the first that is not ready; it returns [None] only past
    the last. *)
Lemma check_slave_endpoints_trace (ids : list string) (w : world) (st : state) :
  exists k,
    trace (snd (check_slave_endpoints ids w st))
    = trace st
      ++ map (fun i => EvRequest {| method := GET; path := slave_state_uri i;
                                    payload := None |}) (firstn k ids) /\
    (fst (check_slave_endpoints ids w st) = Some (Ok PNone) ->
     firstn k ids = ids).
Proof.
  revert st. induction ids as [|i ids IH]; intros st.
  - exists 0. cbn. rewrite app_nil_r. auto.
  - cbn [check_slave_endpoints]. unfold get, send, bind, assert, lift.
    destruct (network w (nreq st) _) as [lat r|lat e].
    + destruct (status_in r in_progress_status_codes).
      * exists 1. cbn. split; [reflexivity|discriminate].
      * destruct (status_code r =? 200)%Z; cbn;
          [|exists 1; cbn; split; [reflexivity|discriminate]].
        destruct (json_id r) as [[j|]|e]; cbn;
          try (exists 1; cbn; split; [reflexivity|discriminate]).
        destruct (String.eqb j i); cbn;
          [|exists 1; cbn; split; [reflexivity|discriminate]].
        match goal with
        | |- context [check_slave_endpoints ids w ?s] =>
            destruct (IH s) as (k & Ht & Hk)
        end.
        exists (S k). cbn [firstn map]. rewrite Ht. cbn [trace].
        rewrite <- app_assoc. split; [reflexivity|].
        intros Hok. rewrite (Hk Hok). reflexivity.
    + exists 1. cbn. split; [reflexivity|discriminate].
Qed.

Lemma In_firstn {A} (k : nat) (l : list A) (x : A) :
  In x (firstn k l) -> In x l.
Proof.
  revert l. induction k as [|k IH]; intros [|y l]; cbn; try tauto.
  intros [->|H]; auto.
Qed.

(** X9. One attempt of the endpoint check, on a listing answered with
    status 200, asks for the state of listed agents whose host name is in
    one of the session's slave lists, and of no other agent; when the
    attempt returns [None] it has asked for the state of every such
    agent. *)
Theorem srouter_checks_expected_agents (w : world) (st : state) (lat : N)
    (r : response) (agents : list agent) (sl pl : list string) :
  network w (nreq st)
    {| method := GET; path := "/mesos/master/slaves"; payload := None |}
  = Answer lat r ->
  status_code r = 200%Z -> json r = Slaves agents ->
  slave_list (self st) = Some sl -> public_slave_list (self st) = Some pl ->
  exists checked,
    trace (snd (_wait_for_srouter_slaves_endpoints_once w st))
    = trace st
      ++ EvRequest {| method := GET; path := "/mesos/master/slaves";
                      payload := None |}
      :: map (fun i => EvRequest {| method := GET; path := slave_state_uri i;
                                    payload := None |}) checked /\
    (forall i, In i checked ->
       exists x, In x agents /\ agent_id x = i /\
                 (In (agent_hostname x) sl \/ In (agent_hostname x) pl)) /\
    (fst (_wait_for_srouter_slaves_endpoints_once w st) = Some (Ok PNone) ->
     forall x, In x agents ->
       In (agent_hostname x) sl \/ In (agent_hostname x) pl ->
       In (agent_id x) checked).
Proof.
  intros Hnet Hc Hj Hs Hp.
  destruct (expected_ids_spec (self st) agents sl pl Hs Hp) as (ids & Hids & Hin).
  unfold _wait_for_srouter_slaves_endpoints_once, json_slaves, get, send,
    bind, assert, lift, get_self.
  rewrite Hnet, Hc, Hj.
  change (200 =? 502)%Z with false. change (200 =? 200)%Z with true.
  unfold ret. cbv beta iota. cbn [self]. rewrite Hids.
  match goal with
  | |- context [check_slave_endpoints (sorted ids) w ?s] =>
      destruct (check_slave_endpoints_trace (sorted ids) w s) as (k & Ht & Hk)
  end.
  exists (firstn k (sorted ids)).
  split; [|split].
  - rewrite Ht. cbn [trace]. rewrite <- app_assoc. reflexivity.
  - intros i Hi. apply Hin, In_sorted. eapply In_firstn. exact Hi.
  - intros Hok x Hx Hh. rewrite (Hk Hok). apply In_sorted, Hin.
    exists x. auto.
Qed.

Lemma srouter_checks_expected_agents_witness :
  let st := initial_state full_session in
  exists checked,
    trace (snd (_wait_for_srouter_slaves_endpoints_once waiting_world st))
    = trace st
      ++ EvRequest {| method := GET; path := "/mesos/master/slaves";
                      payload := None |}
      :: map (fun i => EvRequest {| method := GET; path := slave_state_uri i;
                                    payload := None |}) checked /\
    (forall i, In i checked ->
       exists x, In x [agent1; agent2] /\ agent_id x = i /\
                 (In (agent_hostname x) ["10.0.0.2"] \/
                  In (agent_hostname x) ["10.0.0.3"])) /\
    (fst (_wait_for_srouter_slaves_endpoints_once waiting_world st)
     = Some (Ok PNone) ->
     forall x, In x [agent1; agent2] ->
       In (agent_hostname x) ["10.0.0.2"] \/ In (agent_hostname x) ["10.0.0.3"] ->
       In (agent_id x) checked).
Proof.
  intros st.
  apply (srouter_checks_expected_agents waiting_world st 10
           {| status_code := 200; json := Slaves [agent1; agent2] |});
    reflexivity.
Defined.

Lemma expected_ids_none (s : DcosApiSession) (agents : list agent) :
  all_slaves s = Ok [] -> expected_ids s agents = Ok [].
Proof.
  intros H. induction agents as [|x agents IH]; cbn [expected_ids].
  - reflexivity.
  - rewrite H, IH. reflexivity.
Qed.

(** X10. A session that expects no slaves (both slave lists empty, as
    [get_args_from_env] makes them when the variables are unset) passes
    the two slave checks on the first listing answered with status 200,
    whatever agents it lists: one request each, and no agent is asked for
    its state. *)
Theorem no_expected_slaves (fuel : nat) (w : world) (st : state) (lat : N)
    (r : response) (agents : list agent) :
  slave_list (self st) = Some [] -> public_slave_list (self st) = Some [] ->
  network w (nreq st)
    {| method := GET; path := "/mesos/master/slaves"; payload := None |}
  = Answer lat r ->
  status_code r = 200%Z -> json r = Slaves agents ->
  (fst (_wait_for_slaves_to_join (S fuel) w st) = Some (Ok (PBool true)) /\
   nreq (snd (_wait_for_slaves_to_join (S fuel) w st)) = S (nreq st)) /\
  (fst (_wait_for_srouter_slaves_endpoints (S fuel) w st) = Some (Ok PNone) /\
   nreq (snd (_wait_for_srouter_slaves_endpoints (S fuel) w st))
   = S (nreq st)).
Proof.
  intros Hs Hp Hnet Hc Hj.
  assert (Hall : all_slaves (self st) = Ok []).
  { unfold all_slaves, slaves, public_slaves, sorted_opt.
    rewrite Hs, Hp. reflexivity. }
  split.
  - unfold _wait_for_slaves_to_join, retry. cbn [retry_call].
    unfold _wait_for_slaves_to_join_once, json_slaves, get, send, bind, lift,
      get_self.
    rewrite Hnet, Hc, Hj. change (200 =? 200)%Z with true.
    cbn [negb self]. rewrite Hall. split; reflexivity.
  - unfold _wait_for_srouter_slaves_endpoints, retry. cbn [retry_call].
    unfold _wait_for_srouter_slaves_endpoints_once, json_slaves, get, send,
      bind, assert, lift, get_self.
    rewrite Hnet, Hc, Hj.
    change (200 =? 502)%Z with false. change (200 =? 200)%Z with true.
    unfold ret. cbv beta iota. cbn [self].
    rewrite (expected_ids_none _ _ Hall). split; reflexivity.
Qed.

Lemma no_expected_slaves_witness :
  let st := initial_state (init (Some ["10.0.0.1"]) (Some []) (Some []) None) in
  (fst (_wait_for_slaves_to_join 1 waiting_world st) = Some (Ok (PBool true)) /\
   nreq (snd (_wait_for_slaves_to_join 1 waiting_world st)) = 1) /\
  (fst (_wait_for_srouter_slaves_endpoints 1 waiting_world st)
   = Some (Ok PNone) /\
   nreq (snd (_wait_for_srouter_slaves_endpoints 1 waiting_world st)) = 1).
Proof.
  intros st.
  apply (no_expected_slaves 0 waiting_world st 10
           {| status_code := 200; json := Slaves [agent1; agent2] |}
           [agent1; agent2]); reflexivity.
Defined.

(* ================================================================= *)
(** ** Topology discovery, continued *)

Lemma set_node_lists_if_unset_skips (w : world) (st : state) :
  node_lists_set (self st) = true ->
  set_node_lists_if_unset w st = (Some (Ok tt), st).
Proof.
  unfold node_lists_set. intros H.
  apply andb_prop in H as [H Hp]. apply andb_prop in H as [Hm Hs].
  unfold set_node_lists_if_unset, bind, get_self, ret.
  rewrite Hm. cbn. rewrite Hs, Hp. reflexivity.
Qed.

Lemma sorted_sorted (l : list string) : sorted (sorted l) = sorted l.
Proof. apply sorted_order_irrelevant, sorted_perm. Qed.

(** Whatever its outcome, discovery touches the node lists only, and only
    those that were [None]. *)
Lemma set_node_lists_if_unset_self (w : world) (st : state) :
  exists ml sl pl,
    self (snd (set_node_lists_if_unset w st))
    = {| master_list := ml; slave_list := sl; public_slave_list := pl;
         auth_user := auth_user (self st);
         session_auth := session_auth (self st) |} /\
    (forall l, master_list (self st) = Some l -> ml = Some l) /\
    (forall l, slave_list (self st) = Some l -> sl = Some l) /\
    (forall l, public_slave_list (self st) = Some l -> pl = Some l).
Proof.
  destruct st as [[ml sl pl u a] c n tr].
  unfold set_node_lists_if_unset, set_master_list, set_slave_list,
    set_public_slave_list, raise_for_status, json_servers, json_slaves,
    missing_key, get, send, lift, bind, get_self, put_self, ret, raise.
  cbn [self master_list slave_list public_slave_list auth_user session_auth
         nreq trace clock is_set].
  destruct ml as [ml|], sl as [sl|], pl as [pl|];
    cbn [is_set andb self master_list slave_list public_slave_list auth_user
           session_auth nreq];
    repeat (first [ destruct (network w _ _) as [?lat ?r|?lat ?e]
                  | match goal with
                    | |- context [if ok ?r then _ else _] => destruct (ok r)
                    | |- context [match json ?r with _ => _ end] =>
                        destruct (json r)
                    end ];
            cbn [is_set andb self master_list slave_list public_slave_list
                   auth_user session_auth nreq snd]);
    eexists _, _, _; (split; [reflexivity|]);
    repeat split; intros; congruence.
Qed.

(** X11. Once discovery has returned normally it has settled: running
    it again, whatever the cluster would answer then, returns at once in
    the same state, and the accessors return the node lists exactly as
    they are stored, the discovered ones having been stored sorted. *)
Theorem discovery_settles (w : world) (st st' : state) :
  set_node_lists_if_unset w st = (Some (Ok tt), st') ->
  (forall w', set_node_lists_if_unset w' st' = (Some (Ok tt), st')) /\
  (master_list (self st) = None ->
   exists l, master_list (self st') = Some l /\ masters (self st') = Ok l) /\
  (slave_list (self st) = None ->
   exists l, slave_list (self st') = Some l /\ slaves (self st') = Ok l) /\
  (public_slave_list (self st) = None ->
   exists l, public_slave_list (self st') = Some l /\
             public_slaves (self st') = Ok l).
Proof.
  intros Hrun.
  destruct (set_node_lists_if_unset_run w st st' Hrun)
    as (Hset & _ & _ & _ & Hm & Hs).
  split; [|split; [|split]].
  - intros w'. apply set_node_lists_if_unset_skips, Hset.
  - intros Hn. destruct (Hm Hn) as (lat & r & servers & _ & _ & _ & E).
    eexists. split; [exact E|].
    unfold masters, sorted_opt. rewrite E, sorted_sorted. reflexivity.
  - intros Hn.
    destruct (Hs (or_introl Hn)) as (lat & r & js & _ & _ & _ & E & _).
    eexists. split; [exact (E Hn)|].
    unfold slaves, sorted_opt. rewrite (E Hn), sorted_sorted. reflexivity.
  - intros Hn.
    destruct (Hs (or_intror Hn)) as (lat & r & js & _ & _ & _ & _ & E).
    eexists. split; [exact (E Hn)|].
    unfold public_slaves, sorted_opt. rewrite (E Hn), sorted_sorted.
    reflexivity.
Qed.

Lemma discovery_settles_witness :
  let st := initial_state bare_session in
  let st' := snd (set_node_lists_if_unset no_wait_world st) in
  (forall w', set_node_lists_if_unset w' st' = (Some (Ok tt), st')) /\
  (master_list (self st) = None ->
   exists l, master_list (self st') = Some l /\ masters (self st') = Ok l) /\
  (slave_list (self st) = None ->
   exists l, slave_list (self st') = Some l /\ slaves (self st') = Ok l) /\
  (public_slave_list (self st) = None ->
   exists l, public_slave_list (self st') = Some l /\
             public_slaves (self st') = Ok l).
Proof.
  intros st st'.
  apply (discovery_settles no_wait_world st st'). reflexivity.
Defined.

(** X12. Discovery is not all or nothing: when the master list has been
    fetched and the request for [/mesos/slaves] is then answered with a
    4xx or 5xx, the call raises the [HTTPError] of that answer and the
    session keeps the master list it has just set, its slave lists being
    as before. *)
Theorem discovery_keeps_masters_on_failure (w : world) (st : state)
    (lat lat' : N) (r r' : response) (servers : list string) :
  master_list (self st) = None ->
  slave_list (self st) = None \/ public_slave_list (self st) = None ->
  network w (nreq st)
    {| method := GET; path := "/exhibitor/exhibitor/v1/cluster/list";
       payload := None |} = Answer lat r ->
  ok r = true -> json r = Servers servers ->
  network w (S (nreq st))
    {| method := GET; path := "/mesos/slaves"; payload := None |}
  = Answer lat' r' ->
  ok r' = false ->
  fst (set_node_lists_if_unset w st) = Some (Raise (HTTPError (status_code r'))) /\
  master_list (self (snd (set_node_lists_if_unset w st)))
  = Some (sorted servers) /\
  slave_list (self (snd (set_node_lists_if_unset w st)))
  = slave_list (self st) /\
  public_slave_list (self (snd (set_node_lists_if_unset w st)))
  = public_slave_list (self st) /\
  nreq (snd (set_node_lists_if_unset w st)) = S (S (nreq st)).
Proof.
  destruct st as [[ml sl pl u a] c n tr].
  cbn [self master_list slave_list public_slave_list nreq].
  intros -> Hnone Hnet Hok Hj Hnet' Hok'.
  unfold set_node_lists_if_unset, set_master_list, raise_for_status,
    json_servers, get, send, lift, bind, get_self, put_self, ret, raise.
  cbn [self master_list slave_list public_slave_list nreq is_set].
  rewrite Hnet, Hok, Hj.
  cbn [self master_list slave_list public_slave_list nreq is_set].
  assert (Hb : is_set sl && is_set pl = false).
  { destruct Hnone as [->| ->]; [reflexivity|]. destruct sl; reflexivity. }
  rewrite Hb. cbv beta iota.
  cbn [self master_list slave_list public_slave_list nreq is_set].
  rewrite Hnet', Hok'. repeat split.
Qed.

Lemma discovery_keeps_masters_on_failure_witness :
  let st := initial_state bare_session in
  fst (set_node_lists_if_unset slaves_down_world st)
  = Some (Raise (HTTPError 503)) /\
  master_list (self (snd (set_node_lists_if_unset slaves_down_world st)))
  = Some (sorted ["10.0.0.1"]) /\
  slave_list (self (snd (set_node_lists_if_unset slaves_down_world st)))
  = slave_list (self st) /\
  public_slave_list (self (snd (set_node_lists_if_unset slaves_down_world st)))
  = public_slave_list (self st) /\
  nreq (snd (set_node_lists_if_unset slaves_down_world st)) = S (S (nreq st)).
Proof.
  intros st.
  apply (discovery_keeps_masters_on_failure slaves_down_world st 10 10
           {| status_code := 200; json := Servers ["10.0.0.1"] |}
           {| status_code := 503; json := NotJson |} ["10.0.0.1"]);
    try reflexivity.
  left. reflexivity.
Defined.

(* ================================================================= *)
(** ** [wait_for_dcos] as a whole *)

Lemma keeps_lists_refl (st : state) : keeps_lists st st.
Proof. repeat split; auto. Qed.

Lemma keeps_lists_trans (a b c : state) :
  keeps_lists a b -> keeps_lists b c -> keeps_lists a c.
Proof. unfold keeps_lists. intros (H1 & H2 & H3) (H4 & H5 & H6). auto 10. Qed.

Lemma same_lists_keeps (st st' : state) : same_lists st st' -> keeps_lists st st'.
Proof.
  intros (Hm & Hs & Hp). unfold keeps_lists. rewrite Hm, Hs, Hp. auto.
Qed.

Lemma same_self_lists (st st' : state) : same_self st st' -> same_lists st st'.
Proof. unfold same_self, same_lists. intros ->. auto. Qed.

Lemma keeps_lists_discovery : steps keeps_lists set_node_lists_if_unset.
Proof.
  intros w st.
  destruct (set_node_lists_if_unset_self w st) as (ml & sl & pl & E & Hm & Hs & Hp).
  unfold keeps_lists. rewrite E. cbn. auto.
Qed.

(** The six calls of [wait_for_dcos_checks], one after the other. *)
Ltac checks_steps Rt Hlog :=
  unfold wait_for_dcos_checks;
  do 5 (apply (steps_bind _ Rt);
        [apply (steps_call _ _ _ Rt); [apply Hlog|apply Hlog|assumption]
        |intro]);
  apply (steps_call _ _ _ Rt); [apply Hlog|apply Hlog|assumption].

Lemma same_lists_checks (fuel : nat) : steps same_lists (wait_for_dcos_checks fuel).
Proof.
  destruct (steps_probes same_lists same_lists_refl same_lists_trans
              same_lists_sleep same_lists_send fuel)
    as (_ & Hma & Hzk & Hsl & Hsr & Hme & Hhe).
  checks_steps same_lists_trans same_lists_log_event.
Qed.

Lemma same_self_checks (fuel : nat) : steps same_self (wait_for_dcos_checks fuel).
Proof.
  destruct (same_self_probes fuel) as (_ & Hma & Hzk & Hsl & Hsr & Hme & Hhe).
  checks_steps same_self_trans same_self_log_event.
Qed.

(** A relation that holds along the four parts of [wait_for_dcos] holds
    along the whole. *)
Lemma steps_wait_for_dcos (R : state -> state -> Prop) (fuel : nat) :
  (forall st, R st st) -> (forall a b c, R a b -> R b c -> R a c) ->
  steps R (wait_for_dcos_entry fuel) ->
  steps R (call TopologyResolution set_node_lists_if_unset) ->
  steps R (wait_for_dcos_checks fuel) ->
  steps R (wait_for_dcos fuel).
Proof.
  intros Rr Rt He Hd Hc w st. rewrite wait_for_dcos_split.
  revert w st. change (steps R (wait_for_dcos_entry fuel ;;;
                                wait_for_dcos_guard ;;;
                                call TopologyResolution set_node_lists_if_unset ;;;
                                wait_for_dcos_checks fuel)).
  apply (steps_bind _ Rt); [exact He|intro].
  apply (steps_bind _ Rt); [|intro].
  - intros w st. rewrite guard_run. apply Rr.
  - apply (steps_bind _ Rt); [exact Hd|intro; exact Hc].
Qed.

(** X13. [wait_for_dcos] never overwrites a node list that was
    supplied: whatever the cluster answers and however the call ends, a
    list that was set when it was called is the same afterwards. *)
Theorem wait_for_dcos_keeps_supplied_lists (fuel : nat) (w : world)
    (st : state) :
  keeps_lists st (snd (wait_for_dcos fuel w st)).
Proof.
  revert w st. change (steps keeps_lists (wait_for_dcos fuel)).
  apply steps_wait_for_dcos.
  - exact keeps_lists_refl.
  - exact keeps_lists_trans.
  - intros w st. apply same_lists_keeps, same_lists_entry.
  - apply (steps_call _ _ _ keeps_lists_trans).
    + intros w st. apply same_lists_keeps, same_lists_log_event.
    + intros w st. apply same_lists_keeps, same_lists_log_event.
    + exact keeps_lists_discovery.
  - intros w st. apply same_lists_keeps, same_lists_checks.
Qed.

Lemma self_logged (e : event) (st : state) : self (logged e st) = self st.
Proof. reflexivity. Qed.

(** What a normal return of the entry of [wait_for_dcos] has done. *)
Lemma entry_returns (fuel : nat) (w : world) (st st1 : state) :
  wait_for_dcos_entry fuel w st = (Some (Ok tt), st1) ->
  logged_in (self st1) /\ same_lists st st1 /\
  option_map credentials (auth_user (self st1))
  = option_map credentials (auth_user (self st)).
Proof.
  unfold wait_for_dcos_entry, bind. rewrite call_run.
  pose proof (same_self_probes fuel) as (Had & _).
  specialize (Had w (logged (EvEnter AdminRouterUp) st)).
  destruct (_wait_for_adminrouter_up fuel w (logged (EvEnter AdminRouterUp) st))
    as [[[v|e]|] sa]; try discriminate.
  unfold same_self in Had. cbn [snd] in Had. rewrite self_logged in Had.
  rewrite call_run.
  destruct (login_default_user fuel w
              (logged (EvEnter Login) (logged (EvExit AdminRouterUp) sa)))
    as [[[v'|e]|] sl] eqn:Hl; try discriminate.
  intros H. injection H as <-. rewrite self_logged.
  apply login_accepted in Hl as (st0 & Hself & Hfn).
  rewrite !self_logged, Had in Hself.
  apply login_once_run in Hfn as (_ & Hin & Hsame & Hcred & _).
  unfold same_lists in *. rewrite Hself in Hsame, Hcred. auto.
Qed.

(** X14. When [wait_for_dcos] returns, the three node lists of the
    session are set, its user (if any) holds a token that is the
    session's auth, and the credentials are those of before.  If waiting
    for hosts was enabled, the node lists are those the session was
    called with. *)
Theorem wait_for_dcos_returns (fuel : nat) (w : world) (st st' : state) :
  wait_for_dcos fuel w st = (Some (Ok tt), st') ->
  node_lists_set (self st') = true /\
  logged_in (self st') /\
  option_map credentials (auth_user (self st'))
  = option_map credentials (auth_user (self st)) /\
  (wait_for_hosts_enabled w -> same_lists st st').
Proof.
  rewrite wait_for_dcos_split. unfold bind at 1.
  destruct (wait_for_dcos_entry fuel w st) as [[[[]|e]|] st1] eqn:He;
    try discriminate.
  apply entry_returns in He as (Hin & Hsame & Hcred).
  unfold bind at 1. rewrite guard_run.
  destruct (String.eqb (getenv_default (os_environ w) "WAIT_FOR_HOSTS" "true")
              "true" && negb (node_lists_set (self st1))) eqn:Hguard;
    [discriminate|].
  unfold bind at 1. rewrite call_run.
  destruct (set_node_lists_if_unset_self w (logged (EvEnter TopologyResolution) st1))
    as (ml & sl & pl & Eself & _).
  destruct (set_node_lists_if_unset w (logged (EvEnter TopologyResolution) st1))
    as [[[[]|e]|] st2] eqn:Hd; try discriminate.
  intros Hc.
  pose proof (same_self_checks fuel w (logged (EvExit TopologyResolution) st2))
    as Hself.
  rewrite Hc in Hself. unfold same_self in Hself. cbn [snd] in Hself.
  rewrite self_logged in Hself. cbn [snd] in Eself. rewrite self_logged in Eself.
  destruct (set_node_lists_if_unset_run w _ _ Hd) as (Hset & _).
  rewrite Hself. split; [exact Hset|]. split; [|split].
  - unfold logged_in in *. rewrite Eself. cbn [auth_user session_auth].
    exact Hin.
  - rewrite Eself. cbn [auth_user]. exact Hcred.
  - intros Hw. unfold wait_for_hosts_enabled in Hw. rewrite Hw in Hguard.
    assert (Hall : node_lists_set (self st1) = true).
    { destruct (node_lists_set (self st1)); [reflexivity|].
      discriminate Hguard. }
    rewrite (set_node_lists_if_unset_skips w
               (logged (EvEnter TopologyResolution) st1) Hall) in Hd.
    injection Hd as <-.
    unfold same_lists in *. rewrite ?Hself. exact Hsame.
Qed.

Lemma wait_for_dcos_returns_witness :
  let st := initial_state bare_session in
  let st' := snd (wait_for_dcos 1 no_wait_world st) in
  node_lists_set (self st') = true /\
  logged_in (self st') /\
  option_map credentials (auth_user (self st'))
  = option_map credentials (auth_user (self st)) /\
  (wait_for_hosts_enabled no_wait_world -> same_lists st st').
Proof.
  intros st st'.
  apply (wait_for_dcos_returns 1 no_wait_world st st').
  vm_compute. reflexivity.
Defined.

(** X15. When the three node lists are supplied, [WAIT_FOR_HOSTS] plays
    no part and nothing is discovered: [wait_for_dcos] is its entry
    followed by the remaining checks, topology resolution being entered
    and left without a request. *)
Theorem wait_for_dcos_with_supplied_lists (fuel : nat) (w : world)
    (st : state) :
  node_lists_set (self st) = true ->
  wait_for_dcos fuel w st =
  (wait_for_dcos_entry fuel ;;;
   call TopologyResolution (ret tt) ;;;
   wait_for_dcos_checks fuel) w st.
Proof.
  intros Hset. rewrite wait_for_dcos_split. unfold bind at 1 4.
  pose proof (same_lists_entry fuel w st) as Hsame.
  destruct (wait_for_dcos_entry fuel w st) as [[[[]|e]|] st1];
    try reflexivity.
  cbn [snd] in Hsame.
  assert (Hset1 : node_lists_set (self st1) = true)
    by (rewrite (node_lists_set_same _ _ Hsame); exact Hset).
  unfold bind at 1. rewrite guard_run, Hset1, andb_false_r.
  unfold bind. rewrite !call_run.
  rewrite set_node_lists_if_unset_skips by (rewrite self_logged; exact Hset1).
  reflexivity.
Qed.

Lemma wait_for_dcos_with_supplied_lists_witness :
  wait_for_dcos 1 waiting_world (initial_state full_session) =
  (wait_for_dcos_entry 1 ;;;
   call TopologyResolution (ret tt) ;;;
   wait_for_dcos_checks 1) waiting_world (initial_state full_session).
Proof.
  apply (wait_for_dcos_with_supplied_lists 1 waiting_world
           (initial_state full_session)).
  reflexivity.
Defined.

(* ================================================================= *)
(** ** Sessions made by [create] and [get_user_session] *)

Lemma get_args_from_env_fields (ci : credentials_t) (env : environ)
    (args : session_args) :
  get_args_from_env ci env = Ok args ->
  arg_masters args = option_map (split ",") (env "MASTER_HOSTS") /\
  arg_auth_user args
  = match env "DCOS_ACS_TOKEN" with
    | None => {| credentials := ci; auth_token := None |}
    | Some tok => {| credentials := [("token", "")]; auth_token := Some tok |}
    end.
Proof.
  unfold get_args_from_env.
  destruct (if truthy (env "WINDOWS_HOSTS") then _ else _) as [ss|e];
    [|discriminate].
  destruct (if truthy (env "WINDOWS_PUBLIC_HOSTS") then _ else _) as [ps|e];
    [|discriminate].
  intros H. injection H as <-. auto.
Qed.

(** X16. With [DCOS_ACS_TOKEN] set, [create] sends no request: it
    returns, in a state that differs from the call state by the session
    only, a session whose user carries the token with the placeholder
    credentials, whose auth is the token, and whose slave lists are set
    (to the hosts of the environment, or to the empty list). *)
Theorem create_with_token (ci : credentials_t) (fuel : nat) (w : world)
    (st : state) (tok : string) :
  os_environ w "DCOS_ACS_TOKEN" = Some tok ->
  ~ type_error_env (os_environ w) ->
  exists api,
    create ci (S fuel) w st = (Some (Ok api), with_self api st) /\
    auth_user api
    = Some {| credentials := [("token", "")]; auth_token := Some tok |} /\
    session_auth api = Some tok /\
    master_list api = option_map (split ",") (os_environ w "MASTER_HOSTS") /\
    slave_list api <> None /\ public_slave_list api <> None.
Proof.
  intros Htok Hok.
  rewrite type_error_env_iff in Hok.
  apply (get_args_from_env_defined ci) in Hok as (args & Hargs).
  destruct (get_args_from_env_fields _ _ _ Hargs) as (Hm & Hu).
  rewrite Htok in Hu.
  unfold create. rewrite Hargs.
  unfold login_default_user, retry. cbn [retry_call].
  unfold login_default_user_once, set_session_auth, bind, get_self, put_self,
    ret, with_self, init.
  cbn [self auth_user]. rewrite Hu. cbn.
  eexists. split; [reflexivity|]. cbn. rewrite Hm.
  repeat split; discriminate.
Qed.

Lemma create_with_token_witness :
  exists api,
    create [] 1 token_world (initial_state bare_session)
    = (Some (Ok api), with_self api (initial_state bare_session)) /\
    auth_user api
    = Some {| credentials := [("token", "")]; auth_token := Some "secret" |} /\
    session_auth api = Some "secret" /\
    master_list api
    = option_map (split ",") (os_environ token_world "MASTER_HOSTS") /\
    slave_list api <> None /\ public_slave_list api <> None.
Proof.
  apply (create_with_token [] 0 token_world (initial_state bare_session)
           "secret"); [reflexivity|].
  intros [(x & H & _)|(x & H & _)]; discriminate H.
Defined.

(** With waiting enabled and a list missing, the guard lets no run of
    [wait_for_dcos] return normally. *)
Lemma wait_for_dcos_guarded (fuel : nat) (w : world) (st : state) :
  wait_for_hosts_enabled w -> node_lists_set (self st) = false ->
  fst (wait_for_dcos fuel w st) <> Some (Ok tt).
Proof.
  intros Hw Hl. rewrite wait_for_dcos_split. unfold bind at 1.
  pose proof (same_lists_entry fuel w st) as Hsame.
  destruct (wait_for_dcos_entry fuel w st) as [[[[]|e]|] st1];
    try discriminate.
  cbn [snd] in Hsame. unfold bind at 1. rewrite guard_run.
  rewrite (node_lists_set_same _ _ Hsame), Hl.
  unfold wait_for_hosts_enabled in Hw. rewrite Hw. discriminate.
Qed.

(** X17. A session made by [create] in an environment without
    [MASTER_HOSTS] has no master list, so that, [WAIT_FOR_HOSTS] being
    unset or ['true'], no call of [wait_for_dcos] on it returns normally:
    the defaults of the two variables exclude each other. *)
Theorem create_without_masters (ci : credentials_t) (fuel fuel' : nat)
    (w : world) (st st1 : state) (api : DcosApiSession) :
  create ci fuel w st = (Some (Ok api), st1) ->
  os_environ w "MASTER_HOSTS" = None ->
  wait_for_hosts_enabled w ->
  self st1 = api /\ master_list api = None /\
  fst (wait_for_dcos fuel' w st1) <> Some (Ok tt).
Proof.
  unfold create. intros Hrun Hm Hw.
  destruct (get_args_from_env ci (os_environ w)) as [args|e] eqn:Hargs;
    [|discriminate].
  destruct (get_args_from_env_fields _ _ _ Hargs) as (Hmasters & _).
  rewrite Hm in Hmasters.
  match type of Hrun with
  | context [login_default_user fuel w ?s] =>
      pose proof (steps_login same_lists same_lists_refl same_lists_trans
                    same_lists_sleep same_lists_set_session_auth
                    same_lists_set_auth_token
                    (fun js => same_lists_send _) fuel w s) as (Hsame & _);
      destruct (login_default_user fuel w s) as [[[v|e]|] s1];
      try discriminate
  end.
  injection Hrun as <- <-. cbn [snd with_self self init master_list] in Hsame.
  rewrite Hmasters in Hsame.
  split; [reflexivity|]. split; [exact Hsame|].
  apply wait_for_dcos_guarded; [exact Hw|].
  unfold node_lists_set. rewrite Hsame. reflexivity.
Qed.

Lemma create_without_masters_witness :
  let st1 := snd (create [] 1 waiting_world (initial_state bare_session)) in
  self st1 = self st1 /\ master_list (self st1) = None /\
  fst (wait_for_dcos 1 waiting_world st1) <> Some (Ok tt).
Proof.
  intros st1.
  apply (create_without_masters [] 1 1 waiting_world
           (initial_state bare_session) st1 (self st1)); reflexivity.
Defined.

(** X18. [get_user_session] hands out a session with the node lists of
    the session it is called on, whose own node lists and auth are left
    as they were.  Without a user the new session has neither user nor
    auth and nothing is sent; with a user, when the call returns, the new
    session is logged in as that user, with the credentials of that user.
    The user object is shared with the new session: called with the
    session's own user, the call leaves in that session the user that the
    new session holds, token included; called with any other user, it
    leaves the session as it was. *)
Theorem get_user_session_returns (user : user_argument) (fuel : nat)
    (w : world) (st st' : state) (new : DcosApiSession) :
  get_user_session user fuel w st = (Some (Ok new), st') ->
  same_lists st st' /\
  session_auth (self st') = session_auth (self st) /\
  auth_user (self st')
  = match user with
    | SessionUser => auth_user new
    | _ => auth_user (self st)
    end /\
  (user <> SessionUser -> self st' = self st) /\
  master_list new = master_list (self st) /\
  slave_list new = slave_list (self st) /\
  public_slave_list new = public_slave_list (self st) /\
  logged_in new /\
  option_map credentials (auth_user new)
  = option_map credentials (user_object (self st) user) /\
  (user_object (self st) user = None ->
   st' = st /\ session_auth new = None /\ auth_user new = None).
Proof.
  unfold get_user_session, copy.
  destruct (user_object (self st) user) as [u|] eqn:Hu.
  - match goal with
    | |- context [login_default_user fuel w ?s] =>
        destruct (login_default_user fuel w s) as [[[v|e]|] s1] eqn:Hl;
        try discriminate
    end.
    intros H. injection H as <- <-.
    apply login_accepted in Hl as (st0 & Hself & Hfn).
    apply login_once_run in Hfn as (_ & Hin & (Hm & Hs & Hp) & Hcred & _).
    rewrite Hself in Hm, Hs, Hp, Hcred. cbn in Hm, Hs, Hp, Hcred.
    destruct user as [| |u']; cbn in Hu |- *;
      repeat match goal with |- _ /\ _ => split end;
      auto; try discriminate; try congruence;
      repeat split.
  - intros H. injection H as <- <-.
    destruct user as [| |u']; cbn in Hu |- *;
      repeat match goal with |- _ /\ _ => split end;
      auto; try discriminate; try congruence;
      repeat split.
Qed.

Lemma get_user_session_returns_witness :
  let st := initial_state full_session in
  let run := get_user_session SessionUser 1 waiting_world st in
  exists new,
    fst run = Some (Ok new) /\
    auth_user new
    = Some {| credentials := credentials ci_user; auth_token := Some "secret" |} /\
    same_lists st (snd run) /\
    session_auth (self (snd run)) = session_auth (self st) /\
    auth_user (self (snd run)) = auth_user new /\
    (SessionUser <> SessionUser -> self (snd run) = self st) /\
    master_list new = master_list (self st) /\
    slave_list new = slave_list (self st) /\
    public_slave_list new = public_slave_list (self st) /\
    logged_in new /\
    option_map credentials (auth_user new)
    = option_map credentials (user_object (self st) SessionUser) /\
    (user_object (self st) SessionUser = None ->
     snd run = st /\ session_auth new = None /\ auth_user new = None).
Proof.
  intros st run. eexists. split; [reflexivity|]. split; [reflexivity|].
  apply (get_user_session_returns SessionUser 1 waiting_world st (snd run)).
  reflexivity.
Defined.

(** The same user object in two sessions: after the call the session the
    call was made on holds the token that the login of the new session
    has fetched, while its own auth is still unset. *)
Example get_user_session_shares_the_user :
  let run := get_user_session SessionUser 1 waiting_world
               (initial_state full_session) in
  option_map auth_token (auth_user (self (snd run))) = Some (Some "secret") /\
  session_auth (self (snd run)) = None /\
  option_map session_auth (match fst run with
                           | Some (Ok new) => Some new
                           | _ => None
                           end) = Some (Some "secret").
Proof. repeat split. Qed.

(* ================================================================= *)
(** ** The sandbox helpers *)

Lemma first_with_some {A} (ident : A -> string) (i : string) (l : list A)
    (x : A) :
  first_with ident i l = Some x -> In x l /\ ident x = i.
Proof.
  unfold first_with. intros H. apply find_some in H as [Hin Heq].
  apply String.eqb_eq in Heq. auto.
Qed.

Lemma first_with_none {A} (ident : A -> string) (i : string) (l : list A) :
  first_with ident i l = None <-> forall x, In x l -> ident x <> i.
Proof.
  unfold first_with. split.
  - intros H x Hin Heq. apply (find_none _ _ H) in Hin.
    apply String.eqb_neq in Hin. contradiction.
  - intros H. destruct (find _ l) as [x|] eqn:E; [|reflexivity].
    apply find_some in E as [Hin Heq]. apply String.eqb_eq in Heq.
    exfalso. exact (H x Hin Heq).
Qed.

(** Every run of [mesos_sandbox_directory] sends the state request, and
    nothing else. *)
Lemma sandbox_directory_sent (slave_id framework_id task_id : string)
    (w : agent_world) (sent : list file_request) :
  snd (mesos_sandbox_directory slave_id framework_id task_id w sent)
  = sent ++ [state_request slave_id].
Proof.
  unfold mesos_sandbox_directory, agent_bind, agent_get, file_raise_for_status,
    json_frameworks, agent_ret, agent_raise, state_request.
  destruct (w (List.length sent) _) as [r|e]; [|reflexivity].
  destruct ((400 <=? file_status r)%Z && (file_status r <? 600)%Z);
    [reflexivity|].
  destruct (file_json r) as [|fs|]; try reflexivity.
  destruct (first_with fw_id framework_id fs) as [f|]; [|reflexivity].
  destruct (first_with ex_id task_id (fw_executors f)); reflexivity.
Qed.

(** X19. When [mesos_sandbox_directory] returns a directory, the agent
    has answered the one request for its state, without an HTTP error,
    with a state in which a framework of the given id has an executor of
    the given id, and the directory is that executor's. *)
Theorem sandbox_directory_found (slave_id framework_id task_id d : string)
    (w : agent_world) (sent sent' : list file_request) :
  mesos_sandbox_directory slave_id framework_id task_id w sent
  = (Found d, sent') ->
  sent' = sent ++ [state_request slave_id] /\
  exists r fs f e,
    w (List.length sent) (state_request slave_id) = inl r /\
    ~ (400 <= file_status r < 600)%Z /\
    file_json r = AgentStateDoc fs /\
    In f fs /\ fw_id f = framework_id /\
    In e (fw_executors f) /\ ex_id e = task_id /\ ex_directory e = d.
Proof.
  intros H. split.
  - rewrite <- (sandbox_directory_sent slave_id framework_id task_id w sent).
    rewrite H. reflexivity.
  - revert H.
    unfold mesos_sandbox_directory, agent_bind, agent_get,
      file_raise_for_status, json_frameworks, agent_ret, agent_raise.
    fold (state_request slave_id).
    destruct (w (List.length sent) (state_request slave_id)) as [r|e] eqn:Hw;
      [|discriminate].
    destruct ((400 <=? file_status r)%Z && (file_status r <? 600)%Z) eqn:Hst;
      [discriminate|].
    destruct (file_json r) as [|fs|] eqn:Hj; try discriminate.
    destruct (first_with fw_id framework_id fs) as [f|] eqn:Hf;
      [|discriminate].
    destruct (first_with ex_id task_id (fw_executors f)) as [e|] eqn:He;
      [|discriminate].
    intros H. injection H as <- _.
    apply first_with_some in Hf as [Hf1 Hf2].
    apply first_with_some in He as [He1 He2].
    exists r, fs, f, e. repeat split; auto.
    intros [H1 H2]. apply andb_false_iff in Hst as [Hst|Hst].
    + apply Z.leb_gt in Hst. lia.
    + apply Z.ltb_ge in Hst. lia.
Qed.

(** X20. On a state answered without an HTTP error,
    [mesos_sandbox_directory] raises "framework not found" when no
    framework has the given id, and "executor not found" when the first
    framework with that id has no executor of the given id, whatever the
    frameworks after it hold. *)
Theorem sandbox_directory_not_found (slave_id framework_id task_id : string)
    (w : agent_world) (sent : list file_request) (r : file_response)
    (fs : list framework_json) :
  w (List.length sent) (state_request slave_id) = inl r ->
  ~ (400 <= file_status r < 600)%Z ->
  file_json r = AgentStateDoc fs ->
  ((forall f, In f fs -> fw_id f <> framework_id) ->
   fst (mesos_sandbox_directory slave_id framework_id task_id w sent)
   = Failed (FrameworkNotFound framework_id slave_id)) /\
  (forall fs1 f fs2,
      fs = fs1 ++ f :: fs2 ->
      (forall g, In g fs1 -> fw_id g <> framework_id) ->
      fw_id f = framework_id ->
      (forall e, In e (fw_executors f) -> ex_id e <> task_id) ->
      fst (mesos_sandbox_directory slave_id framework_id task_id w sent)
      = Failed (ExecutorNotFound task_id framework_id slave_id)).
Proof.
  intros Hw Hst Hj.
  assert (Hok : (400 <=? file_status r)%Z && (file_status r <? 600)%Z = false).
  { apply andb_false_iff.
    destruct (Z.leb_spec 400 (file_status r)); [|auto].
    right. apply Z.ltb_ge. lia. }
  unfold mesos_sandbox_directory, agent_bind, agent_get, file_raise_for_status,
    json_frameworks, agent_ret, agent_raise.
  fold (state_request slave_id). rewrite Hw, Hok, Hj.
  split.
  - intros Hnone. apply first_with_none in Hnone. rewrite Hnone. reflexivity.
  - intros fs1 f fs2 -> Hbefore Hf Hnone.
    assert (E : first_with fw_id framework_id (fs1 ++ f :: fs2) = Some f).
    { unfold first_with. clear Hw Hj.
      induction fs1 as [|g fs1 IH]; cbn [app find].
      - rewrite Hf, String.eqb_refl. reflexivity.
      - assert (Hg : String.eqb (fw_id g) framework_id = false)
          by (apply String.eqb_neq, Hbefore; left; reflexivity).
        rewrite Hg. apply IH. intros h Hh. apply Hbefore. right. exact Hh. }
    rewrite E. apply first_with_none in Hnone. rewrite Hnone. reflexivity.
Qed.

Lemma sandbox_directory_found_witness :
  [state_request "S1"] = [] ++ [state_request "S1"] /\
  exists r fs f e,
    example_agent (List.length (@nil file_request)) (state_request "S1")
    = inl r /\
    ~ (400 <= file_status r < 600)%Z /\
    file_json r = AgentStateDoc fs /\
    In f fs /\ fw_id f = "marathon" /\
    In e (fw_executors f) /\ ex_id e = "app.1" /\
    ex_directory e = "/sandbox/1".
Proof.
  apply (sandbox_directory_found "S1" "marathon" "app.1" "/sandbox/1"
           example_agent [] [state_request "S1"]).
  reflexivity.
Defined.

Lemma sandbox_directory_not_found_witness :
  fst (mesos_sandbox_directory "S1" "metronome" "app.1" example_agent [])
  = Failed (FrameworkNotFound "metronome" "S1") /\
  fst (mesos_sandbox_directory "S1" "marathon" "app.2" example_agent [])
  = Failed (ExecutorNotFound "app.2" "marathon" "S1").
Proof.
  split.
  - refine (proj1 (sandbox_directory_not_found "S1" "metronome" "app.1"
                     example_agent [] _ example_frameworks eq_refl _ eq_refl) _).
    + cbn. lia.
    + intros f [<-|[<-|[]]]; discriminate.
  - refine (proj2 (sandbox_directory_not_found "S1" "marathon" "app.2"
                     example_agent [] _ example_frameworks eq_refl _ eq_refl)
              [] _ _ eq_refl _ eq_refl _).
    + cbn. lia.
    + intros g [].
    + intros e [<-|[]]. discriminate.
Defined.

(** X21. [mesos_sandbox_file] asks for the file only after it has found
    the directory: when the lookup fails the call fails as the lookup
    did, having sent the state request alone; otherwise it sends a second
    request, for the download of [<directory>/<filename>] from the same
    agent. *)
Theorem sandbox_file_requests (slave_id framework_id task_id filename : string)
    (w : agent_world) (sent : list file_request) :
  match fst (mesos_sandbox_directory slave_id framework_id task_id w sent) with
  | Failed e =>
      mesos_sandbox_file slave_id framework_id task_id filename w sent
      = (Failed e, sent ++ [state_request slave_id])
  | Found d =>
      snd (mesos_sandbox_file slave_id framework_id task_id filename w sent)
      = sent ++ [state_request slave_id;
                 download_request slave_id
                   (String.append d (String.append "/" filename))]
  end.
Proof.
  pose proof (sandbox_directory_sent slave_id framework_id task_id w sent)
    as Hsent.
  destruct (mesos_sandbox_directory slave_id framework_id task_id w sent)
    as [[d|e] sent1] eqn:Hd; cbn [fst snd] in *; subst sent1;
    unfold mesos_sandbox_file, agent_bind; rewrite Hd; [|reflexivity].
  unfold agent_get, file_raise_for_status, agent_ret, agent_raise.
  fold (download_request slave_id (String.append d (String.append "/" filename))).
  destruct (w _ _) as [r|e]; cbn [snd].
  - destruct ((400 <=? file_status r)%Z && (file_status r <? 600)%Z);
      cbn [snd]; rewrite <- app_assoc; reflexivity.
  - rewrite <- app_assoc. reflexivity.
Qed.

(** X22. When [mesos_pod_sandbox_file] returns the text of a file, it
    has looked up the directory of the executor (not of the task) and
    downloaded [<directory>/tasks/<task_id>/<filename>], which the agent
    served without an HTTP error. *)
Theorem pod_sandbox_file_found
    (slave_id framework_id executor_id task_id filename text : string)
    (w : agent_world) (sent sent' : list file_request) :
  mesos_pod_sandbox_file slave_id framework_id executor_id task_id filename
    w sent = (Found text, sent') ->
  exists d r,
    mesos_sandbox_directory slave_id framework_id executor_id w sent
    = (Found d, sent ++ [state_request slave_id]) /\
    sent' = sent ++ [state_request slave_id;
                     download_request slave_id
                       (String.append
                          (String.append d (String.append "/tasks/" task_id))
                          (String.append "/" filename))] /\
    w (S (List.length sent))
      (download_request slave_id
         (String.append (String.append d (String.append "/tasks/" task_id))
            (String.append "/" filename))) = inl r /\
    ~ (400 <= file_status r < 600)%Z /\
    text = file_text r.
Proof.
  pose proof (sandbox_directory_sent slave_id framework_id executor_id w sent)
    as Hsent.
  destruct (mesos_sandbox_directory slave_id framework_id executor_id w sent)
    as [[d|e] sent1] eqn:Hd; cbn [fst snd] in *; subst sent1;
    unfold mesos_pod_sandbox_file, mesos_pod_sandbox_directory, agent_bind;
    rewrite Hd; [|discriminate].
  unfold agent_get, file_raise_for_status, agent_ret, agent_raise.
  fold (download_request slave_id
          (String.append (String.append d (String.append "/tasks/" task_id))
             (String.append "/" filename))).
  rewrite length_app. cbn [List.length]. rewrite Nat.add_1_r.
  destruct (w _ _) as [r|e] eqn:Hw; [|discriminate].
  destruct ((400 <=? file_status r)%Z && (file_status r <? 600)%Z) eqn:Hst;
    [discriminate|].
  intros H. injection H as <- <-.
  exists d, r. split; [reflexivity|]. split; [rewrite <- app_assoc; reflexivity|].
  split; [exact Hw|]. split; [|reflexivity].
  intros [H1 H2]. apply andb_false_iff in Hst as [Hst|Hst].
  - apply Z.leb_gt in Hst. lia.
  - apply Z.ltb_ge in Hst. lia.
Qed.

Lemma pod_sandbox_file_found_witness :
  exists d r,
    mesos_sandbox_directory "S1" "marathon" "app.1" example_agent []
    = (Found d, [] ++ [state_request "S1"]) /\
    snd (mesos_pod_sandbox_file "S1" "marathon" "app.1" "task-7" "stdout"
           example_agent [])
    = [] ++ [state_request "S1";
             download_request "S1"
               (String.append
                  (String.append d (String.append "/tasks/" "task-7"))
                  (String.append "/" "stdout"))] /\
    example_agent (S (List.length (@nil file_request)))
      (download_request "S1"
         (String.append (String.append d (String.append "/tasks/" "task-7"))
            (String.append "/" "stdout"))) = inl r /\
    ~ (400 <= file_status r < 600)%Z /\
    "hello" = file_text r.
Proof.
  apply (pod_sandbox_file_found "S1" "marathon" "app.1" "task-7" "stdout"
           "hello" example_agent []
           (snd (mesos_pod_sandbox_file "S1" "marathon" "app.1" "task-7"
                   "stdout" example_agent []))).
  reflexivity.
Defined.

(* ================================================================= *)
(** ** [metronome_one_off] *)

(** Splits the cases of a statement about a run of [metronome_one_off]
    whose calls have been evaluated. *)
Ltac one_off_cases :=
  cbn [In];
  repeat match goal with
         | |- _ /\ _ => split
         | |- _ <-> _ => split
         | |- forall _, _ => intro
         | |- ~ _ => intro
         | H : _ /\ _ |- _ => destruct H
         | H : exists _, _ |- _ => destruct H
         | H : _ \/ _ |- _ => destruct H
         | H : False |- _ => destruct H
         | H : Some _ = Some _ |- _ => injection H as H; subst
         | H : JobsDestroy _ = JobsDestroy _ |- _ => injection H as H; subst
         end;
  subst; try discriminate; try congruence; eauto 8.

(** X23. [metronome_one_off] calls the jobs client in the order create,
    run, destroy and stops at the first call that raises.  The job is
    destroyed exactly when it was created and run and either succeeded or
    failures are ignored; a failed job that makes the call raise
    "Metronome job failed" is never destroyed. *)
Theorem metronome_one_off_destroy (_jobs : jobs_client)
    (job_definition : list (string * string)) (timeout : Z)
    (ignore_failures : bool) :
  let outcome := fst (metronome_one_off _jobs job_definition timeout
                        ignore_failures) in
  let calls := snd (metronome_one_off _jobs job_definition timeout
                      ignore_failures) in
  (exists k job_id,
      calls = firstn k [JobsCreate job_definition; JobsRun job_id timeout;
                        JobsDestroy job_id]) /\
  (forall job_id,
      In (JobsDestroy job_id) calls <->
      dict_lookup job_definition "id" = Some job_id /\
      jobs_create _jobs job_definition = true /\
      exists status,
        jobs_run _jobs job_id timeout = Some status /\
        (status = true \/ ignore_failures = true)) /\
  (outcome = OneOffJobFailed <->
   exists job_id,
     dict_lookup job_definition "id" = Some job_id /\
     jobs_create _jobs job_definition = true /\
     jobs_run _jobs job_id timeout = Some false /\
     ignore_failures = false) /\
  (outcome = OneOffJobFailed -> forall job_id, ~ In (JobsDestroy job_id) calls).
Proof.
  cbv zeta. unfold metronome_one_off.
  destruct (dict_lookup job_definition "id") as [i|];
    [destruct (jobs_create _jobs job_definition) eqn:Hc;
     [destruct (jobs_run _jobs i timeout) as [[|]|] eqn:Hr;
      destruct ignore_failures; try destruct (jobs_destroy _jobs i)|]|];
    cbn [fst snd negb andb];
    (split;
     [first [ exists 0, ""; reflexivity | exists 1, i; reflexivity
            | exists 2, i; reflexivity | exists 3, i; reflexivity ]
     |one_off_cases]).
Qed.

Lemma metronome_one_off_destroy_witness :
  ~ In (JobsDestroy "one-off")
      (snd (metronome_one_off failing_jobs [("id", "one-off")] 300 false)).
Proof.
  destruct (metronome_one_off_destroy failing_jobs [("id", "one-off")] 300 false)
    as (_ & _ & _ & H).
  apply H. reflexivity.
Defined.

(** A failed one-off job, failures not being ignored, is left behind. *)
Example metronome_one_off_leaves_failed_job :
  metronome_one_off failing_jobs [("id", "one-off")] 300 false
  = (OneOffJobFailed,
     [JobsCreate [("id", "one-off")]; JobsRun "one-off" 300]).
Proof. reflexivity. Qed.

(* ================================================================= *)
(** ** The address of exhibitor and the auth header *)

(** X24. Without an admin password exhibitor is reached through the
    admin router and the master list is not looked at.  With a password
    it is addressed on port 8181 of the first master in string order
    (so ["10.0.0.10"] comes before ["10.0.0.2"]); the property fails on
    an empty master list. *)
Theorem exhibitor_address_of (s : DcosApiSession) (password : string)
    (ml : list string) :
  master_list s = Some ml ->
  exhibitor s None = ThroughAdminRouter /\
  (ml = [] -> exhibitor s (Some password) = MastersIndexError) /\
  (ml <> [] ->
   exists m,
     exhibitor s (Some password)
     = Direct (String.append "http://" (String.append m ":8181")) /\
     In m ml /\ forall x, In x ml -> str_le m x).
Proof.
  intros Hm. split; [reflexivity|].
  unfold exhibitor, masters, sorted_opt. rewrite Hm. split.
  - intros ->. reflexivity.
  - intros Hne.
    pose proof (sorted_perm ml) as Hperm.
    pose proof (sorted_strongly_sorted ml) as Hsorted.
    destruct (sorted ml) as [|m rest].
    + apply Permutation_nil in Hperm. congruence.
    + exists m. split; [reflexivity|]. split.
      * eapply Permutation_in; [exact Hperm|left; reflexivity].
      * intros x Hx.
        apply (Permutation_in _ (Permutation_sym Hperm)) in Hx.
        destruct Hx as [<-|Hx].
        -- destruct (str_le_total m m); assumption.
        -- apply StronglySorted_inv in Hsorted as [_ Hall].
           rewrite Forall_forall in Hall. apply Hall, Hx.
Qed.

Lemma exhibitor_address_of_witness :
  let s := init (Some ["10.0.0.2"; "10.0.0.10"]) None None None in
  exhibitor s None = ThroughAdminRouter /\
  (["10.0.0.2"; "10.0.0.10"] = [] ->
   exhibitor s (Some "pw") = MastersIndexError) /\
  (["10.0.0.2"; "10.0.0.10"] <> [] ->
   exists m,
     exhibitor s (Some "pw")
     = Direct (String.append "http://" (String.append m ":8181")) /\
     In m ["10.0.0.2"; "10.0.0.10"] /\
     forall x, In x ["10.0.0.2"; "10.0.0.10"] -> str_le m x).
Proof.
  intros s.
  apply (exhibitor_address_of s "pw" ["10.0.0.2"; "10.0.0.10"]).
  reflexivity.
Defined.

(** The first master in string order need not be the first in numeric
    order. *)
Example exhibitor_first_master :
  exhibitor (init (Some ["10.0.0.2"; "10.0.0.10"]) None None None) (Some "pw")
  = Direct "http://10.0.0.10:8181".
Proof. reflexivity. Qed.

Lemma headers_get_set_same (lower : string -> string)
    (h : list (string * string)) (k k' v : string) :
  lower k' = lower k ->
  headers_get lower (headers_set lower h k v) k' = Some v.
Proof.
  intros Hk. induction h as [|[k0 v0] h IH]; simpl.
  - rewrite Hk, String.eqb_refl. reflexivity.
  - destruct (String.eqb (lower k0) (lower k)) eqn:E; simpl.
    + rewrite Hk, String.eqb_refl. reflexivity.
    + rewrite Hk, E. exact IH.
Qed.

Lemma headers_get_set_other (lower : string -> string)
    (h : list (string * string)) (k k' v : string) :
  lower k' <> lower k ->
  headers_get lower (headers_set lower h k v) k' = headers_get lower h k'.
Proof.
  intros Hne. induction h as [|[k0 v0] h IH]; simpl.
  - destruct (String.eqb_spec (lower k) (lower k')); [congruence|reflexivity].
  - destruct (String.eqb_spec (lower k0) (lower k)) as [E|Hk]; simpl.
    + rewrite E.
      destruct (String.eqb_spec (lower k) (lower k')); [congruence|reflexivity].
    + destruct (String.eqb (lower k0) (lower k')); [reflexivity|exact IH].
Qed.

(** X25. The header that [DcosAuth] puts on a request is the header
    of [DcosUser.auth_header] for a user holding the same token.  The
    headers of a request ignore the case of their keys: the header is
    found under every spelling of [Authorization], it replaces the
    [Authorization] header the request had under any spelling, and the
    headers under other names are left alone. *)
Theorem DcosAuth_header (lower : string -> string) (u : DcosUser)
    (tok : string) (headers : list (string * string)) :
  auth_token u = Some tok ->
  (forall k, lower k = lower "Authorization" ->
     headers_get lower (DcosAuth_call lower tok headers) k
     = dict_lookup (auth_header u) "Authorization" /\
     headers_get lower (DcosAuth_call lower tok headers) k
     = Some (String.append "token=" tok)) /\
  (forall k, lower k <> lower "Authorization" ->
     headers_get lower (DcosAuth_call lower tok headers) k
     = headers_get lower headers k).
Proof.
  intros Ht. unfold DcosAuth_call, auth_header. rewrite Ht. split.
  - intros k Hk. rewrite (headers_get_set_same lower headers _ k _ Hk).
    split; reflexivity.
  - intros k Hk. apply headers_get_set_other. exact Hk.
Qed.

Lemma DcosAuth_header_witness :
  headers_get str_lower
    (DcosAuth_call str_lower "secret"
       [("authorization", "Basic x"); ("Accept", "*/*")])
    "AUTHORIZATION"
  = Some "token=secret" /\
  headers_get str_lower
    (DcosAuth_call str_lower "secret"
       [("authorization", "Basic x"); ("Accept", "*/*")])
    "accept"
  = Some "*/*".
Proof.
  destruct (DcosAuth_header str_lower
              {| credentials := []; auth_token := Some "secret" |}
              "secret" [("authorization", "Basic x"); ("Accept", "*/*")]
              eq_refl) as (H1 & H2).
  split.
  - apply (H1 "AUTHORIZATION"). reflexivity.
  - rewrite H2; [reflexivity|discriminate].
Defined.

(** The one header of a request that was sent with a lower-case
    [authorization]. *)
Example DcosAuth_replaces_any_spelling :
  DcosAuth_call str_lower "secret" [("authorization", "Basic x")]
  = [("Authorization", "token=secret")].
Proof. reflexivity. Qed.

(* ================================================================= *)
(** ** What the success of the other probes means *)

Lemma marathon_once_ok (w : world) (st st1 : state) (v : pyval) :
  _wait_for_marathon_up_once w st = (Some (Ok v), st1) ->
  exists lat r,
    network w (nreq st)
      {| method := GET; path := "/marathon/v2/info"; payload := None |}
    = Answer lat r /\
    nreq st1 = S (nreq st) /\
    v = PBool (status_code r =? 200)%Z.
Proof.
  unfold _wait_for_marathon_up_once, get, send, bind, ret.
  destruct (network w (nreq st) _) as [lat r|lat e]; [|discriminate].
  destruct (status_code r =? 200)%Z eqn:Hc; intros H; injection H as <- <-;
    exists lat, r; rewrite ?Hc; auto.
Qed.

Lemma metronome_once_ok (w : world) (st st1 : state) (v : pyval) :
  _wait_for_metronome_once w st = (Some (Ok v), st1) ->
  exists lat r,
    network w (nreq st)
      {| method := GET; path := "/service/metronome/v1/jobs"; payload := None |}
    = Answer lat r /\
    nreq st1 = S (nreq st) /\
    (v = PBool false \/ (v = PNone /\ status_code r = 200%Z)).
Proof.
  unfold _wait_for_metronome_once, get, send, bind, assert, ret, raise.
  destruct (network w (nreq st) _) as [lat r|lat e]; [|discriminate].
  destruct (status_in r expected_error_codes || (500 <=? status_code r)%Z).
  - intros H. injection H as <- <-. exists lat, r. auto.
  - destruct (Z.eqb_spec (status_code r) 200); [|discriminate].
    intros H. injection H as <- <-. exists lat, r. auto.
Qed.

Lemma all_healthy_once_ok (w : world) (st st1 : state) (v : pyval) :
  _wait_for_all_healthy_services_once w st = (Some (Ok v), st1) ->
  exists lat r units,
    network w (nreq st)
      {| method := GET; path := "/system/health/v1/units"; payload := None |}
    = Answer lat r /\
    ok r = true /\ json r = Units units /\
    nreq st1 = S (nreq st) /\
    node_lists_set (self st) = true /\
    v = PBool (forallb (fun unit => (snd unit =? 0)%Z) units).
Proof.
  destruct st as [[ml sl pl u a] c n tr].
  unfold _wait_for_all_healthy_services_once, health_get, raise_for_status,
    json_units, missing_key, masters, all_slaves, slaves, public_slaves,
    sorted_opt, get, send, lift, bind, get_self, ret, raise.
  cbn [self master_list slave_list public_slave_list nreq].
  destruct ml as [ml|]; cbn; [|discriminate].
  destruct sl as [sl|]; cbn; [|discriminate].
  destruct pl as [pl|]; cbn; [|discriminate].
  destruct (network w n _) as [lat r|lat e] eqn:Hnet; cbn; [|discriminate].
  destruct (ok r) eqn:Hok; cbn; [|discriminate].
  destruct (json r) eqn:Hj; cbn; try discriminate.
  intros H. injection H as <- <-.
  exists lat, r, units. repeat split; auto.
Qed.

(** X26. When [_wait_for_marathon_up] returns it returns [True], and
    when [_wait_for_metronome] returns it returns [None]; in both cases
    the last request of the probe was answered with status 200. *)
Theorem marathon_and_metronome_return (fuel : nat) (w : world)
    (st st' : state) (v : pyval) :
  (_wait_for_marathon_up fuel w st = (Some (Ok v), st') ->
   v = PBool true /\
   exists n lat r,
     nreq st' = S n /\
     network w n
       {| method := GET; path := "/marathon/v2/info"; payload := None |}
     = Answer lat r /\
     status_code r = 200%Z) /\
  (_wait_for_metronome fuel w st = (Some (Ok v), st') ->
   v = PNone /\
   exists n lat r,
     nreq st' = S n /\
     network w n
       {| method := GET; path := "/service/metronome/v1/jobs";
          payload := None |}
     = Answer lat r /\
     status_code r = 200%Z).
Proof.
  split; intros Hrun.
  - assert (Hv : v <> PBool false).
    { intros ->.
      apply (retry_never_false 1000 None _wait_for_marathon_up_once fuel w st).
      unfold _wait_for_marathon_up in Hrun. rewrite Hrun. reflexivity. }
    unfold _wait_for_marathon_up, retry in Hrun.
    apply (retry_call_inv _ _ _ (fun _ => True)) in Hrun; [|auto|exact I].
    destruct Hrun as (st0 & a0 & _ & Hfn & [[_ <-]|[_ Ha]]);
      [|destruct a0; discriminate Ha].
    apply marathon_once_ok in Hfn as (lat & r & Hnet & Hn & ->).
    destruct (Z.eqb_spec (status_code r) 200) as [Hc|Hc]; [|congruence].
    split; [reflexivity|]. exists (nreq st0), lat, r. auto.
  - assert (Hv : v <> PBool false).
    { intros ->.
      apply (retry_never_false 2000 None _wait_for_metronome_once fuel w st).
      unfold _wait_for_metronome in Hrun. rewrite Hrun. reflexivity. }
    unfold _wait_for_metronome, retry in Hrun.
    apply (retry_call_inv _ _ _ (fun _ => True)) in Hrun; [|auto|exact I].
    destruct Hrun as (st0 & a0 & _ & Hfn & [[_ <-]|[_ Ha]]);
      [|destruct a0; discriminate Ha].
    apply metronome_once_ok in Hfn as (lat & r & Hnet & Hn & [->|[-> Hc]]);
      [congruence|].
    split; [reflexivity|]. exists (nreq st0), lat, r. auto.
Qed.

Lemma marathon_and_metronome_return_witness :
  (PBool true = PBool true /\
   exists n lat r,
     nreq (snd (_wait_for_marathon_up 1 waiting_world
                  (initial_state full_session))) = S n /\
     network waiting_world n
       {| method := GET; path := "/marathon/v2/info"; payload := None |}
     = Answer lat r /\
     status_code r = 200%Z).
Proof.
  apply (proj1 (marathon_and_metronome_return 1 waiting_world
                  (initial_state full_session)
                  (snd (_wait_for_marathon_up 1 waiting_world
                          (initial_state full_session)))
                  (PBool true))).
  reflexivity.
Defined.

(** X27. When [_wait_for_all_healthy_services] returns it returns
    [True]: its last request was answered, without an HTTP error, by a
    list of units whose health is 0 for every unit, and the node lists of
    the session were set. *)
Theorem all_healthy_services_returns (fuel : nat) (w : world)
    (st st' : state) (v : pyval) :
  _wait_for_all_healthy_services fuel w st = (Some (Ok v), st') ->
  v = PBool true /\ node_lists_set (self st) = true /\
  exists n lat r units,
    nreq st' = S n /\
    network w n
      {| method := GET; path := "/system/health/v1/units"; payload := None |}
    = Answer lat r /\
    ok r = true /\ json r = Units units /\
    forall unit, In unit units -> snd unit = 0%Z.
Proof.
  intros Hrun.
  assert (Hv : v <> PBool false).
  { intros ->.
    apply (retry_never_false 2000 None _wait_for_all_healthy_services_once
             fuel w st).
    unfold _wait_for_all_healthy_services in Hrun. rewrite Hrun. reflexivity. }
  apply probe_accepted in Hrun as (st0 & Hself & Hfn).
  - apply all_healthy_once_ok in Hfn
      as (lat & r & units & Hnet & Hok & Hj & Hn & Hset & ->).
    destruct (forallb (fun unit => (snd unit =? 0)%Z) units) eqn:Hall;
      [|congruence].
    split; [reflexivity|]. rewrite Hself in Hset. split; [exact Hset|].
    exists (nreq st0), lat, r, units. repeat split; auto.
    intros unit Hin. rewrite forallb_forall in Hall.
    apply Z.eqb_eq, Hall, Hin.
  - apply steps_all_healthy_once.
    + exact same_self_refl.
    + exact same_self_trans.
    + exact same_self_send.
Qed.

Lemma all_healthy_services_returns_witness :
  let st := initial_state full_session in
  let st' := snd (_wait_for_all_healthy_services 1 waiting_world st) in
  PBool true = PBool true /\ node_lists_set (self st) = true /\
  exists n lat r units,
    nreq st' = S n /\
    network waiting_world n
      {| method := GET; path := "/system/health/v1/units"; payload := None |}
    = Answer lat r /\
    ok r = true /\ json r = Units units /\
    forall unit, In unit units -> snd unit = 0%Z.
Proof.
  intros st st'.
  apply (all_healthy_services_returns 1 waiting_world st st' (PBool true)).
  reflexivity.
Defined.
